(** * Lot-sizing tools: the MILP builders of [tools/lot_sizing_tool.py] and
    [tools/capacitated_lot_sizing_tool.py]

    The two Python modules build a mixed-integer linear program with gurobipy,
    hand it to the Gurobi solver and unpack the solution.  The embedding below
    follows the source statement by statement:

    - Python numbers (the floats of the source) are idealised as exact
      rationals [Q]; equality of numbers is [Qeq];
    - the gurobipy objects the source manipulates ([Model], [Var], [LinExpr],
      [tupledict], constraints) are records and lists;
    - the calls that leave the program ([gp.Model(...)], [m.optimize()],
      reading standard input, writing standard output) and the accesses to
      module-level variables are the nodes of a small program tree [prog], so
      that the solver is an arbitrary environment and the order and number of
      external calls can be stated;
    - raised exceptions are the [Raise] leaves of that tree. *)

From Stdlib Require Import QArith Qround Qabs ZArith List String Ascii Bool Lia Lqa.
From Stdlib Require Import DecimalString DecimalNat.
Import ListNotations.

Local Open Scope Q_scope.

#[local] Set Warnings "-register-all".

(** ** Exceptions and results *)

Inductive exn : Type :=
| ValueError (msg : string)
| RuntimeError (msg : string)
| KeyError (key : nat)
| IndexError (msg : string)
| TypeError (msg : string)
| JSONDecodeError (msg : string).

Inductive result (A : Type) : Type :=
| Ok (a : A)
| Err (e : exn).
Arguments Ok {A} a.
Arguments Err {A} e.

(** ** The Python built-ins the source uses *)

Module Py.

Definition len {A : Type} (xs : list A) : nat := List.length xs.

Definition range (n : nat) : list nat := seq 0 n.

(** [sum(xs)]: a left fold that starts from [0]. *)
Definition sum (xs : list Q) : Q := fold_left Qplus xs 0.

(** [max(xs)]: the first greatest element; an empty argument raises
    [ValueError]. *)
Definition max (xs : list Q) : result Q :=
  match xs with
  | [] => Err (ValueError "max() arg is an empty sequence")
  | x :: rest =>
      Ok (fold_left (fun m v => if Qlt_le_dec m v then v else m) rest x)
  end.

(** [round(x)] with one argument: nearest integer, ties to the even one. *)
Definition round (x : Q) : Z :=
  let f := Qfloor x in
  let r := x - inject_Z f in
  match Qcompare r (1 # 2) with
  | Lt => f
  | Gt => (f + 1)%Z
  | Eq => if Z.even f then f else (f + 1)%Z
  end.

(** [int(n)] of an integer. *)
Definition int (n : Z) : Z := n.

(** [xs[i]] on a list with [0 <= i]. *)
Definition getitem {A : Type} (xs : list A) (i : nat) : result A :=
  match nth_error xs i with
  | Some x => Ok x
  | None => Err (IndexError "list index out of range")
  end.

(** [str(n)], as used by the f-strings of the source. *)
Definition str_nat (n : nat) : string :=
  NilEmpty.string_of_uint (Nat.to_uint n).

Definition str_int (n : Z) : string :=
  NilEmpty.string_of_int (Z.to_int n).

End Py.

(** ** Python values that cross the JSON boundary *)

Inductive pyval : Type :=
| PyNone
| PyBool (b : bool)
| PyInt (n : Z)
| PyFloat (q : Q)
| PyStr (s : string)
| PyList (xs : list pyval)
| PyDict (kvs : list (string * pyval)).

(** The call [tool( **data )].  Python checks the keys at the call: each
    must be a keyword the callee takes, and each parameter without a default
    must have one.  It checks no type: a value of any type is bound and meets
    the body of the tool.  [as_float] and [as_float_list] read the values the
    annotations name, numbers and lists of numbers; what a tool does with a
    value of another type (a string, a boolean, [null], an object) is left
    open, see [untyped_call] below. *)
Module kwargs.

(** [d.get(k)] on a dict kept in insertion order. *)
Fixpoint get (d : list (string * pyval)) (k : string) : option pyval :=
  match d with
  | [] => None
  | (k', v) :: rest => if String.eqb k' k then Some v else get rest k
  end.

(** A number read as a float parameter. *)
Definition as_float (v : pyval) : result Q :=
  match v with
  | PyInt n => Ok (inject_Z n)
  | PyFloat q => Ok q
  | _ => Err (TypeError "a number is required")
  end.

Fixpoint as_floats (vs : list pyval) : result (list Q) :=
  match vs with
  | [] => Ok []
  | v :: rest =>
      match as_float v, as_floats rest with
      | Ok q, Ok qs => Ok (q :: qs)
      | Err e, _ => Err e
      | _, Err e => Err e
      end
  end.

(** A list of numbers read as a [List[float]] parameter. *)
Definition as_float_list (v : pyval) : result (list Q) :=
  match v with
  | PyList vs => as_floats vs
  | _ => Err (TypeError "a list is required")
  end.

(** A required keyword parameter. *)
Definition required {A : Type} (conv : pyval -> result A)
    (d : list (string * pyval)) (k : string) : result A :=
  match get d k with
  | Some v => conv v
  | None => Err (TypeError ("missing required argument: " ++ k))
  end.

(** A keyword parameter with a default value. *)
Definition optional {A : Type} (conv : pyval -> result A) (default : A)
    (d : list (string * pyval)) (k : string) : result A :=
  match get d k with
  | Some v => conv v
  | None => Ok default
  end.

(** Every key of the dict names a parameter. *)
Definition only (names : list string) (d : list (string * pyval))
    : result unit :=
  if forallb (fun kv => existsb (String.eqb (fst kv)) names) d
  then Ok tt
  else Err (TypeError "got an unexpected keyword argument").

(** Every parameter without a default has a key. *)
Fixpoint complete (names : list string) (d : list (string * pyval))
    : result unit :=
  match names with
  | [] => Ok tt
  | k :: rest =>
      match get d k with
      | Some _ => complete rest d
      | None => Err (TypeError ("missing required argument: " ++ k))
      end
  end.

(** The check of the keys at the call. *)
Definition check (keywords required : list string)
    (d : list (string * pyval)) : result unit :=
  match only keywords d with
  | Ok _ => complete required d
  | Err e => Err e
  end.

End kwargs.

(** ** The part of gurobipy the source uses *)

Module GRB.

Inductive vtype : Type := CONTINUOUS | BINARY.

Inductive objsense : Type := MINIMIZE | MAXIMIZE.

(** Status code of a model solved to proven optimality. *)
Definition OPTIMAL : Z := 2%Z.

End GRB.

Module gp.

(** A variable created by [addVars(T, name=...)]: its family name and its
    index in the family. *)
Record Var : Type := mkVar { VarName : string; VarIndex : nat }.

(** The attributes of a variable: bounds ([None] is an infinite upper bound)
    and type. *)
Record VarInfo : Type := mkVarInfo {
  var : Var;
  lb : Q;
  ub : option Q;
  vtype : GRB.vtype
}.

(** A linear expression: coefficient-variable terms and a constant. *)
Record LinExpr : Type := mkLinExpr {
  terms : list (Q * Var);
  constant : Q
}.

Inductive csense : Type := LESS_EQUAL | EQUAL | GREATER_EQUAL.

(** A named linear constraint [lhs sense rhs]. *)
Record Constr : Type := mkConstr {
  lhs : LinExpr;
  sense : csense;
  rhs : LinExpr;
  ConstrName : string
}.

Record Model : Type := mkModel {
  ModelName : string;
  OutputFlag : Z;
  vars : list VarInfo;
  constrs : list Constr;
  objective : LinExpr;
  ModelSense : GRB.objsense
}.

(** A [tupledict] is a Python dict from keys (here integers) to variables. *)
Definition tupledict : Type := list (nat * Var).

(** What [optimize] leaves in the model: the status code, the value [X] of
    every variable and the objective value [ObjVal]. *)
Record Outcome : Type := mkOutcome {
  Status : Z;
  X : Var -> Q;
  ObjVal : Q
}.

(** *** Linear expressions: the overloaded operators *)

Definition of_const (q : Q) : LinExpr := mkLinExpr [] q.
Definition of_var (v : Var) : LinExpr := mkLinExpr [(1, v)] 0.

Definition add (a b : LinExpr) : LinExpr :=
  mkLinExpr (terms a ++ terms b) (constant a + constant b).

Definition sub_const (a : LinExpr) (q : Q) : LinExpr :=
  mkLinExpr (terms a) (constant a - q).

Definition scale (q : Q) (a : LinExpr) : LinExpr :=
  mkLinExpr (map (fun cv => (q * fst cv, snd cv)) (terms a)) (q * constant a).

(** An item a Python iterable hands to [quicksum]: a number, a variable or
    an expression. *)
Inductive item : Type :=
| Number (q : Q)
| AVar (v : Var)
| AnExpr (e : LinExpr).

Definition of_item (i : item) : LinExpr :=
  match i with
  | Number q => of_const q
  | AVar v => of_var v
  | AnExpr e => e
  end.

(** [quicksum(data)]: the sum of the items that iterating [data] yields. *)
Definition quicksum (data : list item) : LinExpr :=
  fold_left (fun acc i => add acc (of_item i)) data (of_const 0).

(** The items [quicksum(d)] adds when [d] is a [tupledict]: its variables, in
    insertion order, as [d.values()] lists them. *)
Definition values (d : tupledict) : list item :=
  map (fun kv => AVar (snd kv)) d.

(** [d[k]]: a missing key raises [KeyError]. *)
Fixpoint getitem (d : tupledict) (k : nat) : result Var :=
  match d with
  | [] => Err (KeyError k)
  | (k', v) :: rest => if Nat.eqb k' k then Ok v else getitem rest k
  end.

(** *** Building a model *)

Definition new_model (name : string) : Model :=
  mkModel name 1%Z [] [] (of_const 0) GRB.MINIMIZE.

Definition set_OutputFlag (m : Model) (flag : Z) : Model :=
  mkModel (ModelName m) flag (vars m) (constrs m) (objective m)
          (ModelSense m).

(** [m.addVars(T, lb=..., vtype=..., name=...)]: [T] new variables with keys
    [0 .. T-1]; the upper bound keeps its default (infinite). *)
Definition addVars (m : Model) (T : nat) (lb : Q) (vt : GRB.vtype)
    (name : string) : tupledict * Model :=
  let d := map (fun t => (t, mkVar name t)) (Py.range T) in
  (d,
   mkModel (ModelName m) (OutputFlag m)
           (vars m ++ map (fun kv => mkVarInfo (snd kv) lb None vt) d)
           (constrs m) (objective m) (ModelSense m)).

Definition addConstr (m : Model) (l : LinExpr) (s : csense) (r : LinExpr)
    (name : string) : Model :=
  mkModel (ModelName m) (OutputFlag m) (vars m)
          (constrs m ++ [mkConstr l s r name]) (objective m) (ModelSense m).

Definition setObjective (m : Model) (e : LinExpr) (s : GRB.objsense)
    : Model :=
  mkModel (ModelName m) (OutputFlag m) (vars m) (constrs m) e s.

(** *** What a solution is *)

Definition eval (x : Var -> Q) (e : LinExpr) : Q :=
  fold_right (fun cv acc => fst cv * x (snd cv) + acc) (constant e) (terms e).

Definition var_okb (x : Var -> Q) (vi : VarInfo) : bool :=
  Qle_bool (lb vi) (x (var vi))
  && match ub vi with
     | Some u => Qle_bool (x (var vi)) u
     | None => true
     end
  && match vtype vi with
     | GRB.CONTINUOUS => true
     | GRB.BINARY => Qeq_bool (x (var vi)) 0 || Qeq_bool (x (var vi)) 1
     end.

Definition constr_okb (x : Var -> Q) (c : Constr) : bool :=
  match sense c with
  | LESS_EQUAL => Qle_bool (eval x (lhs c)) (eval x (rhs c))
  | EQUAL => Qeq_bool (eval x (lhs c)) (eval x (rhs c))
  | GREATER_EQUAL => Qle_bool (eval x (rhs c)) (eval x (lhs c))
  end.

(** [x] satisfies every bound, every integrality requirement and every
    constraint of [m]. *)
Definition feasibleb (m : Model) (x : Var -> Q) : bool :=
  forallb (var_okb x) (vars m) && forallb (constr_okb x) (constrs m).

(** The contract of the solver for one call: an outcome with status
    [OPTIMAL] carries a feasible point and the value of the objective at
    that point.  (That the point is also a minimiser is part of what Gurobi
    promises, but no statement below needs it.) *)
Definition sound (m : Model) (o : Outcome) : Prop :=
  Status o = GRB.OPTIMAL ->
  feasibleb m (X o) = true /\ ObjVal o == eval (X o) (objective m).

End gp.

Local Open Scope string_scope.

(** ** Programs: external calls and raised exceptions *)

(** A program of result type [A]: it returns, raises, performs one of the
    external calls of the source and continues with the answer, or reads or
    writes a module-level variable (the [LOAD_GLOBAL] and [STORE_GLOBAL] of
    the interpreter, by which Python code keeps state from one call to the
    next; reading a variable that was never written gives [None] here). *)
Inductive prog (A : Type) : Type :=
| Ret (a : A)
| Raise (e : exn)
| NewModel (name : string) (k : gp.Model -> prog A)
| Optimize (m : gp.Model) (k : gp.Outcome -> prog A)
| ReadStdin (k : string -> prog A)
| WriteStdout (s : string) (k : prog A)
| LoadGlobal (name : string) (k : option pyval -> prog A)
| StoreGlobal (name : string) (v : pyval) (k : prog A).
Arguments Ret {A} a.
Arguments Raise {A} e.
Arguments NewModel {A} name k.
Arguments Optimize {A} m k.
Arguments ReadStdin {A} k.
Arguments WriteStdout {A} s k.
Arguments LoadGlobal {A} name k.
Arguments StoreGlobal {A} name v k.

Fixpoint bind {A B : Type} (p : prog A) (f : A -> prog B) : prog B :=
  match p with
  | Ret a => f a
  | Raise e => Raise e
  | NewModel name k => NewModel name (fun m => bind (k m) f)
  | Optimize m k => Optimize m (fun o => bind (k o) f)
  | ReadStdin k => ReadStdin (fun s => bind (k s) f)
  | WriteStdout s k => WriteStdout s (bind k f)
  | LoadGlobal name k => LoadGlobal name (fun v => bind (k v) f)
  | StoreGlobal name v k => StoreGlobal name v (bind k f)
  end.

Declare Scope prog_scope.
Delimit Scope prog_scope with prog.
Notation "x <- p ;; q" := (bind p (fun x => q))
  (at level 61, p at next level, right associativity) : prog_scope.
Notation "' pat <- p ;; q" := (bind p (fun x => match x with pat => q end))
  (at level 61, pat pattern, p at next level, right associativity) : prog_scope.
Local Open Scope prog_scope.

(** A pure operation that may raise. *)
Definition lift {A : Type} (r : result A) : prog A :=
  match r with
  | Ok a => Ret a
  | Err e => Raise e
  end.

(** [for x in xs: body], threading the state the body updates. *)
Fixpoint for_each {S B : Type} (xs : list B) (body : B -> S -> prog S) (s : S)
    : prog S :=
  match xs with
  | [] => Ret s
  | x :: rest => s' <- body x s ;; for_each rest body s'
  end.

(** [[f(x) for x in xs]]. *)
Fixpoint comprehension {A B : Type} (f : B -> prog A) (xs : list B)
    : prog (list A) :=
  match xs with
  | [] => Ret []
  | x :: rest => a <- f x ;; r <- comprehension f rest ;; Ret (a :: r)
  end.

(** The external calls a run performs, in order, and its accesses to
    module-level variables; a solver call is recorded with the model submitted
    and the outcome read back. *)
Inductive call : Type :=
| CallNewModel (name : string)
| CallOptimize (m : gp.Model) (o : gp.Outcome)
| CallReadStdin
| CallWriteStdout (s : string)
| CallLoadGlobal (name : string)
| CallStoreGlobal (name : string) (v : pyval).

(** The environment of a run, with the state [W] of the process: the solver,
    which may consult and change that state at every call; the contents of
    standard input; the lines gurobipy prints on standard output when the
    process creates its first model (the library starts its default
    environment then and names the licence it found); and the module-level
    variables of the interpreter, which live in the state of the process and
    so outlive a call. *)
Record env (W : Type) : Type := mkEnv {
  solver : gp.Model -> W -> gp.Outcome * W;
  stdin : string;
  banner : string;
  load_global : string -> W -> option pyval;
  store_global : string -> pyval -> W -> W
}.
Arguments mkEnv {W} solver stdin banner load_global store_global.
Arguments solver {W} e m w.
Arguments stdin {W} e.
Arguments banner {W} e.
Arguments load_global {W} e name w.
Arguments store_global {W} e name v w.

(** Running a program: the result, the final state of the environment and the
    external calls performed. *)
Fixpoint run {W A : Type} (E : env W) (p : prog A) (w : W)
    : result A * W * list call :=
  match p with
  | Ret a => (Ok a, w, [])
  | Raise e => (Err e, w, [])
  | NewModel name k =>
      let '(r, w', cs) := run E (k (gp.new_model name)) w in
      (r, w', CallNewModel name :: cs)
  | Optimize m k =>
      let '(o, w1) := solver E m w in
      let '(r, w', cs) := run E (k o) w1 in
      (r, w', CallOptimize m o :: cs)
  | ReadStdin k =>
      let '(r, w', cs) := run E (k (stdin E)) w in
      (r, w', CallReadStdin :: cs)
  | WriteStdout s k =>
      let '(r, w', cs) := run E k w in
      (r, w', CallWriteStdout s :: cs)
  | LoadGlobal name k =>
      let '(r, w', cs) := run E (k (load_global E name w)) w in
      (r, w', CallLoadGlobal name :: cs)
  | StoreGlobal name v k =>
      let '(r, w', cs) := run E k (store_global E name v w) in
      (r, w', CallStoreGlobal name v :: cs)
  end.

(** ** The part of the [json] module the source uses *)

Module json.

Definition newline : string := String (ascii_of_nat 10) EmptyString.

Fixpoint spaces (n : nat) : string :=
  match n with
  | O => EmptyString
  | S k => String " " (spaces k)
  end.

Fixpoint join (sep : string) (xs : list string) : string :=
  match xs with
  | [] => EmptyString
  | [x] => x
  | x :: rest => x ++ sep ++ join sep rest
  end.

Section dumps.

(** [float.__repr__] and the escaping of a string are the library's. *)
Variable float_repr : Q -> string.
Variable encode_basestring : string -> string.

(** The number of spaces of one indentation step. *)
Variable indent : nat.

Definition newline_indent (level : nat) : string :=
  newline ++ spaces (indent * level).

(** [json.dumps(v, indent=indent)] at nesting depth [level]: every item
    of a non-empty list or dict on a line of its own. *)
Fixpoint encode (level : nat) (v : pyval) : string :=
  match v with
  | PyNone => "null"
  | PyBool true => "true"
  | PyBool false => "false"
  | PyInt n => Py.str_int n
  | PyFloat q => float_repr q
  | PyStr s => encode_basestring s
  | PyList [] => "[]"
  | PyList xs =>
      "[" ++ newline_indent (S level)
      ++ join ("," ++ newline_indent (S level))
              (map (encode (S level)) xs)
      ++ newline_indent level ++ "]"
  | PyDict [] => "{}"
  | PyDict kvs =>
      "{" ++ newline_indent (S level)
      ++ join ("," ++ newline_indent (S level))
              (map (fun kv : string * pyval => let (k, x) := kv in
                      encode_basestring k ++ ": " ++ encode (S level) x)
                   kvs)
      ++ newline_indent level ++ "}"
  end.

Definition dumps (v : pyval) : string := encode 0 v.

End dumps.

End json.

(** ** [tools/lot_sizing_tool.py] *)

Module lot_sizing_tool.

(** The body of the loop [for t in range(T)] of [_solve_core]. *)
Definition loop_body (demand : list Q) (initial_inventory bigM : Q)
    (prod inv y : gp.tupledict) (t : nat) (m : gp.Model) : prog gp.Model :=
  prev_inv <- (if Nat.eqb t 0
               then Ret (gp.of_const initial_inventory)
               else v <- lift (gp.getitem inv (t - 1)) ;; Ret (gp.of_var v)) ;;
  p <- lift (gp.getitem prod t) ;;
  d <- lift (Py.getitem demand t) ;;
  i <- lift (gp.getitem inv t) ;;
  let m := gp.addConstr m
             (gp.sub_const (gp.add prev_inv (gp.of_var p)) d)
             gp.EQUAL (gp.of_var i)
             ("bal_" ++ Py.str_nat t) in
  p <- lift (gp.getitem prod t) ;;
  yt <- lift (gp.getitem y t) ;;
  let m := gp.addConstr m
             (gp.of_var p) gp.LESS_EQUAL (gp.scale bigM (gp.of_var yt))
             ("link_" ++ Py.str_nat t) in
  Ret m.

Definition _solve_core (demand : list Q)
    (setup_cost unit_cost holding_cost initial_inventory : Q)
    : prog (list Q * list Q * list Z * Q) :=
  let T := Py.len demand in
  NewModel "lot_sizing" (fun m =>
  let m := gp.set_OutputFlag m 0 in
  let '(prod, m) := gp.addVars m T 0 GRB.CONTINUOUS "prod" in
  let '(inv, m) := gp.addVars m T 0 GRB.CONTINUOUS "inv" in
  let '(y, m) := gp.addVars m T 0 GRB.BINARY "setup" in
  let bigM := Py.sum demand + initial_inventory in
  m <- for_each (Py.range T)
         (loop_body demand initial_inventory bigM prod inv y) m ;;
  let cost :=
    gp.add
      (gp.add (gp.scale setup_cost (gp.quicksum (gp.values y)))
              (gp.scale unit_cost (gp.quicksum (gp.values prod))))
      (gp.scale holding_cost (gp.quicksum (gp.values inv))) in
  let m := gp.setObjective m cost GRB.MINIMIZE in
  Optimize m (fun o =>
  if negb (Z.eqb (gp.Status o) GRB.OPTIMAL)
  then Raise (RuntimeError ("Gurobi status " ++ Py.str_int (gp.Status o)
                            ++ ": optimisation failed"))
  else
    plan <- comprehension
              (fun t => v <- lift (gp.getitem prod t) ;; Ret (gp.X o v))
              (Py.range T) ;;
    invs <- comprehension
              (fun t => v <- lift (gp.getitem inv t) ;; Ret (gp.X o v))
              (Py.range T) ;;
    setups <- comprehension
              (fun t => v <- lift (gp.getitem y t) ;;
                        Ret (Py.int (Py.round (gp.X o v))))
              (Py.range T) ;;
    Ret (plan, invs, setups, gp.ObjVal o))).

(** The tool [solve_lot_sizing]: the four results under their keys. *)
Definition solve_lot_sizing (demand : list Q)
    (setup_cost unit_cost holding_cost initial_inventory : Q)
    : prog (list (string * pyval)) :=
  '(plan, inv, setups, cost) <-
     _solve_core demand setup_cost unit_cost holding_cost initial_inventory ;;
  Ret [("production_plan", PyList (map PyFloat plan));
       ("inventory", PyList (map PyFloat inv));
       ("setup", PyList (map PyInt setups));
       ("total_cost", PyFloat cost)].

(** The tool [solve_lot_sizing_basic]: the plan and the cost. *)
Definition solve_lot_sizing_basic (demand : list Q)
    (setup_cost unit_cost holding_cost initial_inventory : Q)
    : prog (list Q * Q) :=
  '(plan, _inv, _setup, cost) <-
     _solve_core demand setup_cost unit_cost holding_cost initial_inventory ;;
  Ret (plan, cost).

(** The keywords a call of [solve_lot_sizing] takes.  The decorator [@tool]
    makes the function a smolagents [Tool]: its [__call__] takes the keyword
    [sanitize_inputs_outputs] for itself, which changes nothing for numbers
    and a dict result, and passes the others on to the function. *)
Definition keywords : list string :=
  ["demand"; "setup_cost"; "unit_cost"; "holding_cost"; "initial_inventory";
   "sanitize_inputs_outputs"].

(** The parameters without a default. *)
Definition required : list string :=
  ["demand"; "setup_cost"; "unit_cost"; "holding_cost"].

(** Binding the keys of a dict to the parameters of [solve_lot_sizing] and
    reading the values as the annotations name them; [initial_inventory]
    defaults to [0.0].  An [Err] for a value of another type is no error of
    the call: see [call_solve_lot_sizing]. *)
Definition bind_parameters (d : list (string * pyval))
    : result (list Q * Q * Q * Q * Q) :=
  match kwargs.only keywords d,
        kwargs.required kwargs.as_float_list d "demand",
        kwargs.required kwargs.as_float d "setup_cost",
        kwargs.required kwargs.as_float d "unit_cost",
        kwargs.required kwargs.as_float d "holding_cost",
        kwargs.optional kwargs.as_float 0 d "initial_inventory"
  with
  | Ok _, Ok demand, Ok setup_cost, Ok unit_cost, Ok holding_cost,
    Ok initial_inventory =>
      Ok (demand, setup_cost, unit_cost, holding_cost, initial_inventory)
  | Err e, _, _, _, _, _
  | _, Err e, _, _, _, _
  | _, _, Err e, _, _, _
  | _, _, _, Err e, _, _
  | _, _, _, _, Err e, _
  | _, _, _, _, _, Err e => Err e
  end.

Section main.

(** [json.loads], [float.__repr__] and the string escaping of [json] are
    the library's. *)
Variable json_loads : string -> result pyval.
Variable float_repr : Q -> string.
Variable encode_basestring : string -> string.

(** What the tool does with keys that pass the check of the call and values
    that are not all of the annotated types: the body runs on them and fails,
    or not, at the first operation that rejects one.  This development does
    not follow it there. *)
Variable untyped_call : list (string * pyval) -> prog (list (string * pyval)).

(** [solve_lot_sizing( **data )]. *)
Definition call_solve_lot_sizing (data : pyval)
    : prog (list (string * pyval)) :=
  match data with
  | PyDict d =>
      _ <- lift (kwargs.check keywords required d) ;;
      match bind_parameters d with
      | Ok (demand, setup_cost, unit_cost, holding_cost, initial_inventory) =>
          solve_lot_sizing demand setup_cost unit_cost holding_cost
                           initial_inventory
      | Err _ => untyped_call d
      end
  | _ => Raise (TypeError "argument after ** must be a mapping")
  end.

(** The block under [if __name__ == "__main__"]. *)
Definition main : prog unit :=
  ReadStdin (fun text =>
  data <- lift (json_loads text) ;;
  result <- call_solve_lot_sizing data ;;
  WriteStdout (json.dumps float_repr encode_basestring 2 (PyDict result))
  (WriteStdout json.newline
  (Ret tt))).

End main.

End lot_sizing_tool.

(** ** [tools/capacitated_lot_sizing_tool.py] *)

Module capacitated_lot_sizing_tool.

(** The body of the loop [for t in range(T)] of [_solve_cap_core]. *)
Definition loop_body (demand capacity : list Q) (initial_inventory bigM : Q)
    (prod inv y : gp.tupledict) (t : nat) (m : gp.Model) : prog gp.Model :=
  prev_inv <- (if Nat.eqb t 0
               then Ret (gp.of_const initial_inventory)
               else v <- lift (gp.getitem inv (t - 1)) ;; Ret (gp.of_var v)) ;;
  p <- lift (gp.getitem prod t) ;;
  d <- lift (Py.getitem demand t) ;;
  i <- lift (gp.getitem inv t) ;;
  let m := gp.addConstr m
             (gp.sub_const (gp.add prev_inv (gp.of_var p)) d)
             gp.EQUAL (gp.of_var i)
             ("bal_" ++ Py.str_nat t) in
  p <- lift (gp.getitem prod t) ;;
  c <- lift (Py.getitem capacity t) ;;
  let m := gp.addConstr m
             (gp.of_var p) gp.LESS_EQUAL (gp.of_const c)
             ("cap_" ++ Py.str_nat t) in
  p <- lift (gp.getitem prod t) ;;
  yt <- lift (gp.getitem y t) ;;
  let m := gp.addConstr m
             (gp.of_var p) gp.LESS_EQUAL (gp.scale bigM (gp.of_var yt))
             ("link_" ++ Py.str_nat t) in
  Ret m.

Definition _solve_cap_core (demand capacity : list Q)
    (setup_cost unit_cost holding_cost initial_inventory : Q)
    : prog (list Q * list Q * list Z * Q) :=
  if negb (Nat.eqb (Py.len demand) (Py.len capacity))
  then Raise (ValueError "'demand' and 'capacity' must have the same length")
  else
  let T := Py.len demand in
  NewModel "cap_lot_sizing" (fun m =>
  let m := gp.set_OutputFlag m 0 in
  let '(prod, m) := gp.addVars m T 0 GRB.CONTINUOUS "prod" in
  let '(inv, m) := gp.addVars m T 0 GRB.CONTINUOUS "inv" in
  let '(y, m) := gp.addVars m T 0 GRB.BINARY "setup" in
  bigM <- lift (Py.max capacity) ;;
  m <- for_each (Py.range T)
         (loop_body demand capacity initial_inventory bigM prod inv y) m ;;
  let cost :=
    gp.add
      (gp.add (gp.scale setup_cost (gp.quicksum (gp.values y)))
              (gp.scale unit_cost (gp.quicksum (gp.values prod))))
      (gp.scale holding_cost (gp.quicksum (gp.values inv))) in
  let m := gp.setObjective m cost GRB.MINIMIZE in
  Optimize m (fun o =>
  if negb (Z.eqb (gp.Status o) GRB.OPTIMAL)
  then Raise (RuntimeError ("Gurobi status " ++ Py.str_int (gp.Status o)
                            ++ ": optimisation failed"))
  else
    plan <- comprehension
              (fun t => v <- lift (gp.getitem prod t) ;; Ret (gp.X o v))
              (Py.range T) ;;
    invs <- comprehension
              (fun t => v <- lift (gp.getitem inv t) ;; Ret (gp.X o v))
              (Py.range T) ;;
    setups <- comprehension
              (fun t => v <- lift (gp.getitem y t) ;;
                        Ret (Py.int (Py.round (gp.X o v))))
              (Py.range T) ;;
    Ret (plan, invs, setups, gp.ObjVal o))).

(** The tool [solve_cap_lot_sizing]. *)
Definition solve_cap_lot_sizing (demand capacity : list Q)
    (setup_cost unit_cost holding_cost initial_inventory : Q)
    : prog (list (string * pyval)) :=
  '(plan, inv, setups, cost) <-
     _solve_cap_core demand capacity setup_cost unit_cost holding_cost
                     initial_inventory ;;
  Ret [("production_plan", PyList (map PyFloat plan));
       ("inventory", PyList (map PyFloat inv));
       ("setup", PyList (map PyInt setups));
       ("total_cost", PyFloat cost)].

(** The tool [solve_cap_lot_sizing_basic]. *)
Definition solve_cap_lot_sizing_basic (demand capacity : list Q)
    (setup_cost unit_cost holding_cost initial_inventory : Q)
    : prog (list Q * Q) :=
  '(plan, _inv, _setup, cost) <-
     _solve_cap_core demand capacity setup_cost unit_cost holding_cost
                     initial_inventory ;;
  Ret (plan, cost).

(** The keywords a call of [solve_cap_lot_sizing] takes: its parameters and
    the [sanitize_inputs_outputs] of the [Tool] the decorator builds. *)
Definition keywords : list string :=
  ["demand"; "capacity"; "setup_cost"; "unit_cost"; "holding_cost";
   "initial_inventory"; "sanitize_inputs_outputs"].

(** The parameters without a default. *)
Definition required : list string :=
  ["demand"; "capacity"; "setup_cost"; "unit_cost"; "holding_cost"].

(** Binding the keys of a dict to the parameters of [solve_cap_lot_sizing]
    and reading the values as the annotations name them;
    [initial_inventory] defaults to [0.0].  An [Err] for a value of another
    type is no error of the call: see [call_solve_cap_lot_sizing]. *)
Definition bind_parameters (d : list (string * pyval))
    : result (list Q * list Q * Q * Q * Q * Q) :=
  match kwargs.only keywords d,
        kwargs.required kwargs.as_float_list d "demand",
        kwargs.required kwargs.as_float_list d "capacity",
        kwargs.required kwargs.as_float d "setup_cost",
        kwargs.required kwargs.as_float d "unit_cost",
        kwargs.required kwargs.as_float d "holding_cost",
        kwargs.optional kwargs.as_float 0 d "initial_inventory"
  with
  | Ok _, Ok demand, Ok capacity, Ok setup_cost, Ok unit_cost,
    Ok holding_cost, Ok initial_inventory =>
      Ok (demand, capacity, setup_cost, unit_cost, holding_cost,
          initial_inventory)
  | Err e, _, _, _, _, _, _
  | _, Err e, _, _, _, _, _
  | _, _, Err e, _, _, _, _
  | _, _, _, Err e, _, _, _
  | _, _, _, _, Err e, _, _
  | _, _, _, _, _, Err e, _
  | _, _, _, _, _, _, Err e => Err e
  end.

Section main.

Variable json_loads : string -> result pyval.
Variable float_repr : Q -> string.
Variable encode_basestring : string -> string.

(** As in [lot_sizing_tool]: the call on values of other types. *)
Variable untyped_call : list (string * pyval) -> prog (list (string * pyval)).

(** [solve_cap_lot_sizing( **params )]. *)
Definition call_solve_cap_lot_sizing (params : pyval)
    : prog (list (string * pyval)) :=
  match params with
  | PyDict d =>
      _ <- lift (kwargs.check keywords required d) ;;
      match bind_parameters d with
      | Ok (demand, capacity, setup_cost, unit_cost, holding_cost,
            initial_inventory) =>
          solve_cap_lot_sizing demand capacity setup_cost unit_cost
                               holding_cost initial_inventory
      | Err _ => untyped_call d
      end
  | _ => Raise (TypeError "argument after ** must be a mapping")
  end.

(** The block under [if __name__ == "__main__"]. *)
Definition main : prog unit :=
  ReadStdin (fun text =>
  params <- lift (json_loads text) ;;
  result <- call_solve_cap_lot_sizing params ;;
  WriteStdout (json.dumps float_repr encode_basestring 2 (PyDict result))
  (WriteStdout json.newline
  (Ret tt))).

End main.

End capacitated_lot_sizing_tool.

(** ** The formulation, period by period

    Closed forms of what the loops of the two builders add to the model; the
    lemmas below show that the builders produce exactly these. *)

Module formulation.

Definition prod (t : nat) : gp.Var := gp.mkVar "prod" t.
Definition inv (t : nat) : gp.Var := gp.mkVar "inv" t.
Definition setup (t : nat) : gp.Var := gp.mkVar "setup" t.

(** The variables: [T] of each family, in the order of creation. *)
Definition variables (T : nat) : list gp.VarInfo :=
  ((map (fun t => gp.mkVarInfo (prod t) 0 None GRB.CONTINUOUS) (Py.range T)
    ++ map (fun t => gp.mkVarInfo (inv t) 0 None GRB.CONTINUOUS)
           (Py.range T))
   ++ map (fun t => gp.mkVarInfo (setup t) 0 None GRB.BINARY) (Py.range T)
  )%list.

(** [bal_t]: [prev_inv + prod[t] - demand[t] == inv[t]]. *)
Definition balance (demand : list Q) (initial_inventory : Q) (t : nat)
    : gp.Constr :=
  gp.mkConstr
    (gp.sub_const
       (gp.add (if Nat.eqb t 0 then gp.of_const initial_inventory
                else gp.of_var (inv (t - 1)))
               (gp.of_var (prod t)))
       (nth t demand 0))
    gp.EQUAL (gp.of_var (inv t)) ("bal_" ++ Py.str_nat t).

(** [link_t]: [prod[t] <= bigM * y[t]]. *)
Definition linking (bigM : Q) (t : nat) : gp.Constr :=
  gp.mkConstr (gp.of_var (prod t)) gp.LESS_EQUAL
              (gp.scale bigM (gp.of_var (setup t)))
              ("link_" ++ Py.str_nat t).

(** [cap_t]: [prod[t] <= capacity[t]]. *)
Definition capacity_bound (capacity : list Q) (t : nat) : gp.Constr :=
  gp.mkConstr (gp.of_var (prod t)) gp.LESS_EQUAL
              (gp.of_const (nth t capacity 0))
              ("cap_" ++ Py.str_nat t).

(** The [tupledict] that [addVars(T, name=...)] returns. *)
Definition family (name : string) (T : nat) : gp.tupledict :=
  map (fun t => (t, gp.mkVar name t)) (Py.range T).

(** The objective as the source writes it. *)
Definition cost (setup_cost unit_cost holding_cost : Q) (T : nat)
    : gp.LinExpr :=
  gp.add
    (gp.add (gp.scale setup_cost (gp.quicksum (gp.values (family "setup" T))))
            (gp.scale unit_cost (gp.quicksum (gp.values (family "prod" T)))))
    (gp.scale holding_cost (gp.quicksum (gp.values (family "inv" T)))).

(** What the result adapter returns for an outcome [o]. *)
Definition unpack (T : nat) (o : gp.Outcome)
    : list Q * list Q * list Z * Q :=
  (map (fun t => gp.X o (prod t)) (Py.range T),
   map (fun t => gp.X o (inv t)) (Py.range T),
   map (fun t => Py.int (Py.round (gp.X o (setup t)))) (Py.range T),
   gp.ObjVal o).

(** The message of the [RuntimeError] for a status code. *)
Definition failure (status : Z) : exn :=
  RuntimeError ("Gurobi status " ++ Py.str_int status
                ++ ": optimisation failed").

(** The model [_solve_core] submits. *)
Definition lot_sizing (demand : list Q)
    (setup_cost unit_cost holding_cost initial_inventory : Q) : gp.Model :=
  let T := Py.len demand in
  gp.mkModel "lot_sizing" 0 (variables T)
    (flat_map (fun t => [balance demand initial_inventory t;
                         linking (Py.sum demand + initial_inventory) t])
              (Py.range T))
    (cost setup_cost unit_cost holding_cost T) GRB.MINIMIZE.

(** The model [_solve_cap_core] submits when the big-M is [bigM]. *)
Definition cap_lot_sizing (demand capacity : list Q)
    (setup_cost unit_cost holding_cost initial_inventory bigM : Q)
    : gp.Model :=
  let T := Py.len demand in
  gp.mkModel "cap_lot_sizing" 0 (variables T)
    (flat_map (fun t => [balance demand initial_inventory t;
                         capacity_bound capacity t;
                         linking bigM t])
              (Py.range T))
    (cost setup_cost unit_cost holding_cost T) GRB.MINIMIZE.

End formulation.

(** ** Vocabulary of the statements *)

(** The result of a run. *)
Definition outcome_of {W A : Type} (E : env W) (p : prog A) (w : W)
    : result A := fst (fst (run E p w)).

(** The external calls of a run. *)
Definition calls_of {W A : Type} (E : env W) (p : prog A) (w : W)
    : list call := snd (run E p w).

(** The state of the environment after a run. *)
Definition state_after {W A : Type} (E : env W) (p : prog A) (w : W) : W :=
  snd (fst (run E p w)).

(** The run returns the value [a]. *)
Definition returns {W A : Type} (E : env W) (p : prog A) (w : W) (a : A)
    : Prop := outcome_of E p w = Ok a.

(** The solver of the environment honours its contract at every call. *)
Definition sound_env {W : Type} (E : env W) : Prop :=
  forall m w, gp.sound m (fst (solver E m w)).

(** The solver of the environment is deterministic: its outcome depends on
    the model only, not on the state the environment is in. *)
Definition deterministic_env {W : Type} (E : env W) : Prop :=
  forall m w1 w2, fst (solver E m w1) = fst (solver E m w2).

(** The models submitted to the solver during a run. *)
Fixpoint submitted (cs : list call) : list gp.Model :=
  match cs with
  | [] => []
  | CallOptimize m _ :: rest => m :: submitted rest
  | _ :: rest => submitted rest
  end.

(** What a run left on standard output.  The source writes there with
    [sys.stdout]; gurobipy writes there too: when the process creates its
    first model the library prints the lines of its licence, [banner], before
    the source sets [OutputFlag]. *)
Fixpoint stdout_from (started : bool) (banner : string) (cs : list call)
    : string :=
  match cs with
  | [] => EmptyString
  | CallNewModel _ :: rest =>
      (if started then EmptyString else banner)
      ++ stdout_from true banner rest
  | CallWriteStdout s :: rest => s ++ stdout_from started banner rest
  | _ :: rest => stdout_from started banner rest
  end.

Definition stdout (banner : string) (cs : list call) : string :=
  stdout_from false banner cs.

(** *** The named parameters of a JSON object *)

(** The JSON value [v] is the number [q]. *)
Definition number (v : pyval) (q : Q) : Prop :=
  match v with
  | PyInt n => q = inject_Z n
  | PyFloat x => q = x
  | _ => False
  end.

(** The object [d] names the number [q], or the series of numbers [qs], under
    the key [k]. *)
Definition names_number (d : list (string * pyval)) (k : string) (q : Q)
    : Prop :=
  exists v, In (k, v) d /\ number v q.

Definition names_series (d : list (string * pyval)) (k : string)
    (qs : list Q) : Prop :=
  exists vs, In (k, PyList vs) d /\ Forall2 number vs qs.

(** The object names the number [q] under [k], or has no key [k] and [q] is
    the default. *)
Definition names_number_or (default : Q) (d : list (string * pyval))
    (k : string) (q : Q) : Prop :=
  names_number d k q \/ (~ In k (map fst d) /\ q = default).

(** The balance invariant of an inventory trajectory. *)
Definition balance_invariant (initial_inventory : Q)
    (demand production inventory : list Q) : Prop :=
  forall t, (t < Py.len demand)%nat ->
    nth t inventory 0
      == (if Nat.eqb t 0 then initial_inventory else nth (t - 1) inventory 0)
         + nth t production 0 - nth t demand 0
    /\ 0 <= nth t inventory 0
    /\ 0 <= nth t production 0.

(** A valid Demand Series: no negative entry. *)
Definition nonnegative (xs : list Q) : Prop := Forall (fun x => 0 <= x) xs.

(** The two shapes the tools give to the four results of a core. *)
Definition structured (v : list Q * list Q * list Z * Q)
    : list (string * pyval) :=
  let '(plan, inv, setups, cost) := v in
  [("production_plan", PyList (map PyFloat plan));
   ("inventory", PyList (map PyFloat inv));
   ("setup", PyList (map PyInt setups));
   ("total_cost", PyFloat cost)].

Definition compact (v : list Q * list Q * list Z * Q) : list Q * Q :=
  let '(plan, _, _, cost) := v in (plan, cost).

Definition map_result {A B : Type} (f : A -> B) (r : result A) : result B :=
  match r with
  | Ok a => Ok (f a)
  | Err e => Err e
  end.

(** [sum(xs)] of a list of integers, as a number. *)
Definition sum_int (xs : list Z) : Q := Py.sum (map inject_Z xs).

(** ** Concrete environments *)

(** The line gurobipy prints under the licence that ships with the
    package. *)
Definition example_banner : string :=
  "Restricted license - for non-production use only - expires 2026-11-23"
  ++ json.newline.

(** A solver that only knows one candidate point: it reports [OPTIMAL] with
    that point when the point is feasible for the model, and the status code
    [3] (infeasible) otherwise.  Its state counts the calls it has answered;
    the process it runs in defines no module-level variable. *)
Definition candidate_solver (x0 : gp.Var -> Q) (m : gp.Model) (w : nat)
    : gp.Outcome * nat :=
  if gp.feasibleb m x0
  then (gp.mkOutcome GRB.OPTIMAL x0 (gp.eval x0 (gp.objective m)), S w)
  else (gp.mkOutcome 3 x0 0, S w).

Definition candidate_env (x0 : gp.Var -> Q) (input : string) : env nat :=
  mkEnv (candidate_solver x0) input example_banner
        (fun _ _ => None) (fun _ _ w => w).

(** The lot-for-lot point: produce the demand of every period in that period,
    hold nothing, set up in every period. *)
Definition lot_for_lot (demand : list Q) (v : gp.Var) : Q :=
  if String.eqb (gp.VarName v) "prod" then nth (gp.VarIndex v) demand 0
  else if String.eqb (gp.VarName v) "setup" then 1
  else 0.

(** The single-lot point: produce the demand of all periods in period 0,
    hold what is still to be delivered, set up in period 0 only. *)
Definition single_lot (demand : list Q) (v : gp.Var) : Q :=
  let t := gp.VarIndex v in
  if String.eqb (gp.VarName v) "prod"
  then (if Nat.eqb t 0 then Py.sum demand else 0)
  else if String.eqb (gp.VarName v) "inv"
  then Py.sum demand - Py.sum (firstn (S t) demand)
  else (if Nat.eqb t 0 then 1 else 0).

(** The demand of the usage example in the docstring of the module. *)
Definition example_demand : list Q := [100; 150; 80; 130].
Definition example_capacity : list Q := [300; 300; 300; 300].

(** What the result adapter guarantees about the four results it builds from
    an outcome [o] of the solver over [T] periods. *)
Definition adapted (T : nat) (o : gp.Outcome)
    (v : list Q * list Q * list Z * Q) : Prop :=
  let '(plan, inv, setups, cost) := v in
  plan = map (fun t => gp.X o (formulation.prod t)) (Py.range T)
  /\ inv = map (fun t => gp.X o (formulation.inv t)) (Py.range T)
  /\ setups
     = map (fun t => Py.round (gp.X o (formulation.setup t))) (Py.range T)
  /\ cost = gp.ObjVal o
  /\ Py.len plan = T /\ Py.len inv = T /\ Py.len setups = T
  /\ forall t, (t < T)%nat ->
       Qabs (inject_Z (nth t setups 0%Z) - gp.X o (formulation.setup t))
       <= 1 # 2.

(** The run submitted the model [m] to the solver and read back [o]. *)
Definition solver_answered {W A : Type} (E : env W) (p : prog A) (w : W)
    (m : gp.Model) (o : gp.Outcome) : Prop :=
  In (CallOptimize m o) (calls_of E p w).

(** A point that no model with a variable bounded below by [0] accepts. *)
Definition nowhere (v : gp.Var) : Q := -1.

(** An access to a module-level variable. *)
Definition is_global (c : call) : bool :=
  match c with
  | CallLoadGlobal _ | CallStoreGlobal _ _ => true
  | _ => false
  end.

(** The run reads and writes no module-level variable. *)
Definition stateless {W A : Type} (E : env W) (p : prog A) (w : W) : Prop :=
  forallb (fun c => negb (is_global c)) (calls_of E p w) = true.

(** A call of [p] keeps nothing for the next one: it reads and writes no
    module-level variable, and a second call of [p], made in the state the
    first call left, gives the result of the first call and submits the same
    models. *)
Definition repeatable {W A : Type} (E : env W) (p : prog A) (w : W) : Prop :=
  stateless E p w
  /\ outcome_of E p (state_after E p w) = outcome_of E p w
  /\ submitted (calls_of E p (state_after E p w))
     = submitted (calls_of E p w).

(** A process that keeps its module-level variables, next to the candidate
    solver: the state is the list of the assignments made so far, the latest
    first. *)
Definition interpreter_env (x0 : gp.Var -> Q) (input : string)
    : env (list (string * pyval)) :=
  mkEnv (fun m w => (fst (candidate_solver x0 m 0), w)) input example_banner
        (fun name w => kwargs.get w name)
        (fun name v w => (name, v) :: w).

(** A function that is not in the source: it counts its calls in a
    module-level variable and returns how many came before. *)
Definition count_calls : prog Z :=
  LoadGlobal "calls" (fun v =>
  let n := match v with
           | Some (PyInt n) => n
           | _ => 0%Z
           end in
  StoreGlobal "calls" (PyInt (n + 1))
  (Ret n)).

(** *** A concrete command line *)

Definition quote : string := String (ascii_of_nat 34) EmptyString.

(** [float.__repr__] on a float with an integral value. *)
Definition whole_repr (q : Q) : string := Py.str_int (Qfloor q) ++ ".0".

(** The escaping of a string that needs no escape. *)
Definition quoted (s : string) : string := quote ++ s ++ quote.

(** The input of the usage example in the docstring of the module. *)
Definition example_input : string :=
  "{" ++ quoted "demand" ++ ":[100,150,80,130],"
  ++ quoted "setup_cost" ++ ":1000," ++ quoted "unit_cost" ++ ":50,"
  ++ quoted "holding_cost" ++ ":2}".

Definition example_data : list (string * pyval) :=
  [("demand", PyList [PyInt 100; PyInt 150; PyInt 80; PyInt 130]);
   ("setup_cost", PyInt 1000);
   ("unit_cost", PyInt 50);
   ("holding_cost", PyInt 2)].

(** A parser that knows the example input only. *)
Definition example_loads (s : string) : result pyval :=
  if String.eqb s example_input then Ok (PyDict example_data)
  else Err (JSONDecodeError "Expecting value").

(** The text of a dict of four results at two spaces per level. *)
Definition layout (float_repr : Q -> string)
    (encode_basestring : string -> string)
    (v : list Q * list Q * list Z * Q) : string :=
  let '(plan, inv, setups, cost) := v in
  "{" ++ json.newline
  ++ "  " ++ encode_basestring "production_plan" ++ ": "
  ++ json.encode float_repr encode_basestring 2 1 (PyList (map PyFloat plan))
  ++ "," ++ json.newline
  ++ "  " ++ encode_basestring "inventory" ++ ": "
  ++ json.encode float_repr encode_basestring 2 1 (PyList (map PyFloat inv))
  ++ "," ++ json.newline
  ++ "  " ++ encode_basestring "setup" ++ ": "
  ++ json.encode float_repr encode_basestring 2 1 (PyList (map PyInt setups))
  ++ "," ++ json.newline
  ++ "  " ++ encode_basestring "total_cost" ++ ": " ++ float_repr cost
  ++ json.newline ++ "}".

(** The output of the example: the dict of the single-lot plan, which is the
    optimal one, one item per line, two spaces per nesting level, and a final
    newline. *)
Definition example_output : string :=
  let nl := json.newline in
  "{" ++ nl
  ++ "  " ++ quoted "production_plan" ++ ": [" ++ nl
  ++ "    460.0," ++ nl ++ "    0.0," ++ nl ++ "    0.0," ++ nl
  ++ "    0.0" ++ nl
  ++ "  ]," ++ nl
  ++ "  " ++ quoted "inventory" ++ ": [" ++ nl
  ++ "    360.0," ++ nl ++ "    210.0," ++ nl ++ "    130.0," ++ nl
  ++ "    0.0" ++ nl
  ++ "  ]," ++ nl
  ++ "  " ++ quoted "setup" ++ ": [" ++ nl
  ++ "    1," ++ nl ++ "    0," ++ nl ++ "    0," ++ nl ++ "    0" ++ nl
  ++ "  ]," ++ nl
  ++ "  " ++ quoted "total_cost" ++ ": 25400.0" ++ nl
  ++ "}" ++ nl.

(** A stand-in for the calls on values of other types. *)
Definition untyped_fails (d : list (string * pyval))
    : prog (list (string * pyval)) :=
  Raise (TypeError "unsupported operand type(s)").

(** ** Cumulative quantities and a plan that always works *)

(** [xs[0] + ... + xs[t]]. *)
Definition cumulative (xs : list Q) (t : nat) : Q := Py.sum (firstn (S t) xs).

(** The stock left at the end of period [t] when nothing is produced before
    the initial inventory is used up: [max(0, initial_inventory - (d[0] + ...
    + d[t]))]. *)
Definition leftover (demand : list Q) (initial_inventory : Q) (t : nat) : Q :=
  let rest := initial_inventory - cumulative demand t in
  if Qle_bool 0 rest then rest else 0.

(** The point that produces, in every period, exactly what the stock does not
    cover, and sets up in every period. *)
Definition produce_shortfall (demand : list Q) (initial_inventory : Q)
    (v : gp.Var) : Q :=
  let t := gp.VarIndex v in
  let prev := match t with
              | O => initial_inventory
              | S t' => leftover demand initial_inventory t'
              end in
  if String.eqb (gp.VarName v) "prod"
  then leftover demand initial_inventory t - prev + nth t demand 0
  else if String.eqb (gp.VarName v) "inv"
  then leftover demand initial_inventory t
  else 1.

(** An input object that lacks the demand, and a parser that yields it. *)
Definition incomplete_data : list (string * pyval) :=
  [("setup_cost", PyInt 1000); ("unit_cost", PyInt 50);
   ("holding_cost", PyInt 2)].

Definition incomplete_loads (s : string) : result pyval :=
  Ok (PyDict incomplete_data).

(** * Proofs *)

(** ** Lemmas on the Python built-ins and on gurobipy *)

Lemma getitem_seq (name : string) (n a t : nat) :
  (a <= t < a + n)%nat ->
  gp.getitem (map (fun t => (t, gp.mkVar name t)) (seq a n)) t
  = Ok (gp.mkVar name t).
Proof.
  revert a. induction n as [|n IH]; intros a Ht; [lia|].
  simpl. destruct (Nat.eqb a t) eqn:Hat.
  - apply Nat.eqb_eq in Hat. now subst.
  - apply Nat.eqb_neq in Hat. apply IH. lia.
Qed.

Lemma getitem_family (name : string) (T t : nat) :
  (t < T)%nat ->
  gp.getitem (formulation.family name T) t = Ok (gp.mkVar name t).
Proof.
  intros Ht. unfold formulation.family, Py.range. apply getitem_seq. lia.
Qed.

Lemma Py_getitem_nth {A : Type} (xs : list A) (t : nat) (d : A) :
  (t < Py.len xs)%nat -> Py.getitem xs t = Ok (nth t xs d).
Proof.
  intros Ht. unfold Py.getitem.
  now rewrite (nth_error_nth' xs d Ht).
Qed.

Lemma for_each_lot_sizing (demand : list Q) (init bigM : Q) (n a : nat)
    (m : gp.Model) :
  (a + n <= Py.len demand)%nat ->
  for_each (seq a n)
    (lot_sizing_tool.loop_body demand init bigM
       (formulation.family "prod" (Py.len demand))
       (formulation.family "inv" (Py.len demand))
       (formulation.family "setup" (Py.len demand))) m
  = Ret (gp.mkModel (gp.ModelName m) (gp.OutputFlag m) (gp.vars m)
           (gp.constrs m
            ++ flat_map (fun t => [formulation.balance demand init t;
                                   formulation.linking bigM t]) (seq a n))%list
           (gp.objective m) (gp.ModelSense m)).
Proof.
  revert a m. induction n as [|n IH]; intros a m Ha.
  - simpl. rewrite app_nil_r. now destruct m.
  - cbn [for_each seq]. unfold lot_sizing_tool.loop_body at 1.
    assert (Hprev :
      (if Nat.eqb a 0 then Ret (gp.of_const init)
       else v <- lift (gp.getitem
                         (formulation.family "inv" (Py.len demand)) (a - 1)) ;;
            Ret (gp.of_var v))
      = Ret (if Nat.eqb a 0 then gp.of_const init
             else gp.of_var (formulation.inv (a - 1)))).
    { destruct (Nat.eqb a 0) eqn:Ha0; [reflexivity|].
      apply Nat.eqb_neq in Ha0.
      rewrite getitem_family by lia. reflexivity. }
    rewrite Hprev.
    rewrite !getitem_family by lia.
    rewrite (Py_getitem_nth demand a 0) by lia.
    cbn [bind lift].
    rewrite IH by lia.
    unfold gp.addConstr. cbn [gp.ModelName gp.OutputFlag gp.vars gp.constrs
                               gp.objective gp.ModelSense flat_map].
    rewrite <- !app_assoc. reflexivity.
Qed.

Lemma comprehension_family {A : Type} (f : gp.Var -> A) (name : string)
    (T n a : nat) :
  (a + n <= T)%nat ->
  comprehension
    (fun t => v <- lift (gp.getitem (formulation.family name T) t) ;;
              Ret (f v)) (seq a n)
  = Ret (map (fun t => f (gp.mkVar name t)) (seq a n)).
Proof.
  revert a. induction n as [|n IH]; intros a Ha; [reflexivity|].
  cbn [comprehension seq map].
  rewrite getitem_family by lia. cbn [bind lift].
  rewrite IH by lia. reflexivity.
Qed.

Lemma map_map_seq_info (name : string) (l : Q) (vt : GRB.vtype) (T : nat) :
  map (fun kv : nat * gp.Var => gp.mkVarInfo (snd kv) l None vt)
      (formulation.family name T)
  = map (fun t => gp.mkVarInfo (gp.mkVar name t) l None vt) (Py.range T).
Proof. unfold formulation.family. now rewrite map_map. Qed.

Lemma run_solve_core {W : Type} (E : env W) (w : W) (demand : list Q)
    (setup_cost unit_cost holding_cost initial_inventory : Q) :
  run E (lot_sizing_tool._solve_core demand setup_cost unit_cost holding_cost
           initial_inventory) w
  = let m := formulation.lot_sizing demand setup_cost unit_cost holding_cost
               initial_inventory in
    let o := fst (solver E m w) in
    (if Z.eqb (gp.Status o) GRB.OPTIMAL
     then Ok (formulation.unpack (Py.len demand) o)
     else Err (formulation.failure (gp.Status o)),
     snd (solver E m w),
     [CallNewModel "lot_sizing"; CallOptimize m o]).
Proof.
  match goal with |- _ = ?R => set (rhs := R) end.
  unfold lot_sizing_tool._solve_core.
  cbn [run]. unfold gp.addVars, gp.set_OutputFlag, gp.new_model.
  cbn [gp.ModelName gp.OutputFlag gp.vars gp.constrs gp.objective
       gp.ModelSense app].
  fold (formulation.family "prod" (Py.len demand)).
  fold (formulation.family "inv" (Py.len demand)).
  fold (formulation.family "setup" (Py.len demand)).
  unfold Py.range at 1.
  rewrite for_each_lot_sizing by lia.
  cbn [bind gp.ModelName gp.OutputFlag gp.vars gp.constrs gp.objective
       gp.ModelSense app run].
  unfold gp.setObjective.
  cbn [gp.ModelName gp.OutputFlag gp.vars gp.constrs gp.objective
       gp.ModelSense app].
  rewrite !map_map_seq_info.
  match goal with
  | |- context [solver E ?M w] =>
      change M with (formulation.lot_sizing demand setup_cost unit_cost
                       holding_cost initial_inventory)
  end.
  subst rhs. cbv zeta.
  destruct (solver E _ w) as [o w1]. cbn [fst snd].
  destruct (Z.eqb (gp.Status o) GRB.OPTIMAL); cbn [negb].
  - unfold Py.range.
    rewrite !comprehension_family by lia.
    reflexivity.
  - reflexivity.
Qed.

Lemma for_each_cap_lot_sizing (demand capacity : list Q) (init bigM : Q)
    (n a : nat) (m : gp.Model) :
  Py.len demand = Py.len capacity ->
  (a + n <= Py.len demand)%nat ->
  for_each (seq a n)
    (capacitated_lot_sizing_tool.loop_body demand capacity init bigM
       (formulation.family "prod" (Py.len demand))
       (formulation.family "inv" (Py.len demand))
       (formulation.family "setup" (Py.len demand))) m
  = Ret (gp.mkModel (gp.ModelName m) (gp.OutputFlag m) (gp.vars m)
           (gp.constrs m
            ++ flat_map (fun t => [formulation.balance demand init t;
                                   formulation.capacity_bound capacity t;
                                   formulation.linking bigM t]) (seq a n))%list
           (gp.objective m) (gp.ModelSense m)).
Proof.
  intros Hlen. revert a m. induction n as [|n IH]; intros a m Ha.
  - simpl. rewrite app_nil_r. now destruct m.
  - cbn [for_each seq]. unfold capacitated_lot_sizing_tool.loop_body at 1.
    assert (Hprev :
      (if Nat.eqb a 0 then Ret (gp.of_const init)
       else v <- lift (gp.getitem
                         (formulation.family "inv" (Py.len demand)) (a - 1)) ;;
            Ret (gp.of_var v))
      = Ret (if Nat.eqb a 0 then gp.of_const init
             else gp.of_var (formulation.inv (a - 1)))).
    { destruct (Nat.eqb a 0) eqn:Ha0; [reflexivity|].
      apply Nat.eqb_neq in Ha0.
      rewrite getitem_family by lia. reflexivity. }
    rewrite Hprev.
    rewrite !getitem_family by lia.
    rewrite (Py_getitem_nth demand a 0) by lia.
    rewrite (Py_getitem_nth capacity a 0) by lia.
    cbn [bind lift].
    rewrite IH by lia.
    unfold gp.addConstr. cbn [gp.ModelName gp.OutputFlag gp.vars gp.constrs
                               gp.objective gp.ModelSense flat_map].
    rewrite <- !app_assoc. reflexivity.
Qed.

Lemma run_solve_cap_core {W : Type} (E : env W) (w : W)
    (demand capacity : list Q)
    (setup_cost unit_cost holding_cost initial_inventory : Q) :
  run E (capacitated_lot_sizing_tool._solve_cap_core demand capacity
           setup_cost unit_cost holding_cost initial_inventory) w
  = if negb (Nat.eqb (Py.len demand) (Py.len capacity))
    then (Err (ValueError
                 "'demand' and 'capacity' must have the same length"), w, [])
    else
      match Py.max capacity with
      | Err e => (Err e, w, [CallNewModel "cap_lot_sizing"])
      | Ok bigM =>
          let m := formulation.cap_lot_sizing demand capacity setup_cost
                     unit_cost holding_cost initial_inventory bigM in
          let o := fst (solver E m w) in
          (if Z.eqb (gp.Status o) GRB.OPTIMAL
           then Ok (formulation.unpack (Py.len demand) o)
           else Err (formulation.failure (gp.Status o)),
           snd (solver E m w),
           [CallNewModel "cap_lot_sizing"; CallOptimize m o])
      end.
Proof.
  unfold capacitated_lot_sizing_tool._solve_cap_core.
  destruct (Nat.eqb (Py.len demand) (Py.len capacity)) eqn:Hlen;
    cbn [negb]; [|reflexivity].
  apply Nat.eqb_eq in Hlen.
  destruct (Py.max capacity) as [bigM|e] eqn:Hmax; [|reflexivity].
  match goal with |- _ = ?R => set (rhs := R) end.
  cbn [run]. unfold gp.addVars, gp.set_OutputFlag, gp.new_model.
  cbn [gp.ModelName gp.OutputFlag gp.vars gp.constrs gp.objective
       gp.ModelSense app lift bind].
  fold (formulation.family "prod" (Py.len demand)).
  fold (formulation.family "inv" (Py.len demand)).
  fold (formulation.family "setup" (Py.len demand)).
  unfold Py.range at 1.
  rewrite for_each_cap_lot_sizing by (trivial; lia).
  cbn [bind gp.ModelName gp.OutputFlag gp.vars gp.constrs gp.objective
       gp.ModelSense app run].
  unfold gp.setObjective.
  cbn [gp.ModelName gp.OutputFlag gp.vars gp.constrs gp.objective
       gp.ModelSense app].
  rewrite !map_map_seq_info.
  match goal with
  | |- context [solver E ?M w] =>
      change M with (formulation.cap_lot_sizing demand capacity setup_cost
                       unit_cost holding_cost initial_inventory bigM)
  end.
  subst rhs. cbv zeta.
  destruct (solver E _ w) as [o w1]. cbn [fst snd].
  destruct (Z.eqb (gp.Status o) GRB.OPTIMAL); cbn [negb].
  - unfold Py.range.
    rewrite !comprehension_family by lia.
    reflexivity.
  - reflexivity.
Qed.

(** *** What feasibility gives, constraint by constraint *)

Lemma nth_map_range {A : Type} (f : nat -> A) (T t : nat) (d : A) :
  (t < T)%nat -> nth t (map f (Py.range T)) d = f t.
Proof.
  intros Ht. unfold Py.range.
  rewrite (nth_indep _ d (f 0%nat)) by now rewrite length_map, length_seq.
  rewrite map_nth, seq_nth by trivial. reflexivity.
Qed.

Lemma feasible_constr (m : gp.Model) (x : gp.Var -> Q) (c : gp.Constr) :
  gp.feasibleb m x = true -> In c (gp.constrs m) -> gp.constr_okb x c = true.
Proof.
  unfold gp.feasibleb. intros H Hc. apply andb_prop in H as [_ H].
  rewrite forallb_forall in H. now apply H.
Qed.

Lemma feasible_var (m : gp.Model) (x : gp.Var -> Q) (vi : gp.VarInfo) :
  gp.feasibleb m x = true -> In vi (gp.vars m) -> gp.var_okb x vi = true.
Proof.
  unfold gp.feasibleb. intros H Hc. apply andb_prop in H as [H _].
  rewrite forallb_forall in H. now apply H.
Qed.

Lemma balance_ok (x : gp.Var -> Q) (demand : list Q) (init : Q) (t : nat) :
  gp.constr_okb x (formulation.balance demand init t) = true ->
  x (formulation.inv t)
  == (if Nat.eqb t 0 then init else x (formulation.inv (t - 1)))
     + x (formulation.prod t) - nth t demand 0.
Proof.
  unfold gp.constr_okb, formulation.balance. cbn [gp.sense gp.lhs gp.rhs].
  intros H. apply Qeq_bool_iff in H. revert H.
  destruct (Nat.eqb t 0); unfold gp.eval; cbn; intros H; lra.
Qed.

Lemma linking_ok (x : gp.Var -> Q) (bigM : Q) (t : nat) :
  gp.constr_okb x (formulation.linking bigM t) = true ->
  x (formulation.prod t) <= bigM * x (formulation.setup t).
Proof.
  unfold gp.constr_okb, formulation.linking. cbn [gp.sense gp.lhs gp.rhs].
  intros H. apply Qle_bool_iff in H. revert H.
  unfold gp.eval; cbn; intros H.
  setoid_replace (bigM * x (formulation.setup t))
    with (bigM * 1 * x (formulation.setup t) + bigM * 0) by ring.
  lra.
Qed.

Lemma capacity_bound_ok (x : gp.Var -> Q) (capacity : list Q) (t : nat) :
  gp.constr_okb x (formulation.capacity_bound capacity t) = true ->
  x (formulation.prod t) <= nth t capacity 0.
Proof.
  unfold gp.constr_okb, formulation.capacity_bound.
  cbn [gp.sense gp.lhs gp.rhs].
  intros H. apply Qle_bool_iff in H. revert H.
  unfold gp.eval; cbn; intros H. lra.
Qed.

Lemma continuous_ok (x : gp.Var -> Q) (v : gp.Var) :
  gp.var_okb x (gp.mkVarInfo v 0 None GRB.CONTINUOUS) = true -> 0 <= x v.
Proof.
  unfold gp.var_okb. cbn. rewrite !andb_true_r. apply Qle_bool_iff.
Qed.

Lemma binary_ok (x : gp.Var -> Q) (v : gp.Var) :
  gp.var_okb x (gp.mkVarInfo v 0 None GRB.BINARY) = true ->
  x v == 0 \/ x v == 1.
Proof.
  unfold gp.var_okb. cbn. rewrite andb_true_r. intros H.
  apply andb_prop in H as [_ H]. apply orb_prop in H as [H|H];
    apply Qeq_bool_iff in H; auto.
Qed.

Lemma in_variables_prod (T t : nat) :
  (t < T)%nat ->
  In (gp.mkVarInfo (formulation.prod t) 0 None GRB.CONTINUOUS)
     (formulation.variables T).
Proof.
  intros Ht. unfold formulation.variables.
  apply in_or_app; left; apply in_or_app; left.
  apply in_map_iff. exists t. split; [reflexivity|].
  apply in_seq. lia.
Qed.

Lemma in_variables_inv (T t : nat) :
  (t < T)%nat ->
  In (gp.mkVarInfo (formulation.inv t) 0 None GRB.CONTINUOUS)
     (formulation.variables T).
Proof.
  intros Ht. unfold formulation.variables.
  apply in_or_app; left; apply in_or_app; right.
  apply in_map_iff. exists t. split; [reflexivity|].
  apply in_seq. lia.
Qed.

Lemma in_variables_setup (T t : nat) :
  (t < T)%nat ->
  In (gp.mkVarInfo (formulation.setup t) 0 None GRB.BINARY)
     (formulation.variables T).
Proof.
  intros Ht. unfold formulation.variables.
  apply in_or_app; right.
  apply in_map_iff. exists t. split; [reflexivity|].
  apply in_seq. lia.
Qed.

(** *** Running a sequence *)

Lemma run_bind {W A B : Type} (E : env W) (p : prog A) (f : A -> prog B)
    (w : W) :
  run E (bind p f) w
  = match run E p w with
    | (Ok a, w1, cs) =>
        let '(r, w2, cs2) := run E (f a) w1 in (r, w2, (cs ++ cs2)%list)
    | (Err e, w1, cs) => (Err e, w1, cs)
    end.
Proof.
  revert w.
  induction p as [a|e|name k IH|m k IH|k IH|s k IH|name k IH|name v k IH];
    intros w; cbn [bind run].
  - now destruct (run E (f a) w) as [[r w2] cs2].
  - reflexivity.
  - rewrite IH. destruct (run E (k (gp.new_model name)) w) as [[[a|e] w1] cs];
      [|reflexivity].
    now destruct (run E (f a) w1) as [[r w2] cs2].
  - destruct (solver E m w) as [o w0]. rewrite IH.
    destruct (run E (k o) w0) as [[[a|e] w1] cs]; [|reflexivity].
    now destruct (run E (f a) w1) as [[r w2] cs2].
  - rewrite IH. destruct (run E (k (stdin E)) w) as [[[a|e] w1] cs];
      [|reflexivity].
    now destruct (run E (f a) w1) as [[r w2] cs2].
  - rewrite IH. destruct (run E k w) as [[[a|e] w1] cs]; [|reflexivity].
    now destruct (run E (f a) w1) as [[r w2] cs2].
  - rewrite IH.
    destruct (run E (k (load_global E name w)) w) as [[[a|e] w1] cs];
      [|reflexivity].
    now destruct (run E (f a) w1) as [[r w2] cs2].
  - rewrite IH.
    destruct (run E k (store_global E name v w)) as [[[a|e] w1] cs];
      [|reflexivity].
    now destruct (run E (f a) w1) as [[r w2] cs2].
Qed.

(** A tool that reshapes the result of a core runs as the core does. *)
Lemma run_reshape {W A B : Type} (E : env W) (p : prog A) (f : A -> B)
    (w : W) :
  run E (bind p (fun a => Ret (f a))) w
  = (map_result f (outcome_of E p w), state_after E p w, calls_of E p w).
Proof.
  rewrite run_bind. unfold outcome_of, state_after, calls_of.
  destruct (run E p w) as [[[a|e] w1] cs]; cbn; [|reflexivity].
  now rewrite app_nil_r.
Qed.

Lemma run_solve_lot_sizing {W : Type} (E : env W) (w : W) (demand : list Q)
    (sc uc hc init : Q) :
  run E (lot_sizing_tool.solve_lot_sizing demand sc uc hc init) w
  = (map_result structured
       (outcome_of E (lot_sizing_tool._solve_core demand sc uc hc init) w),
     state_after E (lot_sizing_tool._solve_core demand sc uc hc init) w,
     calls_of E (lot_sizing_tool._solve_core demand sc uc hc init) w).
Proof.
  rewrite <- run_reshape. unfold lot_sizing_tool.solve_lot_sizing.
  rewrite !run_bind.
  destruct (run E _ w) as [[[[[[plan inv] setups] cost]|e] w1] cs];
    reflexivity.
Qed.

Lemma run_solve_lot_sizing_basic {W : Type} (E : env W) (w : W)
    (demand : list Q) (sc uc hc init : Q) :
  run E (lot_sizing_tool.solve_lot_sizing_basic demand sc uc hc init) w
  = (map_result compact
       (outcome_of E (lot_sizing_tool._solve_core demand sc uc hc init) w),
     state_after E (lot_sizing_tool._solve_core demand sc uc hc init) w,
     calls_of E (lot_sizing_tool._solve_core demand sc uc hc init) w).
Proof.
  rewrite <- run_reshape. unfold lot_sizing_tool.solve_lot_sizing_basic.
  rewrite !run_bind.
  destruct (run E _ w) as [[[[[[plan inv] setups] cost]|e] w1] cs];
    reflexivity.
Qed.

Lemma run_solve_cap_lot_sizing {W : Type} (E : env W) (w : W)
    (demand capacity : list Q) (sc uc hc init : Q) :
  run E (capacitated_lot_sizing_tool.solve_cap_lot_sizing demand capacity
           sc uc hc init) w
  = (map_result structured
       (outcome_of E (capacitated_lot_sizing_tool._solve_cap_core demand
                        capacity sc uc hc init) w),
     state_after E (capacitated_lot_sizing_tool._solve_cap_core demand
                      capacity sc uc hc init) w,
     calls_of E (capacitated_lot_sizing_tool._solve_cap_core demand capacity
                   sc uc hc init) w).
Proof.
  rewrite <- run_reshape.
  unfold capacitated_lot_sizing_tool.solve_cap_lot_sizing.
  rewrite !run_bind.
  destruct (run E _ w) as [[[[[[plan inv] setups] cost]|e] w1] cs];
    reflexivity.
Qed.

Lemma run_solve_cap_lot_sizing_basic {W : Type} (E : env W) (w : W)
    (demand capacity : list Q) (sc uc hc init : Q) :
  run E (capacitated_lot_sizing_tool.solve_cap_lot_sizing_basic demand
           capacity sc uc hc init) w
  = (map_result compact
       (outcome_of E (capacitated_lot_sizing_tool._solve_cap_core demand
                        capacity sc uc hc init) w),
     state_after E (capacitated_lot_sizing_tool._solve_cap_core demand
                      capacity sc uc hc init) w,
     calls_of E (capacitated_lot_sizing_tool._solve_cap_core demand capacity
                   sc uc hc init) w).
Proof.
  rewrite <- run_reshape.
  unfold capacitated_lot_sizing_tool.solve_cap_lot_sizing_basic.
  rewrite !run_bind.
  destruct (run E _ w) as [[[[[[plan inv] setups] cost]|e] w1] cs];
    reflexivity.
Qed.

(** *** The candidate solver honours the contract *)

Lemma candidate_sound (x0 : gp.Var -> Q) (input : string) :
  sound_env (candidate_env x0 input).
Proof.
  intros m w. unfold gp.sound, candidate_env, solver, candidate_solver.
  destruct (gp.feasibleb m x0) eqn:Hf; cbn.
  - intros _. split; [assumption|reflexivity].
  - unfold GRB.OPTIMAL. discriminate.
Qed.


(** *** When a core returns *)

Lemma core_returns {W : Type} (E : env W) (w : W) (demand : list Q)
    (sc uc hc init : Q) (v : list Q * list Q * list Z * Q) :
  returns E (lot_sizing_tool._solve_core demand sc uc hc init) w v ->
  let o := fst (solver E (formulation.lot_sizing demand sc uc hc init) w) in
  gp.Status o = GRB.OPTIMAL /\ v = formulation.unpack (Py.len demand) o.
Proof.
  unfold returns, outcome_of. rewrite run_solve_core. cbn [fst].
  destruct (Z.eqb _ GRB.OPTIMAL) eqn:Hs; [|discriminate].
  intros H. injection H as <-. apply Z.eqb_eq in Hs. now split.
Qed.

Lemma cap_core_returns {W : Type} (E : env W) (w : W)
    (demand capacity : list Q) (sc uc hc init : Q)
    (v : list Q * list Q * list Z * Q) :
  returns E (capacitated_lot_sizing_tool._solve_cap_core demand capacity
               sc uc hc init) w v ->
  Py.len demand = Py.len capacity /\
  exists bigM, Py.max capacity = Ok bigM /\
    let o := fst (solver E (formulation.cap_lot_sizing demand capacity
                              sc uc hc init bigM) w) in
    gp.Status o = GRB.OPTIMAL /\ v = formulation.unpack (Py.len demand) o.
Proof.
  unfold returns, outcome_of. rewrite run_solve_cap_core.
  destruct (Nat.eqb (Py.len demand) (Py.len capacity)) eqn:Hlen;
    cbn [negb fst]; [|discriminate].
  apply Nat.eqb_eq in Hlen.
  destruct (Py.max capacity) as [bigM|e]; [|discriminate].
  cbn [fst].
  destruct (Z.eqb _ GRB.OPTIMAL) eqn:Hs; [|discriminate].
  intros H. injection H as <-. apply Z.eqb_eq in Hs.
  split; [assumption|]. exists bigM. now repeat split.
Qed.

Lemma in_lot_sizing_constrs (demand : list Q) (sc uc hc init : Q) (t : nat) :
  (t < Py.len demand)%nat ->
  In (formulation.balance demand init t)
     (gp.constrs (formulation.lot_sizing demand sc uc hc init))
  /\ In (formulation.linking (Py.sum demand + init) t)
        (gp.constrs (formulation.lot_sizing demand sc uc hc init)).
Proof.
  intros Ht. unfold formulation.lot_sizing. cbn [gp.constrs].
  split; apply in_flat_map; exists t;
    (split; [apply in_seq; lia | cbn; auto]).
Qed.

Lemma in_cap_lot_sizing_constrs (demand capacity : list Q)
    (sc uc hc init bigM : Q) (t : nat) :
  (t < Py.len demand)%nat ->
  In (formulation.balance demand init t)
     (gp.constrs (formulation.cap_lot_sizing demand capacity sc uc hc init
                    bigM))
  /\ In (formulation.capacity_bound capacity t)
        (gp.constrs (formulation.cap_lot_sizing demand capacity sc uc hc init
                       bigM))
  /\ In (formulation.linking bigM t)
        (gp.constrs (formulation.cap_lot_sizing demand capacity sc uc hc init
                       bigM)).
Proof.
  intros Ht. unfold formulation.cap_lot_sizing. cbn [gp.constrs].
  repeat split; apply in_flat_map; exists t;
    (split; [apply in_seq; lia | cbn; auto]).
Qed.

(** A point that satisfies the balance constraints and the bounds of the
    variables gives a trajectory with the balance invariant. *)
Lemma feasible_balance_invariant (m : gp.Model) (x : gp.Var -> Q)
    (demand : list Q) (init : Q) :
  gp.feasibleb m x = true ->
  gp.vars m = formulation.variables (Py.len demand) ->
  (forall t, (t < Py.len demand)%nat ->
     In (formulation.balance demand init t) (gp.constrs m)) ->
  balance_invariant init demand
    (map (fun t => x (formulation.prod t)) (Py.range (Py.len demand)))
    (map (fun t => x (formulation.inv t)) (Py.range (Py.len demand))).
Proof.
  intros Hf Hv Hb t Ht.
  rewrite (nth_map_range (fun t => x (formulation.prod t)) _ t) by trivial.
  rewrite (nth_map_range (fun t => x (formulation.inv t)) _ t) by trivial.
  assert (Hprev :
    (if Nat.eqb t 0 then init
     else nth (t - 1)
            (map (fun t => x (formulation.inv t)) (Py.range (Py.len demand)))
            0)
    = (if Nat.eqb t 0 then init else x (formulation.inv (t - 1)))).
  { destruct (Nat.eqb t 0); [reflexivity|].
    now rewrite nth_map_range by lia. }
  rewrite Hprev.
  split; [|split].
  - apply balance_ok. eapply feasible_constr; eauto.
  - apply continuous_ok. eapply feasible_var; eauto.
    rewrite Hv. now apply in_variables_inv.
  - apply continuous_ok. eapply feasible_var; eauto.
    rewrite Hv. now apply in_variables_prod.
Qed.

Lemma balance_invariant_of_returned_trajectory_aux :
  forall (W : Type) (E : env W) (w : W) (demand : list Q)
         (sc uc hc init : Q) (plan inv : list Q) (setups : list Z) (cost : Q),
    sound_env E ->
    returns E (lot_sizing_tool._solve_core demand sc uc hc init) w
            (plan, inv, setups, cost) ->
    Py.len inv = Py.len demand /\ balance_invariant init demand plan inv.
Proof.
  intros W E w demand sc uc hc init plan inv setups cost Hsound Hret.
  apply core_returns in Hret as [Hopt Hv].
  unfold formulation.unpack in Hv. injection Hv as -> -> _ _.
  split; [unfold Py.len, Py.range; now rewrite length_map, length_seq|].
  destruct (Hsound _ w Hopt) as [Hf _].
  eapply feasible_balance_invariant; eauto.
  intros t Ht. now apply in_lot_sizing_constrs.
Qed.

(** *** Rounding and summing *)

Lemma round_Qeq (x y : Q) : x == y -> Py.round x = Py.round y.
Proof.
  intros H. unfold Py.round.
  assert (Hf : Qfloor x = Qfloor y) by now apply Qfloor_comp.
  rewrite Hf.
  assert (Hc : Qcompare (x - inject_Z (Qfloor y)) (1 # 2)
               = Qcompare (y - inject_Z (Qfloor y)) (1 # 2)).
  { apply Qcompare_comp; [now rewrite H | reflexivity]. }
  now rewrite Hc.
Qed.

Lemma round_binary (y : Q) :
  y == 0 \/ y == 1 -> inject_Z (Py.int (Py.round y)) == y.
Proof.
  unfold Py.int. intros [H|H]; rewrite (round_Qeq _ _ H), H; reflexivity.
Qed.

(** [round] gives a nearest integer. *)
Lemma round_nearest (x : Q) : Qabs (inject_Z (Py.round x) - x) <= 1 # 2.
Proof.
  unfold Py.round.
  pose proof (Qfloor_le x) as Hlo. pose proof (Qlt_floor x) as Hhi.
  rewrite inject_Z_plus in Hhi. change (inject_Z 1) with 1 in Hhi.
  apply Qabs_Qle_condition.
  destruct (Qcompare (x - inject_Z (Qfloor x)) (1 # 2)) eqn:Hc.
  - apply Qeq_alt in Hc.
    destruct (Z.even (Qfloor x));
      [|rewrite inject_Z_plus; change (inject_Z 1) with 1]; split; lra.
  - apply Qlt_alt in Hc. split; lra.
  - apply Qgt_alt in Hc. rewrite inject_Z_plus.
    change (inject_Z 1) with 1. split; lra.
Qed.

Lemma fold_sum_nonneg (xs : list Q) (acc : Q) :
  nonnegative xs -> 0 <= acc -> 0 <= fold_left Qplus xs acc.
Proof.
  intros H. revert acc. induction H as [|x xs Hx _ IH]; intros acc Hacc.
  - exact Hacc.
  - cbn. apply IH. lra.
Qed.

Lemma sum_nonneg (xs : list Q) : nonnegative xs -> 0 <= Py.sum xs.
Proof. intros H. apply fold_sum_nonneg; [assumption|lra]. Qed.

(** *** The linking constraint at a feasible point *)

Lemma feasible_linking (m : gp.Model) (x : gp.Var -> Q) (T : nat) (bigM : Q)
    (t : nat) :
  gp.feasibleb m x = true ->
  gp.vars m = formulation.variables T ->
  In (formulation.linking bigM t) (gp.constrs m) ->
  (t < T)%nat ->
  0 <= x (formulation.prod t)
  /\ (x (formulation.setup t) == 0 \/ x (formulation.setup t) == 1)
  /\ x (formulation.prod t) <= bigM * x (formulation.setup t).
Proof.
  intros Hf Hv Hl Ht. split; [|split].
  - apply continuous_ok. eapply feasible_var; eauto.
    rewrite Hv. now apply in_variables_prod.
  - apply binary_ok. eapply feasible_var; eauto.
    rewrite Hv. now apply in_variables_setup.
  - apply linking_ok. eapply feasible_constr; eauto.
Qed.

(** At a feasible point the setup flag returned for a period is 1 as soon as
    the period produces, and the production is at most [bigM] times the
    flag. *)
Lemma linking_flags (p y bigM : Q) :
  0 <= p -> y == 0 \/ y == 1 -> p <= bigM * y ->
  p <= bigM * inject_Z (Py.int (Py.round y))
  /\ (0 < p -> Py.int (Py.round y) = 1%Z)
  /\ (0 <= bigM -> p <= bigM).
Proof.
  intros Hp Hy Hl.
  pose proof (round_binary y Hy) as Hr.
  split; [now rewrite Hr|].
  destruct Hy as [Hy|Hy]; rewrite Hy in Hl.
  - split; [intros H; lra | intros H; lra].
  - split; [intros _ | intros _; lra].
    unfold Py.int. now rewrite (round_Qeq _ _ Hy).
Qed.

(** With a non-negative demand, a feasible point of the uncapacitated model
    forces its big-M to be non-negative. *)
Lemma lot_sizing_bigM_nonneg (x : gp.Var -> Q) (demand : list Q)
    (sc uc hc init : Q) :
  gp.feasibleb (formulation.lot_sizing demand sc uc hc init) x = true ->
  nonnegative demand ->
  (0 < Py.len demand)%nat ->
  0 <= Py.sum demand + init.
Proof.
  intros Hf Hd HT.
  destruct (feasible_linking _ x (Py.len demand) (Py.sum demand + init) 0%nat
              Hf eq_refl) as [Hp [Hy Hl]];
    [now apply in_lot_sizing_constrs | assumption |].
  destruct Hy as [Hy|Hy]; rewrite Hy in Hl; [|lra].
  assert (Hb : x (formulation.inv 0%nat)
               == init + x (formulation.prod 0%nat) - nth 0 demand 0).
  { apply (balance_ok x demand init 0%nat).
    eapply feasible_constr; eauto. now apply in_lot_sizing_constrs. }
  assert (Hi : 0 <= x (formulation.inv 0%nat)).
  { apply continuous_ok. eapply feasible_var; eauto.
    now apply in_variables_inv. }
  assert (Hd0 : 0 <= nth 0 demand 0).
  { destruct Hd; [cbn in HT; lia | assumption]. }
  pose proof (sum_nonneg demand Hd). lra.
Qed.

(** *** [max] of a non-empty list *)

Lemma fold_max_spec (rest : list Q) (x : Q) :
  let m := fold_left (fun m v => if Qlt_le_dec m v then v else m) rest x in
  In m (x :: rest) /\ x <= m /\ Forall (fun c => c <= m) rest.
Proof.
  revert x. induction rest as [|v rest IH]; intros x; cbn.
  - repeat split; [auto | lra | constructor].
  - destruct (Qlt_le_dec x v) as [Hlt|Hle].
    + destruct (IH v) as [Hin [Hv Hall]]. cbn in Hin.
      repeat split; [tauto | lra | constructor; assumption].
    + destruct (IH x) as [Hin [Hx Hall]]. cbn in Hin.
      repeat split; [tauto | lra | constructor; [lra | assumption]].
Qed.

Lemma max_spec (xs : list Q) (m : Q) :
  Py.max xs = Ok m -> In m xs /\ Forall (fun c => c <= m) xs.
Proof.
  destruct xs as [|x rest]; [discriminate|]. cbn. intros H.
  injection H as <-. destruct (fold_max_spec rest x) as [Hin [Hx Hall]].
  split; [assumption | constructor; assumption].
Qed.

(** *** The solver call of a run *)

Lemma core_answer {W : Type} (E : env W) (w : W) (demand : list Q)
    (sc uc hc init : Q) (m : gp.Model) (o : gp.Outcome) :
  solver_answered E (lot_sizing_tool._solve_core demand sc uc hc init) w m o ->
  m = formulation.lot_sizing demand sc uc hc init
  /\ o = fst (solver E m w).
Proof.
  unfold solver_answered, calls_of. rewrite run_solve_core. cbn.
  intros [H|[H|[]]]; [discriminate|]. injection H as <- <-. now split.
Qed.

Lemma cap_core_answer {W : Type} (E : env W) (w : W)
    (demand capacity : list Q) (sc uc hc init : Q) (m : gp.Model)
    (o : gp.Outcome) :
  solver_answered E (capacitated_lot_sizing_tool._solve_cap_core demand
                       capacity sc uc hc init) w m o ->
  exists bigM,
    Py.len demand = Py.len capacity
    /\ Py.max capacity = Ok bigM
    /\ m = formulation.cap_lot_sizing demand capacity sc uc hc init bigM
    /\ o = fst (solver E m w).
Proof.
  unfold solver_answered, calls_of. rewrite run_solve_cap_core.
  destruct (Nat.eqb (Py.len demand) (Py.len capacity)) eqn:Hlen;
    cbn [negb]; [|intros []].
  apply Nat.eqb_eq in Hlen.
  destruct (Py.max capacity) as [bigM|e]; cbn.
  - intros [H|[H|[]]]; [discriminate|]. injection H as <- <-.
    exists bigM. now repeat split.
  - intros [H|[]]. discriminate.
Qed.

Lemma unpack_adapted (T : nat) (o : gp.Outcome) :
  adapted T o (formulation.unpack T o).
Proof.
  unfold adapted, formulation.unpack, Py.int, Py.len, Py.range.
  rewrite !length_map, !length_seq.
  repeat split; try reflexivity.
  intros t Ht.
  rewrite (nth_map_range
             (fun t => Py.round (gp.X o (formulation.setup t))) T t)
    by trivial.
  apply round_nearest.
Qed.

(** *** Runs that do not depend on the state of the environment *)






(** Determinism of the solver does not make every program repeatable: in a
    process that keeps its module-level variables, the function that counts
    its calls answers 0 the first time and 1 the second. *)
Lemma counting_is_not_repeatable (x0 : gp.Var -> Q) (input : string) :
  let E := interpreter_env x0 input in
  deterministic_env E
  /\ outcome_of E count_calls [] = Ok 0%Z
  /\ outcome_of E count_calls (state_after E count_calls []) = Ok 1%Z
  /\ ~ stateless E count_calls []
  /\ ~ repeatable E count_calls [].
Proof.
  cbv zeta. split; [|split; [|split; [|split]]].
  - intros m w1 w2. reflexivity.
  - reflexivity.
  - reflexivity.
  - unfold stateless. cbn. discriminate.
  - intros [_ [H _]]. cbn in H. discriminate.
Qed.

(** *** The objective the source builds *)

Lemma eval_add (x : gp.Var -> Q) (a b : gp.LinExpr) :
  gp.eval x (gp.add a b) == gp.eval x a + gp.eval x b.
Proof.
  unfold gp.eval, gp.add. cbn [gp.terms gp.constant].
  induction (gp.terms a) as [|cv ts IH]; cbn.
  - induction (gp.terms b) as [|cv ts IH]; cbn; lra.
  - rewrite IH. ring.
Qed.

Lemma quicksum_values_family (x : gp.Var -> Q) (name : string) (T : nat) :
  gp.eval x (gp.quicksum (gp.values (formulation.family name T)))
  == Py.sum (map (fun t => x (gp.mkVar name t)) (Py.range T)).
Proof.
  unfold gp.quicksum, gp.values, formulation.family, Py.sum, Py.range.
  rewrite map_map. cbn [snd].
  assert (H : forall ts e acc,
    gp.eval x e == acc ->
    gp.eval x (fold_left (fun acc i => gp.add acc (gp.of_item i))
                 (map (fun t => gp.AVar (gp.mkVar name t)) ts) e)
    == fold_left Qplus (map (fun t => x (gp.mkVar name t)) ts) acc).
  { induction ts as [|t ts IH]; intros e acc He; cbn; [exact He|].
    apply IH. rewrite eval_add, He. cbn. ring. }
  apply H. reflexivity.
Qed.

Lemma eval_scale (x : gp.Var -> Q) (q : Q) (a : gp.LinExpr) :
  gp.eval x (gp.scale q a) == q * gp.eval x a.
Proof.
  unfold gp.eval, gp.scale. cbn [gp.terms gp.constant].
  induction (gp.terms a) as [|cv ts IH]; cbn; [reflexivity|].
  rewrite IH. ring.
Qed.

(** The value of the objective at a point: the three sums of the variables,
    weighted by the three costs. *)
Lemma cost_value (x : gp.Var -> Q) (sc uc hc : Q) (T : nat) :
  gp.eval x (formulation.cost sc uc hc T)
  == sc * Py.sum (map (fun t => x (formulation.setup t)) (Py.range T))
     + uc * Py.sum (map (fun t => x (formulation.prod t)) (Py.range T))
     + hc * Py.sum (map (fun t => x (formulation.inv t)) (Py.range T)).
Proof.
  unfold formulation.cost.
  rewrite !eval_add, !eval_scale, !quicksum_values_family. reflexivity.
Qed.

Lemma fold_sum_ext {A : Type} (f g : A -> Q) (l : list A) (a b : Q) :
  a == b ->
  (forall t, In t l -> f t == g t) ->
  fold_left Qplus (map f l) a == fold_left Qplus (map g l) b.
Proof.
  revert a b. induction l as [|t l IH]; intros a b Hab H; cbn; [exact Hab|].
  apply IH.
  - rewrite Hab, (H t (or_introl eq_refl)). reflexivity.
  - intros t' Ht'. apply H. now right.
Qed.

(** Rounding changes nothing in the sum of the flags of a feasible point. *)
Lemma sum_of_flags (m : gp.Model) (x : gp.Var -> Q) (T : nat) :
  gp.feasibleb m x = true ->
  gp.vars m = formulation.variables T ->
  sum_int (map (fun t => Py.int (Py.round (x (formulation.setup t))))
             (Py.range T))
  == Py.sum (map (fun t => x (formulation.setup t)) (Py.range T)).
Proof.
  intros Hf Hvars. unfold sum_int, Py.sum. rewrite map_map.
  apply fold_sum_ext; [reflexivity|].
  intros t Ht. apply in_seq in Ht.
  apply round_binary, binary_ok. apply (feasible_var m); [exact Hf|].
  rewrite Hvars. apply in_variables_setup. lia.
Qed.

(** What the contract of the solver gives for the cost the adapter returns,
    for a model with the variables and the objective of the source. *)
Lemma unpack_cost (m : gp.Model) (o : gp.Outcome) (sc uc hc : Q) (T : nat)
    (plan inv : list Q) (setups : list Z) (cost : Q) :
  gp.sound m o ->
  gp.Status o = GRB.OPTIMAL ->
  gp.vars m = formulation.variables T ->
  gp.objective m = formulation.cost sc uc hc T ->
  (plan, inv, setups, cost) = formulation.unpack T o ->
  cost == sc * sum_int setups + uc * Py.sum plan + hc * Py.sum inv.
Proof.
  intros Hsound Hopt Hvars Hobj Hv.
  destruct (Hsound Hopt) as [Hf Hval].
  unfold formulation.unpack in Hv. injection Hv as -> -> -> ->.
  rewrite Hval, Hobj, cost_value, (sum_of_flags m _ T Hf Hvars).
  reflexivity.
Qed.

(** *** The command line *)

Lemma string_app_assoc (a b c : string) : (a ++ b) ++ c = a ++ (b ++ c).
Proof. induction a as [|ch a IH]; cbn; [reflexivity | now rewrite IH]. Qed.

Lemma dumps_layout (float_repr : Q -> string) (enc : string -> string)
    (v : list Q * list Q * list Z * Q) :
  json.dumps float_repr enc 2 (PyDict (structured v))
  = layout float_repr enc v.
Proof.
  destruct v as [[[plan inv] setups] cost].
  unfold json.dumps, layout, structured.
  cbn [json.encode map json.join].
  unfold json.newline_indent. cbn [Nat.mul Nat.add json.spaces].
  rewrite !string_app_assoc. reflexivity.
Qed.

Lemma string_app_nil_r (s : string) : s ++ "" = s.
Proof. induction s as [|ch s IH]; cbn; [reflexivity | now rewrite IH]. Qed.

Lemma stdout_from_writes (started : bool) (banner : string) (cs : list call)
    (s1 s2 : string) :
  stdout_from started banner
    (cs ++ [CallWriteStdout s1; CallWriteStdout s2])
  = stdout_from started banner cs ++ s1 ++ s2.
Proof.
  revert started. induction cs as [|c cs IH]; intros started.
  - cbn. now rewrite string_app_nil_r.
  - destruct c; cbn [app stdout_from]; rewrite IH; try reflexivity;
      now rewrite string_app_assoc.
Qed.

(** **** The check of the keys *)

Lemma only_error (names : list string) (d : list (string * pyval))
    (e : exn) :
  kwargs.only names d = Err e -> exists msg, e = TypeError msg.
Proof.
  unfold kwargs.only. destruct (forallb _ d); [discriminate|].
  intros H. inversion H. eauto.
Qed.

Lemma only_unknown (names : list string) (d : list (string * pyval))
    (k : string) (v : pyval) :
  In (k, v) d -> ~ In k names -> exists e, kwargs.only names d = Err e.
Proof.
  intros Hin Hk. unfold kwargs.only.
  destruct (forallb _ d) eqn:Hall; [|eauto].
  rewrite forallb_forall in Hall. specialize (Hall _ Hin). cbn in Hall.
  apply existsb_exists in Hall as [n [Hn Heq]].
  apply String.eqb_eq in Heq. subst. contradiction.
Qed.

Lemma only_known (names : list string) (d : list (string * pyval))
    (k : string) (v : pyval) :
  kwargs.only names d = Ok tt -> In (k, v) d -> In k names.
Proof.
  intros Hok Hin. destruct (in_dec string_dec k names) as [H|H]; [exact H|].
  destruct (only_unknown names d k v Hin H) as [e He]. congruence.
Qed.

Lemma only_keys (names : list string) (d : list (string * pyval)) :
  (forall k, In k (map fst d) -> In k names) -> kwargs.only names d = Ok tt.
Proof.
  intros H. unfold kwargs.only.
  destruct (forallb _ d) eqn:Hall; [reflexivity|].
  exfalso. apply Bool.not_true_iff_false in Hall. apply Hall.
  apply forallb_forall. intros [k v] Hin. cbn [fst].
  apply existsb_exists. exists k. split; [|apply String.eqb_refl].
  apply H. apply in_map_iff. now exists (k, v).
Qed.

Lemma complete_missing (names : list string) (d : list (string * pyval))
    (k : string) :
  In k names -> kwargs.get d k = None ->
  exists msg, kwargs.complete names d = Err (TypeError msg).
Proof.
  induction names as [|k' names IH]; intros Hin Hnone; [destruct Hin|].
  cbn [kwargs.complete].
  destruct (kwargs.get d k') eqn:Hget; [|eauto].
  destruct Hin as [->|Hin]; [congruence|]. now apply IH.
Qed.

Lemma complete_present (names : list string) (d : list (string * pyval)) :
  (forall k, In k names -> kwargs.get d k <> None) ->
  kwargs.complete names d = Ok tt.
Proof.
  induction names as [|k names IH]; intros H; [reflexivity|].
  cbn [kwargs.complete].
  destruct (kwargs.get d k) eqn:Hget.
  - apply IH. intros k' Hk'. apply H. now right.
  - exfalso. now apply (H k (or_introl eq_refl)).
Qed.

(** The call fails on a dict that lacks a parameter without a default or
    holds a key that is no keyword. *)
Lemma check_rejects (keywords required : list string)
    (d : list (string * pyval)) :
  (exists k, In k required /\ kwargs.get d k = None)
  \/ (exists k v, In (k, v) d /\ ~ In k keywords) ->
  exists msg, kwargs.check keywords required d = Err (TypeError msg).
Proof.
  intros Hbad. unfold kwargs.check.
  destruct (kwargs.only keywords d) as [[]|e] eqn:Honly.
  - destruct Hbad as [[k [Hk Hnone]]|[k [v [Hin Hk]]]].
    + now apply (complete_missing required d k).
    + exfalso. apply Hk. now apply (only_known keywords d k v).
  - destruct (only_error _ _ _ Honly) as [msg ->]. eauto.
Qed.

Lemma required_present {A : Type} (conv : pyval -> result A)
    (d : list (string * pyval)) (k : string) (a : A) :
  kwargs.required conv d k = Ok a -> kwargs.get d k <> None.
Proof. unfold kwargs.required. destruct (kwargs.get d k); discriminate. Qed.

Ltac bind_cases :=
  repeat match goal with
         | |- context [match ?r with Ok _ => _ | Err _ => _ end] =>
             let H := fresh "H" in destruct r eqn:H
         | p : (_ * _)%type |- _ => destruct p
         end.

Lemma bind_parameters_ok (d : list (string * pyval)) (demand : list Q)
    (sc uc hc init : Q) :
  lot_sizing_tool.bind_parameters d = Ok (demand, sc, uc, hc, init) ->
  kwargs.only ["demand"; "setup_cost"; "unit_cost"; "holding_cost";
               "initial_inventory"; "sanitize_inputs_outputs"] d = Ok tt
  /\ kwargs.required kwargs.as_float_list d "demand" = Ok demand
  /\ kwargs.required kwargs.as_float d "setup_cost" = Ok sc
  /\ kwargs.required kwargs.as_float d "unit_cost" = Ok uc
  /\ kwargs.required kwargs.as_float d "holding_cost" = Ok hc
  /\ kwargs.optional kwargs.as_float 0 d "initial_inventory" = Ok init.
Proof.
  unfold lot_sizing_tool.bind_parameters, lot_sizing_tool.keywords.
  bind_cases; intros Heq; inversion Heq; subst.
  repeat match goal with u : unit |- _ => destruct u end.
  repeat split; reflexivity.
Qed.

Lemma cap_bind_parameters_ok (d : list (string * pyval))
    (demand capacity : list Q) (sc uc hc init : Q) :
  capacitated_lot_sizing_tool.bind_parameters d
  = Ok (demand, capacity, sc, uc, hc, init) ->
  kwargs.only ["demand"; "capacity"; "setup_cost"; "unit_cost";
               "holding_cost"; "initial_inventory";
               "sanitize_inputs_outputs"] d = Ok tt
  /\ kwargs.required kwargs.as_float_list d "demand" = Ok demand
  /\ kwargs.required kwargs.as_float_list d "capacity" = Ok capacity
  /\ kwargs.required kwargs.as_float d "setup_cost" = Ok sc
  /\ kwargs.required kwargs.as_float d "unit_cost" = Ok uc
  /\ kwargs.required kwargs.as_float d "holding_cost" = Ok hc
  /\ kwargs.optional kwargs.as_float 0 d "initial_inventory" = Ok init.
Proof.
  unfold capacitated_lot_sizing_tool.bind_parameters,
         capacitated_lot_sizing_tool.keywords.
  bind_cases; intros Heq; inversion Heq; subst.
  repeat match goal with u : unit |- _ => destruct u end.
  repeat split; reflexivity.
Qed.

(** Parameters that the binding reads pass the check of the call. *)
Lemma bound_checks (d : list (string * pyval)) (demand : list Q)
    (sc uc hc init : Q) :
  lot_sizing_tool.bind_parameters d = Ok (demand, sc, uc, hc, init) ->
  kwargs.check lot_sizing_tool.keywords lot_sizing_tool.required d = Ok tt.
Proof.
  intros Hbind.
  apply bind_parameters_ok in Hbind as [Honly [Hd [Hs [Hu [Hh _]]]]].
  unfold kwargs.check, lot_sizing_tool.keywords. rewrite Honly.
  apply complete_present. intros k Hk.
  destruct Hk as [<-|[<-|[<-|[<-|[]]]]];
    eapply required_present; eassumption.
Qed.

Lemma cap_bound_checks (d : list (string * pyval))
    (demand capacity : list Q) (sc uc hc init : Q) :
  capacitated_lot_sizing_tool.bind_parameters d
  = Ok (demand, capacity, sc, uc, hc, init) ->
  kwargs.check capacitated_lot_sizing_tool.keywords
    capacitated_lot_sizing_tool.required d = Ok tt.
Proof.
  intros Hbind.
  apply cap_bind_parameters_ok in Hbind
    as [Honly [Hd [Hc [Hs [Hu [Hh _]]]]]].
  unfold kwargs.check, capacitated_lot_sizing_tool.keywords. rewrite Honly.
  apply complete_present. intros k Hk.
  destruct Hk as [<-|[<-|[<-|[<-|[<-|[]]]]]];
    eapply required_present; eassumption.
Qed.

(** **** The values an object names *)

Lemma get_In (d : list (string * pyval)) (k : string) (v : pyval) :
  NoDup (map fst d) -> In (k, v) d -> kwargs.get d k = Some v.
Proof.
  induction d as [|[k' v'] d IH]; intros Hnd Hin; [destruct Hin|].
  cbn in Hnd. inversion Hnd as [|? ? Hnotin Hnd']; subst.
  cbn [kwargs.get].
  destruct Hin as [Heq|Hin].
  - injection Heq as -> ->. now rewrite String.eqb_refl.
  - destruct (String.eqb k' k) eqn:Hk.
    + apply String.eqb_eq in Hk. subst. exfalso. apply Hnotin.
      apply in_map_iff. now exists (k, v).
    + now apply IH.
Qed.

Lemma get_absent (d : list (string * pyval)) (k : string) :
  ~ In k (map fst d) -> kwargs.get d k = None.
Proof.
  induction d as [|[k' v'] d IH]; intros Hk; [reflexivity|].
  cbn [kwargs.get].
  destruct (String.eqb k' k) eqn:Heq.
  - apply String.eqb_eq in Heq. subst. exfalso. apply Hk. now left.
  - apply IH. intros Hin. apply Hk. now right.
Qed.

Lemma number_as_float (v : pyval) (q : Q) :
  number v q -> kwargs.as_float v = Ok q.
Proof. destruct v; cbn; intros H; now subst || destruct H. Qed.

Lemma series_as_floats (vs : list pyval) (qs : list Q) :
  Forall2 number vs qs -> kwargs.as_floats vs = Ok qs.
Proof.
  induction 1 as [|v q vs qs Hv _ IH]; [reflexivity|].
  cbn [kwargs.as_floats]. now rewrite (number_as_float v q Hv), IH.
Qed.

Lemma required_number (d : list (string * pyval)) (k : string) (q : Q) :
  NoDup (map fst d) -> names_number d k q ->
  kwargs.required kwargs.as_float d k = Ok q.
Proof.
  intros Hnd [v [Hin Hv]]. unfold kwargs.required.
  rewrite (get_In d k v Hnd Hin). now apply number_as_float.
Qed.

Lemma required_series (d : list (string * pyval)) (k : string)
    (qs : list Q) :
  NoDup (map fst d) -> names_series d k qs ->
  kwargs.required kwargs.as_float_list d k = Ok qs.
Proof.
  intros Hnd [vs [Hin Hvs]]. unfold kwargs.required.
  rewrite (get_In d k _ Hnd Hin). cbn. now apply series_as_floats.
Qed.

Lemma optional_number (d : list (string * pyval)) (k : string)
    (default q : Q) :
  NoDup (map fst d) -> names_number_or default d k q ->
  kwargs.optional kwargs.as_float default d k = Ok q.
Proof.
  intros Hnd [[v [Hin Hv]]|[Hk ->]]; unfold kwargs.optional.
  - rewrite (get_In d k v Hnd Hin). now apply number_as_float.
  - now rewrite (get_absent d k Hk).
Qed.

(** The binding reads the values the object names. *)
Lemma bind_parameters_names (d : list (string * pyval)) (demand : list Q)
    (sc uc hc init : Q) :
  NoDup (map fst d) ->
  (forall k, In k (map fst d) -> In k lot_sizing_tool.keywords) ->
  names_series d "demand" demand ->
  names_number d "setup_cost" sc ->
  names_number d "unit_cost" uc ->
  names_number d "holding_cost" hc ->
  names_number_or 0 d "initial_inventory" init ->
  lot_sizing_tool.bind_parameters d = Ok (demand, sc, uc, hc, init).
Proof.
  intros Hnd Hkeys Hd Hs Hu Hh Hi. unfold lot_sizing_tool.bind_parameters.
  rewrite (only_keys _ d Hkeys), (required_series d _ _ Hnd Hd),
          (required_number d _ _ Hnd Hs), (required_number d _ _ Hnd Hu),
          (required_number d _ _ Hnd Hh), (optional_number d _ _ _ Hnd Hi).
  reflexivity.
Qed.

Lemma cap_bind_parameters_names (d : list (string * pyval))
    (demand capacity : list Q) (sc uc hc init : Q) :
  NoDup (map fst d) ->
  (forall k, In k (map fst d) -> In k capacitated_lot_sizing_tool.keywords) ->
  names_series d "demand" demand ->
  names_series d "capacity" capacity ->
  names_number d "setup_cost" sc ->
  names_number d "unit_cost" uc ->
  names_number d "holding_cost" hc ->
  names_number_or 0 d "initial_inventory" init ->
  capacitated_lot_sizing_tool.bind_parameters d
  = Ok (demand, capacity, sc, uc, hc, init).
Proof.
  intros Hnd Hkeys Hd Hc Hs Hu Hh Hi.
  unfold capacitated_lot_sizing_tool.bind_parameters.
  rewrite (only_keys _ d Hkeys), (required_series d _ _ Hnd Hd),
          (required_series d _ _ Hnd Hc),
          (required_number d _ _ Hnd Hs), (required_number d _ _ Hnd Hu),
          (required_number d _ _ Hnd Hh), (optional_number d _ _ _ Hnd Hi).
  reflexivity.
Qed.

Section command_line.

Variable json_loads : string -> result pyval.
Variable float_repr : Q -> string.
Variable encode_basestring : string -> string.
Variable untyped_call : list (string * pyval) -> prog (list (string * pyval)).
Context {W : Type} (E : env W) (w : W).

Lemma run_main (d : list (string * pyval)) (demand : list Q)
    (sc uc hc init : Q) :
  json_loads (stdin E) = Ok (PyDict d) ->
  lot_sizing_tool.bind_parameters d = Ok (demand, sc, uc, hc, init) ->
  run E (lot_sizing_tool.main json_loads float_repr encode_basestring
           untyped_call) w
  = match run E (lot_sizing_tool.solve_lot_sizing demand sc uc hc init) w
    with
    | (Ok result, w1, cs) =>
        (Ok tt, w1,
         (CallReadStdin :: cs
          ++ [CallWriteStdout
                (json.dumps float_repr encode_basestring 2 (PyDict result));
              CallWriteStdout json.newline])%list)
    | (Err e, w1, cs) => (Err e, w1, CallReadStdin :: cs)
    end.
Proof.
  intros Hload Hbind. unfold lot_sizing_tool.main.
  cbn [run]. rewrite Hload. cbn [lift bind].
  unfold lot_sizing_tool.call_solve_lot_sizing.
  rewrite (bound_checks d _ _ _ _ _ Hbind), Hbind.
  cbn [lift bind]. rewrite run_bind.
  destruct (run E _ w) as [[[result|e] w1] cs]; reflexivity.
Qed.

Lemma run_cap_main (d : list (string * pyval)) (demand capacity : list Q)
    (sc uc hc init : Q) :
  json_loads (stdin E) = Ok (PyDict d) ->
  capacitated_lot_sizing_tool.bind_parameters d
  = Ok (demand, capacity, sc, uc, hc, init) ->
  run E (capacitated_lot_sizing_tool.main json_loads float_repr
           encode_basestring untyped_call) w
  = match run E (capacitated_lot_sizing_tool.solve_cap_lot_sizing demand
                   capacity sc uc hc init) w
    with
    | (Ok result, w1, cs) =>
        (Ok tt, w1,
         (CallReadStdin :: cs
          ++ [CallWriteStdout
                (json.dumps float_repr encode_basestring 2 (PyDict result));
              CallWriteStdout json.newline])%list)
    | (Err e, w1, cs) => (Err e, w1, CallReadStdin :: cs)
    end.
Proof.
  intros Hload Hbind. unfold capacitated_lot_sizing_tool.main.
  cbn [run]. rewrite Hload. cbn [lift bind].
  unfold capacitated_lot_sizing_tool.call_solve_cap_lot_sizing.
  rewrite (cap_bound_checks d _ _ _ _ _ _ Hbind), Hbind.
  cbn [lift bind]. rewrite run_bind.
  destruct (run E _ w) as [[[result|e] w1] cs]; reflexivity.
Qed.

End command_line.

Lemma stdout_core (W : Type) (E : env W) (w : W) (demand : list Q)
    (sc uc hc init : Q) :
  stdout (banner E)
    (calls_of E (lot_sizing_tool._solve_core demand sc uc hc init) w)
  = banner E.
Proof.
  unfold calls_of. rewrite run_solve_core. cbn.
  now rewrite string_app_nil_r.
Qed.

Lemma stdout_cap_core (W : Type) (E : env W) (w : W)
    (demand capacity : list Q) (sc uc hc init : Q) :
  stdout (banner E)
    (calls_of E (capacitated_lot_sizing_tool._solve_cap_core demand
                   capacity sc uc hc init) w)
  = if Nat.eqb (Py.len demand) (Py.len capacity) then banner E else "".
Proof.
  unfold calls_of. rewrite run_solve_cap_core.
  destruct (Nat.eqb _ _); [|reflexivity]. cbn [negb].
  destruct (Py.max capacity); cbn; now rewrite string_app_nil_r.
Qed.

(** * Properties of the specification *)

(** C1. Whenever the solver honours its contract, the inventory trajectory
    that either core returns has one entry per period and satisfies the
    balance invariant: every entry equals the previous inventory (the initial
    inventory in period 0) plus the production minus the demand of the period,
    and no inventory and no production is negative. *)
Theorem balance_invariant_of_returned_trajectory :
  forall (W : Type) (E : env W) (w : W) (demand capacity : list Q)
         (setup_cost unit_cost holding_cost initial_inventory : Q)
         (plan inv : list Q) (setups : list Z) (cost : Q),
    sound_env E ->
    (returns E (lot_sizing_tool._solve_core demand setup_cost unit_cost
                  holding_cost initial_inventory) w
             (plan, inv, setups, cost) ->
     Py.len inv = Py.len demand
     /\ balance_invariant initial_inventory demand plan inv)
    /\
    (returns E (capacitated_lot_sizing_tool._solve_cap_core demand capacity
                  setup_cost unit_cost holding_cost initial_inventory) w
             (plan, inv, setups, cost) ->
     Py.len inv = Py.len demand
     /\ balance_invariant initial_inventory demand plan inv).
Proof.
  intros W E w demand capacity sc uc hc init plan inv setups cost Hsound.
  split.
  - intros Hret.
    eapply balance_invariant_of_returned_trajectory_aux; eauto.
  - intros Hret. apply cap_core_returns in Hret as [Hlen [bigM [_ [Hopt Hv]]]].
    unfold formulation.unpack in Hv. injection Hv as -> -> _ _.
    split; [unfold Py.len, Py.range; now rewrite length_map, length_seq|].
    destruct (Hsound _ w Hopt) as [Hf _].
    eapply feasible_balance_invariant; eauto.
    intros t Ht. now apply in_cap_lot_sizing_constrs.
Qed.

Lemma balance_invariant_of_returned_trajectory_example :
  (Py.len [0; 0; 0; 0] = Py.len example_demand
   /\ balance_invariant 0 example_demand example_demand [0; 0; 0; 0])
  /\ (Py.len [0; 0; 0; 0] = Py.len example_demand
      /\ balance_invariant 0 example_demand example_demand [0; 0; 0; 0]).
Proof.
  pose (E := candidate_env (lot_for_lot example_demand) "").
  destruct (balance_invariant_of_returned_trajectory nat E 0%nat
              example_demand example_capacity 1000 50 2 0
              example_demand [0; 0; 0; 0] [1; 1; 1; 1]%Z
              (gp.eval (lot_for_lot example_demand)
                 (formulation.cost 1000 50 2 4))
              (candidate_sound _ _)) as [Hu Hc].
  split.
  - apply Hu. vm_compute. reflexivity.
  - apply Hc. vm_compute. reflexivity.
Defined.

(** C2. The model that [_solve_core] submits contains, for every period [t],
    the linking constraint [prod[t] <= bigM * setup[t]] with
    [bigM = sum(demand) + initial_inventory]; and whenever the solver honours
    its contract, every returned solution has [production[t]] at most [bigM]
    times the returned flag, the flag equal to 1 whenever [production[t] > 0],
    and, for a Demand Series without negative entries,
    [production[t] <= bigM]. *)
Theorem linking_constraint_and_setup_flags :
  forall (W : Type) (E : env W) (w : W) (demand : list Q)
         (setup_cost unit_cost holding_cost initial_inventory : Q),
    let bigM := Py.sum demand + initial_inventory in
    (forall m,
       In m (submitted (calls_of E (lot_sizing_tool._solve_core demand
                          setup_cost unit_cost holding_cost initial_inventory)
                          w)) ->
       forall t, (t < Py.len demand)%nat ->
         In (formulation.linking bigM t) (gp.constrs m))
    /\
    (sound_env E ->
     forall plan inv setups cost,
       returns E (lot_sizing_tool._solve_core demand setup_cost unit_cost
                    holding_cost initial_inventory) w
               (plan, inv, setups, cost) ->
       forall t, (t < Py.len demand)%nat ->
         nth t plan 0 <= bigM * inject_Z (nth t setups 0%Z)
         /\ (0 < nth t plan 0 -> nth t setups 0%Z = 1%Z)
         /\ (nonnegative demand -> nth t plan 0 <= bigM)).
Proof.
  intros W E w demand sc uc hc init bigM. split.
  - intros m Hm t Ht. unfold calls_of in Hm. rewrite run_solve_core in Hm.
    cbn in Hm. destruct Hm as [<-|[]]. now apply in_lot_sizing_constrs.
  - intros Hsound plan inv setups cost Hret t Ht.
    apply core_returns in Hret as [Hopt Hv].
    unfold formulation.unpack in Hv. injection Hv as -> _ -> _.
    destruct (Hsound _ w Hopt) as [Hf _].
    rewrite (nth_map_range (fun t => gp.X _ (formulation.prod t)) _ t)
      by trivial.
    rewrite (nth_map_range
               (fun t => Py.int (Py.round (gp.X _ (formulation.setup t)))) _ t)
      by trivial.
    destruct (feasible_linking _ _ (Py.len demand) bigM t Hf eq_refl)
      as [Hp [Hy Hl]]; [now apply in_lot_sizing_constrs | assumption |].
    destruct (linking_flags _ _ bigM Hp Hy Hl) as [H1 [H2 H3]].
    repeat split; try assumption.
    intros Hd. apply H3.
    apply (lot_sizing_bigM_nonneg _ demand sc uc hc init Hf Hd). lia.
Qed.

Lemma linking_constraint_and_setup_flags_example :
  nth 0 example_demand 0
    <= (Py.sum example_demand + 0) * inject_Z (nth 0 [1; 1; 1; 1]%Z 0%Z)
  /\ nth 0 [1; 1; 1; 1]%Z 0%Z = 1%Z
  /\ nth 0 example_demand 0 <= Py.sum example_demand + 0.
Proof.
  pose (E := candidate_env (lot_for_lot example_demand) "").
  destruct (proj2 (linking_constraint_and_setup_flags nat E 0%nat
                     example_demand 1000 50 2 0)
              (candidate_sound _ _)
              example_demand [0; 0; 0; 0] [1; 1; 1; 1]%Z
              (gp.eval (lot_for_lot example_demand)
                 (formulation.cost 1000 50 2 4))
              ltac:(vm_compute; reflexivity)
              0%nat ltac:(cbn; lia)) as [H1 [H2 H3]].
  split; [exact H1|]. split.
  - apply H2. reflexivity.
  - apply H3. repeat constructor; discriminate.
Defined.

(** C3. With series of equal length and [bigM = max(capacity)], the model
    that [_solve_cap_core] submits has the variables, the objective and the
    sense of the model that [_solve_core] submits; its constraints are, period
    by period, the same balance constraint, the additional bound
    [prod[t] <= capacity[t]], and the linking constraint with [bigM] in place
    of [sum(demand) + initial_inventory]; and whenever the solver honours its
    contract, every returned plan has [production[t] <= capacity[t]]. *)
Theorem capacitated_formulation :
  forall (W : Type) (E : env W) (w : W) (demand capacity : list Q)
         (setup_cost unit_cost holding_cost initial_inventory bigM : Q),
    Py.len demand = Py.len capacity ->
    Py.max capacity = Ok bigM ->
    (In bigM capacity /\ Forall (fun c => c <= bigM) capacity)
    /\
    (exists mu mc,
       submitted (calls_of E (lot_sizing_tool._solve_core demand setup_cost
                    unit_cost holding_cost initial_inventory) w) = [mu]
       /\ submitted (calls_of E (capacitated_lot_sizing_tool._solve_cap_core
                    demand capacity setup_cost unit_cost holding_cost
                    initial_inventory) w) = [mc]
       /\ gp.vars mc = gp.vars mu
       /\ gp.objective mc = gp.objective mu
       /\ gp.ModelSense mc = gp.ModelSense mu
       /\ gp.constrs mu
          = flat_map (fun t =>
                        [formulation.balance demand initial_inventory t;
                         formulation.linking
                           (Py.sum demand + initial_inventory) t])
                     (Py.range (Py.len demand))
       /\ gp.constrs mc
          = flat_map (fun t =>
                        [formulation.balance demand initial_inventory t;
                         formulation.capacity_bound capacity t;
                         formulation.linking bigM t])
                     (Py.range (Py.len demand)))
    /\
    (sound_env E ->
     forall plan inv setups cost,
       returns E (capacitated_lot_sizing_tool._solve_cap_core demand capacity
                    setup_cost unit_cost holding_cost initial_inventory) w
               (plan, inv, setups, cost) ->
       forall t, (t < Py.len demand)%nat ->
         nth t plan 0 <= nth t capacity 0).
Proof.
  intros W E w demand capacity sc uc hc init bigM Hlen Hmax.
  split; [now apply max_spec|]. split.
  - exists (formulation.lot_sizing demand sc uc hc init),
           (formulation.cap_lot_sizing demand capacity sc uc hc init bigM).
    unfold calls_of. rewrite run_solve_core, run_solve_cap_core.
    apply Nat.eqb_eq in Hlen. rewrite Hlen, Hmax. cbn.
    repeat split; reflexivity.
  - intros Hsound plan inv setups cost Hret t Ht.
    apply cap_core_returns in Hret as [_ [bigM' [Hmax' [Hopt Hv]]]].
    unfold formulation.unpack in Hv. injection Hv as -> _ _ _.
    destruct (Hsound _ w Hopt) as [Hf _].
    rewrite (nth_map_range (fun t => gp.X _ (formulation.prod t)) _ t)
      by trivial.
    apply capacity_bound_ok. eapply feasible_constr; eauto.
    now apply in_cap_lot_sizing_constrs.
Qed.

Lemma capacitated_formulation_example :
  (In 300 example_capacity /\ Forall (fun c => c <= 300) example_capacity)
  /\ nth 1 example_demand 0 <= nth 1 example_capacity 0.
Proof.
  pose (E := candidate_env (lot_for_lot example_demand) "").
  destruct (capacitated_formulation nat E 0%nat example_demand
              example_capacity 1000 50 2 0 300 eq_refl eq_refl)
    as [Hm [_ Hc]].
  split; [exact Hm|].
  apply (Hc (candidate_sound _ _) example_demand [0; 0; 0; 0]
            [1; 1; 1; 1]%Z
            (gp.eval (lot_for_lot example_demand)
               (formulation.cost 1000 50 2 4))).
  - vm_compute. reflexivity.
  - cbn. lia.
Defined.

(** C4. With a Demand Series and a Capacity Series of different lengths,
    every capacitated operation raises the [ValueError] of the length check
    and performs no external call at all: no model is created and the solver
    is not invoked. *)
Theorem length_mismatch_fails_before_any_call :
  forall (W : Type) (E : env W) (w : W) (demand capacity : list Q)
         (setup_cost unit_cost holding_cost initial_inventory : Q),
    Py.len demand <> Py.len capacity ->
    let e := ValueError "'demand' and 'capacity' must have the same length" in
    run E (capacitated_lot_sizing_tool._solve_cap_core demand capacity
             setup_cost unit_cost holding_cost initial_inventory) w
    = (Err e, w, [])
    /\ run E (capacitated_lot_sizing_tool.solve_cap_lot_sizing demand capacity
                setup_cost unit_cost holding_cost initial_inventory) w
       = (Err e, w, [])
    /\ run E (capacitated_lot_sizing_tool.solve_cap_lot_sizing_basic demand
                capacity setup_cost unit_cost holding_cost initial_inventory) w
       = (Err e, w, []).
Proof.
  intros W E w demand capacity sc uc hc init Hlen e.
  apply Nat.eqb_neq in Hlen.
  assert (Hcore :
    run E (capacitated_lot_sizing_tool._solve_cap_core demand capacity
             sc uc hc init) w = (Err e, w, [])).
  { rewrite run_solve_cap_core, Hlen. reflexivity. }
  split; [exact Hcore|].
  rewrite run_solve_cap_lot_sizing, run_solve_cap_lot_sizing_basic.
  unfold outcome_of, state_after, calls_of. rewrite Hcore. now split.
Qed.

Lemma length_mismatch_fails_before_any_call_example :
  let E := candidate_env (lot_for_lot example_demand) "" in
  let e := ValueError "'demand' and 'capacity' must have the same length" in
  run E (capacitated_lot_sizing_tool._solve_cap_core example_demand
           [90; 90; 90] 1000 50 2 0) 0%nat
  = (Err e, 0%nat, [])
  /\ run E (capacitated_lot_sizing_tool.solve_cap_lot_sizing example_demand
              [90; 90; 90] 1000 50 2 0) 0%nat
     = (Err e, 0%nat, [])
  /\ run E (capacitated_lot_sizing_tool.solve_cap_lot_sizing_basic
              example_demand [90; 90; 90] 1000 50 2 0) 0%nat
     = (Err e, 0%nat, []).
Proof.
  apply (length_mismatch_fails_before_any_call nat
           (candidate_env (lot_for_lot example_demand) "") 0%nat
           example_demand [90; 90; 90] 1000 50 2 0).
  cbn. lia.
Defined.

(** C5. Whenever a run of a lot-sizing operation has called the solver, it
    has called it exactly once; if the status read back is not [OPTIMAL], the
    core and both tools built on it raise the [RuntimeError] whose message
    carries that status code, and return nothing; if the status is [OPTIMAL],
    none of them raises.  The uncapacitated operations always call the
    solver. *)
Theorem optimization_failure_is_raised :
  forall (W : Type) (E : env W) (w : W) (demand capacity : list Q)
         (setup_cost unit_cost holding_cost initial_inventory : Q)
         (m : gp.Model) (o : gp.Outcome),
    let core := lot_sizing_tool._solve_core demand setup_cost unit_cost
                  holding_cost initial_inventory in
    let tool := lot_sizing_tool.solve_lot_sizing demand setup_cost unit_cost
                  holding_cost initial_inventory in
    let basic := lot_sizing_tool.solve_lot_sizing_basic demand setup_cost
                   unit_cost holding_cost initial_inventory in
    let cap_core := capacitated_lot_sizing_tool._solve_cap_core demand
                      capacity setup_cost unit_cost holding_cost
                      initial_inventory in
    let cap_tool := capacitated_lot_sizing_tool.solve_cap_lot_sizing demand
                      capacity setup_cost unit_cost holding_cost
                      initial_inventory in
    let cap_basic := capacitated_lot_sizing_tool.solve_cap_lot_sizing_basic
                       demand capacity setup_cost unit_cost holding_cost
                       initial_inventory in
    (exists m0 o0, solver_answered E core w m0 o0)
    /\
    (solver_answered E core w m o ->
     calls_of E core w = [CallNewModel "lot_sizing"; CallOptimize m o]
     /\ calls_of E tool w = calls_of E core w
     /\ calls_of E basic w = calls_of E core w
     /\ (gp.Status o <> GRB.OPTIMAL ->
         outcome_of E core w = Err (formulation.failure (gp.Status o))
         /\ outcome_of E tool w = Err (formulation.failure (gp.Status o))
         /\ outcome_of E basic w = Err (formulation.failure (gp.Status o)))
     /\ (gp.Status o = GRB.OPTIMAL ->
         exists v, outcome_of E core w = Ok v
                   /\ outcome_of E tool w = Ok (structured v)
                   /\ outcome_of E basic w = Ok (compact v)))
    /\
    (solver_answered E cap_core w m o ->
     calls_of E cap_core w = [CallNewModel "cap_lot_sizing"; CallOptimize m o]
     /\ calls_of E cap_tool w = calls_of E cap_core w
     /\ calls_of E cap_basic w = calls_of E cap_core w
     /\ (gp.Status o <> GRB.OPTIMAL ->
         outcome_of E cap_core w = Err (formulation.failure (gp.Status o))
         /\ outcome_of E cap_tool w = Err (formulation.failure (gp.Status o))
         /\ outcome_of E cap_basic w
            = Err (formulation.failure (gp.Status o)))
     /\ (gp.Status o = GRB.OPTIMAL ->
         exists v, outcome_of E cap_core w = Ok v
                   /\ outcome_of E cap_tool w = Ok (structured v)
                   /\ outcome_of E cap_basic w = Ok (compact v))).
Proof.
  intros W E w demand capacity sc uc hc init m o
         core tool basic cap_core cap_tool cap_basic.
  split; [|split].
  - eexists _, _. unfold solver_answered, calls_of, core.
    rewrite run_solve_core. cbn. right. left. reflexivity.
  - intros Hans. apply core_answer in Hans as [-> ->].
    unfold tool, basic, core, outcome_of, calls_of.
    rewrite run_solve_lot_sizing, run_solve_lot_sizing_basic.
    unfold outcome_of, calls_of. rewrite run_solve_core. cbn.
    do 3 (split; [reflexivity|]). split.
    + intros Hs. apply Z.eqb_neq in Hs. rewrite Hs. now repeat split.
    + intros Hopt. apply Z.eqb_eq in Hopt. rewrite Hopt.
      eexists. repeat split; reflexivity.
  - intros Hans.
    apply cap_core_answer in Hans as [bigM [Hlen [Hmax [-> ->]]]].
    unfold cap_tool, cap_basic, cap_core, outcome_of, calls_of.
    rewrite run_solve_cap_lot_sizing, run_solve_cap_lot_sizing_basic.
    unfold outcome_of, calls_of. rewrite run_solve_cap_core.
    apply Nat.eqb_eq in Hlen. rewrite Hlen, Hmax. cbn.
    do 3 (split; [reflexivity|]). split.
    + intros Hs. apply Z.eqb_neq in Hs. rewrite Hs. now repeat split.
    + intros Hopt. apply Z.eqb_eq in Hopt. rewrite Hopt.
      eexists. repeat split; reflexivity.
Qed.

Lemma optimization_failure_is_raised_example :
  outcome_of (candidate_env nowhere "")
    (lot_sizing_tool.solve_lot_sizing example_demand 1000 50 2 0) 0%nat
  = Err (RuntimeError "Gurobi status 3: optimisation failed")
  /\ outcome_of (candidate_env (lot_for_lot example_demand) "")
       (capacitated_lot_sizing_tool.solve_cap_lot_sizing example_demand
          [0; 0; 0; 0] 1000 50 2 0) 0%nat
     = Err (RuntimeError "Gurobi status 3: optimisation failed").
Proof.
  pose (E1 := candidate_env nowhere "").
  pose (E2 := candidate_env (lot_for_lot example_demand) "").
  pose (m1 := formulation.lot_sizing example_demand 1000 50 2 0).
  pose (m2 := formulation.cap_lot_sizing example_demand [0; 0; 0; 0]
                1000 50 2 0 0).
  split.
  - destruct (optimization_failure_is_raised nat E1 0%nat example_demand []
                1000 50 2 0 m1 (fst (solver E1 m1 0%nat)))
      as [_ [Hu _]].
    destruct Hu as [_ [_ [_ [Hfail _]]]].
    + unfold solver_answered. vm_compute. right. left. reflexivity.
    + apply Hfail. vm_compute. discriminate.
  - destruct (optimization_failure_is_raised nat E2 0%nat example_demand
                [0; 0; 0; 0] 1000 50 2 0 m2 (fst (solver E2 m2 0%nat)))
      as [_ [_ Hc]].
    destruct Hc as [_ [_ [_ [Hfail _]]]].
    + unfold solver_answered. vm_compute. right. left. reflexivity.
    + apply Hfail. vm_compute. discriminate.
Defined.

(** C6. When a core returns, it has called the solver once, and its four
    results are built from the outcome [o] of that call alone: the setup
    flags are the values of the setup variables rounded to a nearest integer,
    the production plan and the inventory trajectory are the values of their
    variables, unrounded, the total cost is [ObjVal] itself, and each of the
    three series has one entry per period.  The tools return these results
    under four keys, or as the pair of the plan and the cost. *)
Theorem result_adapter :
  forall (W : Type) (E : env W) (w : W) (demand capacity : list Q)
         (setup_cost unit_cost holding_cost initial_inventory : Q)
         (v : list Q * list Q * list Z * Q),
    (returns E (lot_sizing_tool._solve_core demand setup_cost unit_cost
                  holding_cost initial_inventory) w v ->
     (exists m o,
        calls_of E (lot_sizing_tool._solve_core demand setup_cost unit_cost
                      holding_cost initial_inventory) w
        = [CallNewModel "lot_sizing"; CallOptimize m o]
        /\ adapted (Py.len demand) o v)
     /\ returns E (lot_sizing_tool.solve_lot_sizing demand setup_cost
                     unit_cost holding_cost initial_inventory) w
                (structured v)
     /\ returns E (lot_sizing_tool.solve_lot_sizing_basic demand setup_cost
                     unit_cost holding_cost initial_inventory) w
                (compact v))
    /\
    (returns E (capacitated_lot_sizing_tool._solve_cap_core demand capacity
                  setup_cost unit_cost holding_cost initial_inventory) w v ->
     (exists m o,
        calls_of E (capacitated_lot_sizing_tool._solve_cap_core demand
                      capacity setup_cost unit_cost holding_cost
                      initial_inventory) w
        = [CallNewModel "cap_lot_sizing"; CallOptimize m o]
        /\ adapted (Py.len demand) o v)
     /\ returns E (capacitated_lot_sizing_tool.solve_cap_lot_sizing demand
                     capacity setup_cost unit_cost holding_cost
                     initial_inventory) w (structured v)
     /\ returns E (capacitated_lot_sizing_tool.solve_cap_lot_sizing_basic
                     demand capacity setup_cost unit_cost holding_cost
                     initial_inventory) w (compact v)).
Proof.
  intros W E w demand capacity sc uc hc init v. split; intros Hret.
  - split; [|split].
    + apply core_returns in Hret as [_ ->].
      eexists _, _. unfold calls_of. rewrite run_solve_core. cbn.
      split; [reflexivity | apply unpack_adapted].
    + unfold returns, outcome_of in *. rewrite run_solve_lot_sizing.
      unfold outcome_of. cbn [fst]. now rewrite Hret.
    + unfold returns, outcome_of in *. rewrite run_solve_lot_sizing_basic.
      unfold outcome_of. cbn [fst]. now rewrite Hret.
  - split; [|split].
    + apply cap_core_returns in Hret as [Hlen [bigM [Hmax [_ ->]]]].
      eexists _, _. unfold calls_of. rewrite run_solve_cap_core.
      apply Nat.eqb_eq in Hlen. rewrite Hlen, Hmax. cbn.
      split; [reflexivity | apply unpack_adapted].
    + unfold returns, outcome_of in *. rewrite run_solve_cap_lot_sizing.
      unfold outcome_of. cbn [fst]. now rewrite Hret.
    + unfold returns, outcome_of in *.
      rewrite run_solve_cap_lot_sizing_basic.
      unfold outcome_of. cbn [fst]. now rewrite Hret.
Qed.

Lemma result_adapter_example :
  returns (candidate_env (lot_for_lot example_demand) "")
    (lot_sizing_tool.solve_lot_sizing example_demand 1000 50 2 0) 0%nat
    [("production_plan", PyList (map PyFloat example_demand));
     ("inventory", PyList (map PyFloat [0; 0; 0; 0]));
     ("setup", PyList (map PyInt [1; 1; 1; 1]%Z));
     ("total_cost",
      PyFloat (gp.eval (lot_for_lot example_demand)
                 (formulation.cost 1000 50 2 4)))]
  /\ returns (candidate_env (lot_for_lot example_demand) "")
       (capacitated_lot_sizing_tool.solve_cap_lot_sizing_basic example_demand
          example_capacity 1000 50 2 0) 0%nat
       (example_demand,
        gp.eval (lot_for_lot example_demand) (formulation.cost 1000 50 2 4)).
Proof.
  pose (E := candidate_env (lot_for_lot example_demand) "").
  pose (v := (example_demand, [0; 0; 0; 0], [1; 1; 1; 1]%Z,
              gp.eval (lot_for_lot example_demand)
                (formulation.cost 1000 50 2 4))).
  destruct (result_adapter nat E 0%nat example_demand example_capacity
              1000 50 2 0 v) as [Hu Hc].
  split.
  - apply Hu. vm_compute. reflexivity.
  - apply Hc. vm_compute. reflexivity.
Defined.

(** C7. Whenever the solver honours its contract, the total cost that either
    core returns is the cost of the plan it returns with it: [setup_cost *
    sum(setup) + unit_cost * sum(production) + holding_cost *
    sum(inventory)], over the returned (rounded) setup flags, production plan
    and inventory trajectory.  Numbers are exact here, so the two sides are
    equal. *)
Theorem total_cost_is_the_cost_of_the_plan :
  forall (W : Type) (E : env W) (w : W) (demand capacity : list Q)
         (setup_cost unit_cost holding_cost initial_inventory : Q)
         (plan inv : list Q) (setups : list Z) (cost : Q),
    sound_env E ->
    (returns E (lot_sizing_tool._solve_core demand setup_cost unit_cost
                  holding_cost initial_inventory) w
             (plan, inv, setups, cost) ->
     cost == setup_cost * sum_int setups + unit_cost * Py.sum plan
             + holding_cost * Py.sum inv)
    /\
    (returns E (capacitated_lot_sizing_tool._solve_cap_core demand capacity
                  setup_cost unit_cost holding_cost initial_inventory) w
             (plan, inv, setups, cost) ->
     cost == setup_cost * sum_int setups + unit_cost * Py.sum plan
             + holding_cost * Py.sum inv).
Proof.
  intros W E w demand capacity sc uc hc init plan inv setups cost Hsound.
  split; intros Hret.
  - apply core_returns in Hret as [Hopt Hv].
    exact (unpack_cost _ _ sc uc hc (Py.len demand) plan inv setups cost
             (Hsound _ w) Hopt eq_refl eq_refl Hv).
  - apply cap_core_returns in Hret as [_ [bigM [_ [Hopt Hv]]]].
    exact (unpack_cost _ _ sc uc hc (Py.len demand) plan inv setups cost
             (Hsound _ w) Hopt eq_refl eq_refl Hv).
Qed.

Lemma total_cost_is_the_cost_of_the_plan_example :
  gp.eval (single_lot example_demand) (formulation.cost 1000 50 2 4)
  == 1000 * sum_int [1; 0; 0; 0]%Z + 50 * Py.sum [460; 0; 0; 0]
     + 2 * Py.sum [360; 210; 130; 0].
Proof.
  apply (proj1 (total_cost_is_the_cost_of_the_plan nat
                  (candidate_env (single_lot example_demand) "") 0%nat
                  example_demand example_capacity 1000 50 2 0
                  [460; 0; 0; 0] [360; 210; 130; 0] [1; 0; 0; 0]%Z
                  (gp.eval (single_lot example_demand)
                     (formulation.cost 1000 50 2 4))
                  (candidate_sound _ _))).
  vm_compute. reflexivity.
Defined.

(** C8. With an empty Demand Series and an empty Capacity Series, every
    capacitated operation creates its model and then raises the [ValueError]
    of [max] on an empty sequence, without calling the solver; that error is
    neither the error of the length check nor the error of a failed
    optimisation.  The uncapacitated core accepts an empty Demand Series: its
    big-M is the initial inventory, it submits a model without variables and
    constraints whose objective is 0 at every point, and when the solver
    reports [OPTIMAL] the operations return empty series together with the
    objective value, which is 0 for a solver that honours its contract. *)
Theorem empty_series :
  forall (W : Type) (E : env W) (w : W)
         (setup_cost unit_cost holding_cost initial_inventory : Q),
    let e := ValueError "max() arg is an empty sequence" in
    (run E (capacitated_lot_sizing_tool._solve_cap_core [] [] setup_cost
              unit_cost holding_cost initial_inventory) w
     = (Err e, w, [CallNewModel "cap_lot_sizing"])
     /\ run E (capacitated_lot_sizing_tool.solve_cap_lot_sizing [] []
                 setup_cost unit_cost holding_cost initial_inventory) w
        = (Err e, w, [CallNewModel "cap_lot_sizing"])
     /\ run E (capacitated_lot_sizing_tool.solve_cap_lot_sizing_basic [] []
                 setup_cost unit_cost holding_cost initial_inventory) w
        = (Err e, w, [CallNewModel "cap_lot_sizing"])
     /\ e <> ValueError "'demand' and 'capacity' must have the same length"
     /\ (forall status, e <> formulation.failure status))
    /\
    (Py.sum [] + initial_inventory == initial_inventory
     /\ exists m o,
          calls_of E (lot_sizing_tool._solve_core [] setup_cost unit_cost
                        holding_cost initial_inventory) w
          = [CallNewModel "lot_sizing"; CallOptimize m o]
          /\ gp.vars m = [] /\ gp.constrs m = []
          /\ (forall x, gp.feasibleb m x = true
                        /\ gp.eval x (gp.objective m) == 0)
          /\ (gp.Status o = GRB.OPTIMAL ->
              returns E (lot_sizing_tool._solve_core [] setup_cost unit_cost
                           holding_cost initial_inventory) w
                      ([], [], [], gp.ObjVal o)
              /\ returns E (lot_sizing_tool.solve_lot_sizing [] setup_cost
                              unit_cost holding_cost initial_inventory) w
                         [("production_plan", PyList []);
                          ("inventory", PyList []);
                          ("setup", PyList []);
                          ("total_cost", PyFloat (gp.ObjVal o))]
              /\ returns E (lot_sizing_tool.solve_lot_sizing_basic []
                              setup_cost unit_cost holding_cost
                              initial_inventory) w
                         ([], gp.ObjVal o)
              /\ (gp.sound m o -> gp.ObjVal o == 0))).
Proof.
  intros W E w sc uc hc init e. split.
  - assert (Hcore :
      run E (capacitated_lot_sizing_tool._solve_cap_core [] [] sc uc hc init)
          w = (Err e, w, [CallNewModel "cap_lot_sizing"])).
    { rewrite run_solve_cap_core. reflexivity. }
    split; [exact Hcore|].
    rewrite run_solve_cap_lot_sizing, run_solve_cap_lot_sizing_basic.
    unfold outcome_of, state_after, calls_of. rewrite Hcore.
    split; [reflexivity|]. split; [reflexivity|].
    split; [discriminate | intros status; discriminate].
  - split; [unfold Py.sum; cbn; lra|].
    eexists _, _. unfold calls_of, returns, outcome_of.
    rewrite run_solve_lot_sizing, run_solve_lot_sizing_basic.
    unfold outcome_of. rewrite run_solve_core. cbn [fst snd].
    split; [reflexivity|]. split; [reflexivity|]. split; [reflexivity|].
    split.
    + intros x. split; [reflexivity|]. cbn. lra.
    + intros Hopt. apply Z.eqb_eq in Hopt. cbn [Py.len length]. rewrite Hopt.
      repeat split.
      intros Hsound. apply Z.eqb_eq in Hopt.
      destruct (Hsound Hopt) as [_ Hobj]. rewrite Hobj. cbn. lra.
Qed.

Lemma empty_series_example :
  returns (candidate_env (lot_for_lot []) "")
    (lot_sizing_tool.solve_lot_sizing [] 1000 50 2 7) 0%nat
    [("production_plan", PyList []);
     ("inventory", PyList []);
     ("setup", PyList []);
     ("total_cost",
      PyFloat (gp.eval (lot_for_lot []) (formulation.cost 1000 50 2 0)))]
  /\ gp.eval (lot_for_lot []) (formulation.cost 1000 50 2 0) == 0.
Proof.
  pose (E := candidate_env (lot_for_lot []) "").
  destruct (empty_series nat E 0%nat 1000 50 2 7)
    as [_ [_ [m [o [Hcalls [_ [_ [_ Hopt]]]]]]]].
  unfold calls_of in Hcalls. vm_compute in Hcalls.
  injection Hcalls as <- <-.
  destruct (Hopt eq_refl) as [_ [Htool [_ Hzero]]].
  split.
  - exact Htool.
  - apply Hzero. intros _. split; [reflexivity|]. reflexivity.
Defined.

(** C9. Run directly, each module reads standard input once and parses it.
    When the text is a JSON object with distinct keys, each of them a keyword
    of the structured-output tool, that names a series of numbers under
    [demand] (and under [capacity], for the capacitated module), a number
    under [setup_cost], [unit_cost] and [holding_cost], and a number or
    nothing under [initial_inventory], the module runs the structured-output
    tool on exactly these values, with 0 for an initial inventory that is not
    named: the same solver call, the same result.  If the tool returns, the
    module writes its result, a dict of four keys encoded with two spaces per
    nesting level, followed by one newline; on standard output this comes
    after the lines gurobipy printed when the model was created, the banner
    of the environment.  If the tool
    raises, the error propagates and the module writes nothing. *)
Theorem command_line_entry :
  forall (json_loads : string -> result pyval) (float_repr : Q -> string)
         (encode_basestring : string -> string)
         (untyped_call : list (string * pyval)
                         -> prog (list (string * pyval)))
         (W : Type) (E : env W) (w : W) (d : list (string * pyval)),
    json_loads (stdin E) = Ok (PyDict d) ->
    NoDup (map fst d) ->
    (forall demand sc uc hc init,
       (forall k, In k (map fst d) ->
          In k ["demand"; "setup_cost"; "unit_cost"; "holding_cost";
                "initial_inventory"; "sanitize_inputs_outputs"]) ->
       names_series d "demand" demand ->
       names_number d "setup_cost" sc ->
       names_number d "unit_cost" uc ->
       names_number d "holding_cost" hc ->
       names_number_or 0 d "initial_inventory" init ->
       let tool := lot_sizing_tool.solve_lot_sizing demand sc uc hc init in
       let main := lot_sizing_tool.main json_loads float_repr
                     encode_basestring untyped_call in
       match outcome_of E (lot_sizing_tool._solve_core demand sc uc hc init) w
       with
       | Ok v =>
           returns E tool w (structured v)
           /\ run E main w
              = (Ok tt, state_after E tool w,
                 (CallReadStdin :: calls_of E tool w
                  ++ [CallWriteStdout
                        (json.dumps float_repr encode_basestring 2
                           (PyDict (structured v)));
                      CallWriteStdout json.newline])%list)
           /\ stdout (banner E) (calls_of E main w)
              = banner E ++ layout float_repr encode_basestring v
                ++ json.newline
       | Err e =>
           outcome_of E tool w = Err e
           /\ run E main w
              = (Err e, state_after E tool w,
                 CallReadStdin :: calls_of E tool w)
           /\ stdout (banner E) (calls_of E main w) = banner E
       end)
    /\
    (forall demand capacity sc uc hc init,
       (forall k, In k (map fst d) ->
          In k ["demand"; "capacity"; "setup_cost"; "unit_cost";
                "holding_cost"; "initial_inventory";
                "sanitize_inputs_outputs"]) ->
       names_series d "demand" demand ->
       names_series d "capacity" capacity ->
       names_number d "setup_cost" sc ->
       names_number d "unit_cost" uc ->
       names_number d "holding_cost" hc ->
       names_number_or 0 d "initial_inventory" init ->
       let tool := capacitated_lot_sizing_tool.solve_cap_lot_sizing demand
                     capacity sc uc hc init in
       let main := capacitated_lot_sizing_tool.main json_loads float_repr
                     encode_basestring untyped_call in
       match outcome_of E (capacitated_lot_sizing_tool._solve_cap_core demand
                             capacity sc uc hc init) w
       with
       | Ok v =>
           returns E tool w (structured v)
           /\ run E main w
              = (Ok tt, state_after E tool w,
                 (CallReadStdin :: calls_of E tool w
                  ++ [CallWriteStdout
                        (json.dumps float_repr encode_basestring 2
                           (PyDict (structured v)));
                      CallWriteStdout json.newline])%list)
           /\ stdout (banner E) (calls_of E main w)
              = banner E ++ layout float_repr encode_basestring v
                ++ json.newline
       | Err e =>
           outcome_of E tool w = Err e
           /\ run E main w
              = (Err e, state_after E tool w,
                 CallReadStdin :: calls_of E tool w)
           /\ stdout (banner E) (calls_of E main w)
              = if Nat.eqb (Py.len demand) (Py.len capacity)
                then banner E else ""
       end).
Proof.
  intros json_loads float_repr enc untyped W E w d Hload Hnd. split.
  - intros demand sc uc hc init Hkeys Hd Hs Hu Hh Hi tool main.
    pose proof (bind_parameters_names d demand sc uc hc init Hnd Hkeys
                  Hd Hs Hu Hh Hi) as Hbind.
    pose proof (run_main json_loads float_repr enc untyped E w d demand
                  sc uc hc init Hload Hbind) as Hmain.
    pose proof (stdout_core W E w demand sc uc hc init) as Hout.
    fold main tool in Hmain.
    unfold returns, outcome_of, state_after, calls_of in *.
    unfold tool in *. rewrite run_solve_lot_sizing in *.
    unfold outcome_of, state_after, calls_of in *. cbn [fst snd] in *.
    destruct (run E (lot_sizing_tool._solve_core demand sc uc hc init) w)
      as [[[v|e] w1] cs]; cbn [map_result fst snd] in *; rewrite Hmain;
      cbn [fst snd]; unfold stdout in *; cbn [stdout_from].
    + repeat split. rewrite stdout_from_writes, Hout, dumps_layout.
      reflexivity.
    + now repeat split.
  - intros demand capacity sc uc hc init Hkeys Hd Hc Hs Hu Hh Hi tool main.
    pose proof (cap_bind_parameters_names d demand capacity sc uc hc init
                  Hnd Hkeys Hd Hc Hs Hu Hh Hi) as Hbind.
    pose proof (run_cap_main json_loads float_repr enc untyped E w d demand
                  capacity sc uc hc init Hload Hbind) as Hmain.
    pose proof (stdout_cap_core W E w demand capacity sc uc hc init)
      as Hout.
    pose proof (cap_core_returns E w demand capacity sc uc hc init) as Hlen.
    fold main tool in Hmain.
    unfold returns, outcome_of, state_after, calls_of in *.
    unfold tool in *. rewrite run_solve_cap_lot_sizing in *.
    unfold outcome_of, state_after, calls_of in *. cbn [fst snd] in *.
    destruct (run E (capacitated_lot_sizing_tool._solve_cap_core demand
                       capacity sc uc hc init) w)
      as [[[v|e] w1] cs]; cbn [map_result fst snd] in *; rewrite Hmain;
      cbn [fst snd]; unfold stdout in *; cbn [stdout_from].
    + repeat split. rewrite stdout_from_writes, Hout, dumps_layout.
      destruct (Hlen v eq_refl) as [-> _]. now rewrite Nat.eqb_refl.
    + now repeat split.
Qed.

Lemma command_line_entry_example :
  stdout example_banner
    (calls_of (candidate_env (single_lot example_demand) example_input)
       (lot_sizing_tool.main example_loads whole_repr quoted untyped_fails)
       0%nat)
  = example_banner ++ example_output.
Proof.
  pose (E := candidate_env (single_lot example_demand) example_input).
  assert (Hload : example_loads (stdin E) = Ok (PyDict example_data))
    by (vm_compute; reflexivity).
  assert (Hnd : NoDup (map fst example_data))
    by (repeat (constructor; [cbn; intuition discriminate|]); constructor).
  assert (Hkeys : forall k, In k (map fst example_data) ->
            In k ["demand"; "setup_cost"; "unit_cost"; "holding_cost";
                  "initial_inventory"; "sanitize_inputs_outputs"])
    by (cbn; intuition auto).
  assert (Hd : names_series example_data "demand" example_demand)
    by (eexists; split; [cbn; auto | repeat constructor]).
  assert (Hs : names_number example_data "setup_cost" 1000)
    by (eexists; split; [cbn; auto 6 | reflexivity]).
  assert (Hu : names_number example_data "unit_cost" 50)
    by (eexists; split; [cbn; auto 6 | reflexivity]).
  assert (Hh : names_number example_data "holding_cost" 2)
    by (eexists; split; [cbn; auto 6 | reflexivity]).
  assert (Hi : names_number_or 0 example_data "initial_inventory" 0)
    by (right; split; [cbn; intuition discriminate | reflexivity]).
  assert (Hcore :
    outcome_of E (lot_sizing_tool._solve_core example_demand 1000 50 2 0)
      0%nat
    = Ok ([460; 0; 0; 0], [360; 210; 130; 0], [1; 0; 0; 0]%Z,
          gp.eval (single_lot example_demand)
            (formulation.cost 1000 50 2 4)))
    by (vm_compute; reflexivity).
  destruct (command_line_entry example_loads whole_repr quoted untyped_fails
              nat E 0%nat example_data Hload Hnd) as [Hrun _].
  specialize (Hrun example_demand 1000 50 2 0 Hkeys Hd Hs Hu Hh Hi).
  cbv zeta in Hrun. rewrite Hcore in Hrun.
  destruct Hrun as [_ [_ Hout]].
  etransitivity; [exact Hout|]. vm_compute. reflexivity.
Defined.



(** * Further properties of the two builders *)

(** ** Sums of prefixes *)

Lemma fold_sum_shift (xs : list Q) (a : Q) :
  fold_left Qplus xs a == a + fold_left Qplus xs 0.
Proof.
  revert a. induction xs as [|x xs IH]; intros a; cbn; [ring|].
  rewrite (IH (a + x)), (IH (0 + x)). ring.
Qed.

Lemma sum_app (xs ys : list Q) : Py.sum (xs ++ ys) == Py.sum xs + Py.sum ys.
Proof.
  unfold Py.sum. rewrite fold_left_app. apply fold_sum_shift.
Qed.

Lemma sum_snoc (xs : list Q) (x : Q) : Py.sum (xs ++ [x]) == Py.sum xs + x.
Proof. rewrite sum_app. unfold Py.sum at 2. cbn. ring. Qed.

Lemma firstn_snoc {A : Type} (xs : list A) (t : nat) (d : A) :
  (t < Py.len xs)%nat -> firstn (S t) xs = (firstn t xs ++ [nth t xs d])%list.
Proof.
  unfold Py.len.
  revert t. induction xs as [|x xs IH]; intros t Ht; [cbn in Ht; lia|].
  destruct t as [|t]; [reflexivity|].
  cbn in Ht. cbn [firstn nth app]. f_equal. apply IH. lia.
Qed.

Lemma cumulative_0 (xs : list Q) :
  (0 < Py.len xs)%nat -> cumulative xs 0 == nth 0 xs 0.
Proof.
  unfold Py.len. destruct xs as [|x xs]; [cbn; lia|]. intros _.
  unfold cumulative, Py.sum. cbn. ring.
Qed.

Lemma cumulative_S (xs : list Q) (t : nat) :
  (S t < Py.len xs)%nat ->
  cumulative xs (S t) == cumulative xs t + nth (S t) xs 0.
Proof.
  intros Ht. unfold cumulative.
  rewrite (firstn_snoc xs (S t) 0 Ht). apply sum_snoc.
Qed.

(** A trajectory with the balance invariant is the initial inventory plus
    what was produced so far minus what was demanded so far. *)
Lemma balance_telescopes (init : Q) (demand plan inv : list Q) :
  Py.len plan = Py.len demand ->
  balance_invariant init demand plan inv ->
  forall t, (t < Py.len demand)%nat ->
    nth t inv 0 == init + cumulative plan t - cumulative demand t.
Proof.
  intros Hlen Hbal t. unfold Py.len in *.
  induction t as [|t IH]; intros Ht.
  - destruct (Hbal 0%nat Ht) as [H _]. cbn [Nat.eqb] in H.
    pose proof (cumulative_0 plan ltac:(unfold Py.len; lia)).
    pose proof (cumulative_0 demand Ht). lra.
  - destruct (Hbal (S t) Ht) as [H _]. cbn [Nat.eqb] in H.
    replace (S t - 1)%nat with t in H by lia.
    pose proof (cumulative_S plan t ltac:(unfold Py.len; lia)).
    pose proof (cumulative_S demand t Ht).
    pose proof (IH ltac:(lia)). lra.
Qed.

(** ** What a returned solution satisfies *)

Lemma length_map_range {A : Type} (f : nat -> A) (T : nat) :
  Py.len (map f (Py.range T)) = T.
Proof. unfold Py.len, Py.range. now rewrite length_map, length_seq. Qed.

(** The point behind the results of [_solve_core]. *)
Lemma core_point {W : Type} (E : env W) (w : W) (demand : list Q)
    (sc uc hc init : Q) (v : list Q * list Q * list Z * Q) :
  sound_env E ->
  returns E (lot_sizing_tool._solve_core demand sc uc hc init) w v ->
  exists o,
    gp.feasibleb (formulation.lot_sizing demand sc uc hc init) (gp.X o) = true
    /\ gp.ObjVal o
       == gp.eval (gp.X o) (formulation.cost sc uc hc (Py.len demand))
    /\ v = formulation.unpack (Py.len demand) o.
Proof.
  intros Hsound Hret. apply core_returns in Hret as [Hopt Hv].
  destruct (Hsound _ w Hopt) as [Hf Hobj]. eexists. repeat split; eauto.
Qed.

(** The point behind the results of [_solve_cap_core]. *)
Lemma cap_core_point {W : Type} (E : env W) (w : W)
    (demand capacity : list Q) (sc uc hc init : Q)
    (v : list Q * list Q * list Z * Q) :
  sound_env E ->
  returns E (capacitated_lot_sizing_tool._solve_cap_core demand capacity
               sc uc hc init) w v ->
  exists bigM o,
    Py.len demand = Py.len capacity
    /\ Py.max capacity = Ok bigM
    /\ gp.feasibleb (formulation.cap_lot_sizing demand capacity sc uc hc init
                       bigM) (gp.X o) = true
    /\ gp.ObjVal o
       == gp.eval (gp.X o) (formulation.cost sc uc hc (Py.len demand))
    /\ v = formulation.unpack (Py.len demand) o.
Proof.
  intros Hsound Hret.
  apply cap_core_returns in Hret as [Hlen [bigM [Hmax [Hopt Hv]]]].
  destruct (Hsound _ w Hopt) as [Hf Hobj].
  exists bigM. eexists. repeat split; eauto.
Qed.

Lemma point_balance (m : gp.Model) (x : gp.Var -> Q) (demand : list Q)
    (init : Q) (t : nat) :
  gp.feasibleb m x = true ->
  gp.vars m = formulation.variables (Py.len demand) ->
  (forall t, (t < Py.len demand)%nat ->
     In (formulation.balance demand init t) (gp.constrs m)) ->
  (t < Py.len demand)%nat ->
  x (formulation.inv t)
  == init
     + cumulative (map (fun t => x (formulation.prod t))
                     (Py.range (Py.len demand))) t
     - cumulative demand t
  /\ 0 <= x (formulation.inv t).
Proof.
  intros Hf Hv Hb Ht.
  pose proof (feasible_balance_invariant m x demand init Hf Hv Hb) as Hbal.
  pose proof (balance_telescopes init demand _ _ (length_map_range _ _) Hbal
                t Ht) as Htel.
  rewrite (nth_map_range (fun t => x (formulation.inv t)) _ t) in Htel
    by trivial.
  split; [exact Htel|].
  destruct (Hbal t Ht) as [_ [Hi _]].
  now rewrite (nth_map_range (fun t => x (formulation.inv t)) _ t) in Hi
    by trivial.
Qed.

(** X1. Whenever the solver honours its contract, the inventory that either
    core returns for a period is the initial inventory plus everything
    produced up to that period minus everything demanded up to that period;
    so the demand is always met on time: the initial inventory and the
    cumulative production cover the cumulative demand in every period. *)
Theorem inventory_is_cumulative :
  forall (W : Type) (E : env W) (w : W) (demand capacity : list Q)
         (setup_cost unit_cost holding_cost initial_inventory : Q)
         (plan inv : list Q) (setups : list Z) (cost : Q),
    sound_env E ->
    (returns E (lot_sizing_tool._solve_core demand setup_cost unit_cost
                  holding_cost initial_inventory) w
             (plan, inv, setups, cost) ->
     forall t, (t < Py.len demand)%nat ->
       nth t inv 0
       == initial_inventory + cumulative plan t - cumulative demand t
       /\ cumulative demand t <= initial_inventory + cumulative plan t)
    /\
    (returns E (capacitated_lot_sizing_tool._solve_cap_core demand capacity
                  setup_cost unit_cost holding_cost initial_inventory) w
             (plan, inv, setups, cost) ->
     forall t, (t < Py.len demand)%nat ->
       nth t inv 0
       == initial_inventory + cumulative plan t - cumulative demand t
       /\ cumulative demand t <= initial_inventory + cumulative plan t).
Proof.
  intros W E w demand capacity sc uc hc init plan inv setups cost Hsound.
  split; intros Hret t Ht.
  - destruct (core_point E w _ _ _ _ _ _ Hsound Hret) as [o [Hf [_ Hv]]].
    unfold formulation.unpack in Hv. injection Hv as -> -> _ _.
    rewrite (nth_map_range (fun t => gp.X o (formulation.inv t)) _ t)
      by trivial.
    destruct (point_balance _ (gp.X o) demand init t Hf eq_refl) as [H1 H2];
      [intros; now apply in_lot_sizing_constrs | assumption |].
    split; [exact H1 | lra].
  - destruct (cap_core_point E w _ _ _ _ _ _ _ Hsound Hret)
      as [bigM [o [_ [_ [Hf [_ Hv]]]]]].
    unfold formulation.unpack in Hv. injection Hv as -> -> _ _.
    rewrite (nth_map_range (fun t => gp.X o (formulation.inv t)) _ t)
      by trivial.
    destruct (point_balance _ (gp.X o) demand init t Hf eq_refl) as [H1 H2];
      [intros; now apply in_cap_lot_sizing_constrs | assumption |].
    split; [exact H1 | lra].
Qed.

Lemma inventory_is_cumulative_example :
  nth 3 [0; 0; 0; 0] 0
  == 0 + cumulative example_demand 3 - cumulative example_demand 3
  /\ cumulative example_demand 3 <= 0 + cumulative example_demand 3.
Proof.
  pose (E := candidate_env (lot_for_lot example_demand) "").
  assert (Hret :
    returns E (lot_sizing_tool._solve_core example_demand 1000 50 2 0) 0%nat
      (example_demand, [0; 0; 0; 0], [1; 1; 1; 1]%Z,
       gp.eval (lot_for_lot example_demand) (formulation.cost 1000 50 2 4)))
    by (vm_compute; reflexivity).
  apply (proj1 (inventory_is_cumulative nat E 0%nat example_demand
                  example_capacity 1000 50 2 0 _ _ _ _ (candidate_sound _ _))
           Hret 3%nat).
  cbn. lia.
Defined.

Lemma round_binary_cases (y : Q) :
  y == 0 \/ y == 1 -> Py.round y = 0%Z \/ Py.round y = 1%Z.
Proof.
  intros [H|H]; rewrite (round_Qeq _ _ H); [left | right]; reflexivity.
Qed.

Lemma point_flag (m : gp.Model) (x : gp.Var -> Q) (T t : nat) :
  gp.feasibleb m x = true ->
  gp.vars m = formulation.variables T ->
  (t < T)%nat ->
  Py.round (x (formulation.setup t)) = 0%Z
  \/ Py.round (x (formulation.setup t)) = 1%Z.
Proof.
  intros Hf Hv Ht. apply round_binary_cases, binary_ok.
  eapply feasible_var; eauto. rewrite Hv. now apply in_variables_setup.
Qed.

(** X2. Whenever the solver honours its contract, every setup flag that
    either core returns is the integer 0 or the integer 1. *)
Theorem setup_flags_are_binary :
  forall (W : Type) (E : env W) (w : W) (demand capacity : list Q)
         (setup_cost unit_cost holding_cost initial_inventory : Q)
         (plan inv : list Q) (setups : list Z) (cost : Q),
    sound_env E ->
    (returns E (lot_sizing_tool._solve_core demand setup_cost unit_cost
                  holding_cost initial_inventory) w
             (plan, inv, setups, cost) ->
     Forall (fun flag => flag = 0%Z \/ flag = 1%Z) setups)
    /\
    (returns E (capacitated_lot_sizing_tool._solve_cap_core demand capacity
                  setup_cost unit_cost holding_cost initial_inventory) w
             (plan, inv, setups, cost) ->
     Forall (fun flag => flag = 0%Z \/ flag = 1%Z) setups).
Proof.
  intros W E w demand capacity sc uc hc init plan inv setups cost Hsound.
  split; intros Hret.
  - destruct (core_point E w _ _ _ _ _ _ Hsound Hret) as [o [Hf [_ Hv]]].
    unfold formulation.unpack in Hv. injection Hv as _ _ -> _.
    apply Forall_forall. intros flag Hin.
    apply in_map_iff in Hin as [t [<- Ht]]. apply in_seq in Ht.
    apply (point_flag _ (gp.X o) (Py.len demand) t Hf eq_refl). lia.
  - destruct (cap_core_point E w _ _ _ _ _ _ _ Hsound Hret)
      as [bigM [o [_ [_ [Hf [_ Hv]]]]]].
    unfold formulation.unpack in Hv. injection Hv as _ _ -> _.
    apply Forall_forall. intros flag Hin.
    apply in_map_iff in Hin as [t [<- Ht]]. apply in_seq in Ht.
    apply (point_flag _ (gp.X o) (Py.len demand) t Hf eq_refl). lia.
Qed.

Lemma setup_flags_are_binary_example :
  Forall (fun flag => flag = 0%Z \/ flag = 1%Z) [1; 1; 1; 1]%Z.
Proof.
  pose (E := candidate_env (lot_for_lot example_demand) "").
  assert (Hret :
    returns E (capacitated_lot_sizing_tool._solve_cap_core example_demand
                 example_capacity 1000 50 2 0) 0%nat
      (example_demand, [0; 0; 0; 0], [1; 1; 1; 1]%Z,
       gp.eval (lot_for_lot example_demand) (formulation.cost 1000 50 2 4)))
    by (vm_compute; reflexivity).
  exact (proj2 (setup_flags_are_binary nat E 0%nat example_demand
                  example_capacity 1000 50 2 0 _ _ _ _ (candidate_sound _ _))
           Hret).
Defined.

Lemma nth_Forall_le (xs : list Q) (b : Q) (t : nat) :
  Forall (fun c => c <= b) xs -> (t < Py.len xs)%nat -> nth t xs 0 <= b.
Proof.
  intros H Ht. rewrite Forall_forall in H. apply H. now apply nth_In.
Qed.

(** X3. Whenever the solver honours its contract, a plan returned by
    [_solve_cap_core] produces, in every period, at most [max(capacity)]
    times the returned setup flag of the period: the flag is 1 whenever
    the period produces, and no period produces more than the largest
    capacity. *)
Theorem capacitated_linking :
  forall (W : Type) (E : env W) (w : W) (demand capacity : list Q)
         (setup_cost unit_cost holding_cost initial_inventory bigM : Q)
         (plan inv : list Q) (setups : list Z) (cost : Q),
    sound_env E ->
    Py.max capacity = Ok bigM ->
    returns E (capacitated_lot_sizing_tool._solve_cap_core demand capacity
                 setup_cost unit_cost holding_cost initial_inventory) w
            (plan, inv, setups, cost) ->
    forall t, (t < Py.len demand)%nat ->
      nth t plan 0 <= bigM * inject_Z (nth t setups 0%Z)
      /\ (0 < nth t plan 0 -> nth t setups 0%Z = 1%Z)
      /\ nth t plan 0 <= bigM.
Proof.
  intros W E w demand capacity sc uc hc init bigM plan inv setups cost
         Hsound Hmax Hret t Ht.
  destruct (cap_core_point E w _ _ _ _ _ _ _ Hsound Hret)
    as [bigM' [o [Hlen [Hmax' [Hf [_ Hv]]]]]].
  rewrite Hmax in Hmax'. injection Hmax' as <-.
  unfold formulation.unpack in Hv. injection Hv as -> _ -> _.
  rewrite (nth_map_range (fun t => gp.X o (formulation.prod t)) _ t)
    by trivial.
  rewrite (nth_map_range
             (fun t => Py.int (Py.round (gp.X o (formulation.setup t)))) _ t)
    by trivial.
  destruct (feasible_linking _ _ (Py.len demand) bigM t Hf eq_refl)
    as [Hp [Hy Hl]]; [now apply in_cap_lot_sizing_constrs | assumption |].
  destruct (linking_flags _ _ bigM Hp Hy Hl) as [H1 [H2 _]].
  repeat split; try assumption.
  assert (Hc : gp.X o (formulation.prod t) <= nth t capacity 0).
  { apply capacity_bound_ok. eapply feasible_constr; eauto.
    now apply in_cap_lot_sizing_constrs. }
  pose proof (nth_Forall_le capacity bigM t (proj2 (max_spec _ _ Hmax))
                ltac:(rewrite <- Hlen; exact Ht)).
  lra.
Qed.

Lemma capacitated_linking_example :
  nth 2 example_demand 0 <= 300 * inject_Z (nth 2 [1; 1; 1; 1]%Z 0%Z)
  /\ nth 2 [1; 1; 1; 1]%Z 0%Z = 1%Z
  /\ nth 2 example_demand 0 <= 300.
Proof.
  pose (E := candidate_env (lot_for_lot example_demand) "").
  assert (Hret :
    returns E (capacitated_lot_sizing_tool._solve_cap_core example_demand
                 example_capacity 1000 50 2 0) 0%nat
      (example_demand, [0; 0; 0; 0], [1; 1; 1; 1]%Z,
       gp.eval (lot_for_lot example_demand) (formulation.cost 1000 50 2 4)))
    by (vm_compute; reflexivity).
  assert (Hmax : Py.max example_capacity = Ok 300)
    by (vm_compute; reflexivity).
  destruct (capacitated_linking nat E 0%nat example_demand example_capacity
              1000 50 2 0 300 _ _ _ _ (candidate_sound _ _) Hmax Hret
              2%nat ltac:(cbn; lia)) as [H1 [H2 H3]].
  split; [exact H1|]. split; [|exact H3].
  apply H2. reflexivity.
Defined.

(** ** Models without a feasible point *)

(** A core whose model has no feasible point raises, whatever a solver that
    honours its contract answers. *)
Lemma infeasible_core_raises {W : Type} (E : env W) (w : W) (demand : list Q)
    (sc uc hc init : Q) :
  sound_env E ->
  (forall x, gp.feasibleb (formulation.lot_sizing demand sc uc hc init) x
             = false) ->
  exists status,
    status <> GRB.OPTIMAL
    /\ outcome_of E (lot_sizing_tool._solve_core demand sc uc hc init) w
       = Err (formulation.failure status).
Proof.
  intros Hsound Hinf. unfold outcome_of. rewrite run_solve_core. cbn [fst].
  set (o := fst (solver E _ w)).
  destruct (Z.eqb (gp.Status o) GRB.OPTIMAL) eqn:Hs.
  - apply Z.eqb_eq in Hs. destruct (Hsound _ w Hs) as [Hf _].
    rewrite Hinf in Hf. discriminate.
  - apply Z.eqb_neq in Hs. now exists (gp.Status o).
Qed.

Lemma infeasible_cap_core_raises {W : Type} (E : env W) (w : W)
    (demand capacity : list Q) (sc uc hc init bigM : Q) :
  sound_env E ->
  Py.len demand = Py.len capacity ->
  Py.max capacity = Ok bigM ->
  (forall x, gp.feasibleb (formulation.cap_lot_sizing demand capacity
                             sc uc hc init bigM) x = false) ->
  exists status,
    status <> GRB.OPTIMAL
    /\ outcome_of E (capacitated_lot_sizing_tool._solve_cap_core demand
                       capacity sc uc hc init) w
       = Err (formulation.failure status).
Proof.
  intros Hsound Hlen Hmax Hinf. unfold outcome_of.
  rewrite run_solve_cap_core. apply Nat.eqb_eq in Hlen.
  rewrite Hlen, Hmax. cbn [negb fst].
  set (o := fst (solver E _ w)).
  destruct (Z.eqb (gp.Status o) GRB.OPTIMAL) eqn:Hs.
  - apply Z.eqb_eq in Hs. destruct (Hsound _ w Hs) as [Hf _].
    rewrite Hinf in Hf. discriminate.
  - apply Z.eqb_neq in Hs. now exists (gp.Status o).
Qed.

Lemma not_true_false (b : bool) : (b = true -> False) -> b = false.
Proof. destruct b; [intros H; now destruct H | reflexivity]. Qed.

(** X5. When the first period needs more than the big-M allows, that is
    [demand[0] - initial_inventory] is positive and exceeds
    [sum(demand) + initial_inventory] (a single period with a negative
    initial inventory, for instance), the model that [_solve_core] submits
    has no feasible point, and with a solver that honours its contract the
    call raises the [RuntimeError] of a status other than [OPTIMAL]. *)
Theorem backlog_makes_the_model_infeasible :
  forall (W : Type) (E : env W) (w : W) (demand : list Q)
         (setup_cost unit_cost holding_cost initial_inventory : Q),
    sound_env E ->
    (0 < Py.len demand)%nat ->
    initial_inventory < nth 0 demand 0 ->
    Py.sum demand + initial_inventory < nth 0 demand 0 - initial_inventory ->
    (forall m x,
       In m (submitted (calls_of E (lot_sizing_tool._solve_core demand
                          setup_cost unit_cost holding_cost initial_inventory)
                          w)) ->
       gp.feasibleb m x = false)
    /\ exists status,
         status <> GRB.OPTIMAL
         /\ outcome_of E (lot_sizing_tool._solve_core demand setup_cost
                            unit_cost holding_cost initial_inventory) w
            = Err (formulation.failure status).
Proof.
  intros W E w demand sc uc hc init Hsound HT Hd0 Hbig.
  assert (Hinf : forall x,
            gp.feasibleb (formulation.lot_sizing demand sc uc hc init) x
            = false).
  { intros x. apply not_true_false. intros Hf.
    destruct (feasible_linking _ x (Py.len demand) (Py.sum demand + init)
                0%nat Hf eq_refl) as [Hp [Hy Hl]];
      [now apply in_lot_sizing_constrs | assumption |].
    assert (Hb : x (formulation.inv 0%nat)
                 == init + x (formulation.prod 0%nat) - nth 0 demand 0).
    { apply (balance_ok x demand init 0%nat).
      eapply feasible_constr; eauto. now apply in_lot_sizing_constrs. }
    assert (Hi : 0 <= x (formulation.inv 0%nat)).
    { apply continuous_ok. eapply feasible_var; eauto.
      now apply in_variables_inv. }
    destruct Hy as [Hy|Hy]; rewrite Hy in Hl; lra. }
  split.
  - intros m x Hm. unfold calls_of in Hm. rewrite run_solve_core in Hm.
    cbn in Hm. destruct Hm as [<-|[]]. apply Hinf.
  - now apply infeasible_core_raises.
Qed.

Lemma backlog_makes_the_model_infeasible_example :
  exists status,
    status <> GRB.OPTIMAL
    /\ outcome_of (candidate_env nowhere "")
         (lot_sizing_tool._solve_core [10] 1000 50 2 (-5)) 0%nat
       = Err (formulation.failure status).
Proof.
  apply (backlog_makes_the_model_infeasible nat (candidate_env nowhere "")
           0%nat [10] 1000 50 2 (-5) (candidate_sound _ _)).
  - cbn. lia.
  - reflexivity.
  - reflexivity.
Defined.

Lemma cumulative_le (xs ys : list Q) (t : nat) :
  (t < Py.len xs)%nat -> (t < Py.len ys)%nat ->
  (forall s, (s <= t)%nat -> nth s xs 0 <= nth s ys 0) ->
  cumulative xs t <= cumulative ys t.
Proof.
  induction t as [|t IH]; intros Hx Hy Hle.
  - rewrite !cumulative_0 by lia. apply Hle. lia.
  - rewrite !cumulative_S by lia.
    pose proof (IH ltac:(lia) ltac:(lia) ltac:(intros; apply Hle; lia)).
    pose proof (Hle (S t) ltac:(lia)). lra.
Qed.

(** X6. When, in some period, the capacity is negative, or the initial
    inventory plus the capacities of the periods so far is less than the
    demand of the periods so far, the model that [_solve_cap_core] submits has
    no feasible point, and with a solver that honours its contract the call
    raises the [RuntimeError] of a status other than [OPTIMAL]. *)
Theorem capacity_shortfall_makes_the_model_infeasible :
  forall (W : Type) (E : env W) (w : W) (demand capacity : list Q)
         (setup_cost unit_cost holding_cost initial_inventory : Q) (t : nat),
    sound_env E ->
    Py.len demand = Py.len capacity ->
    (t < Py.len demand)%nat ->
    nth t capacity 0 < 0
    \/ initial_inventory + cumulative capacity t < cumulative demand t ->
    (forall m x,
       In m (submitted (calls_of E
                          (capacitated_lot_sizing_tool._solve_cap_core demand
                             capacity setup_cost unit_cost holding_cost
                             initial_inventory) w)) ->
       gp.feasibleb m x = false)
    /\ exists status,
         status <> GRB.OPTIMAL
         /\ outcome_of E (capacitated_lot_sizing_tool._solve_cap_core demand
                            capacity setup_cost unit_cost holding_cost
                            initial_inventory) w
            = Err (formulation.failure status).
Proof.
  intros W E w demand capacity sc uc hc init t Hsound Hlen Ht Hshort.
  destruct (Py.max capacity) as [bigM|e] eqn:Hmax;
    [|destruct capacity; [rewrite Hlen in Ht; cbn in Ht; lia
                         | discriminate]].
  assert (Hinf : forall x,
            gp.feasibleb (formulation.cap_lot_sizing demand capacity
                            sc uc hc init bigM) x = false).
  { intros x. apply not_true_false. intros Hf.
    assert (Hcap : forall s, (s < Py.len demand)%nat ->
              0 <= x (formulation.prod s)
              /\ x (formulation.prod s) <= nth s capacity 0).
    { intros s Hs. split.
      - apply continuous_ok. eapply feasible_var; eauto.
        now apply in_variables_prod.
      - apply capacity_bound_ok. eapply feasible_constr; eauto.
        now apply in_cap_lot_sizing_constrs. }
    destruct Hshort as [Hneg|Hcum].
    - destruct (Hcap t Ht). lra.
    - destruct (point_balance _ x demand init t Hf eq_refl) as [H1 H2];
        [intros; now apply in_cap_lot_sizing_constrs | assumption |].
      assert (Hle :
        cumulative (map (fun t => x (formulation.prod t))
                      (Py.range (Py.len demand))) t
        <= cumulative capacity t).
      { apply cumulative_le.
        - now rewrite length_map_range.
        - now rewrite <- Hlen.
        - intros s Hs.
          rewrite (nth_map_range (fun t => x (formulation.prod t)) _ s)
            by lia.
          apply Hcap. lia. }
      lra. }
  split.
  - intros m x Hm. unfold calls_of in Hm. rewrite run_solve_cap_core in Hm.
    apply Nat.eqb_eq in Hlen. rewrite Hlen, Hmax in Hm.
    cbn in Hm. destruct Hm as [<-|[]]. apply Hinf.
  - now apply (infeasible_cap_core_raises E w demand capacity sc uc hc init
                 bigM).
Qed.

Lemma capacity_shortfall_makes_the_model_infeasible_example :
  exists status,
    status <> GRB.OPTIMAL
    /\ outcome_of (candidate_env (lot_for_lot example_demand) "")
         (capacitated_lot_sizing_tool._solve_cap_core example_demand
            [90; 90; 90; 90] 1000 50 2 0) 0%nat
       = Err (formulation.failure status).
Proof.
  apply (capacity_shortfall_makes_the_model_infeasible nat
           (candidate_env (lot_for_lot example_demand) "") 0%nat
           example_demand [90; 90; 90; 90] 1000 50 2 0 0%nat
           (candidate_sound _ _)).
  - reflexivity.
  - cbn. lia.
  - right. reflexivity.
Defined.

(** ** A feasible point of the uncapacitated model *)

Lemma balance_holds (x : gp.Var -> Q) (demand : list Q) (init : Q) (t : nat) :
  x (formulation.inv t)
  == (if Nat.eqb t 0 then init else x (formulation.inv (t - 1)))
     + x (formulation.prod t) - nth t demand 0 ->
  gp.constr_okb x (formulation.balance demand init t) = true.
Proof.
  unfold gp.constr_okb, formulation.balance. cbn [gp.sense gp.lhs gp.rhs].
  intros H. apply Qeq_bool_iff. revert H.
  destruct (Nat.eqb t 0); unfold gp.eval; cbn; intros H; lra.
Qed.

Lemma linking_holds (x : gp.Var -> Q) (bigM : Q) (t : nat) :
  x (formulation.prod t) <= bigM * x (formulation.setup t) ->
  gp.constr_okb x (formulation.linking bigM t) = true.
Proof.
  unfold gp.constr_okb, formulation.linking. cbn [gp.sense gp.lhs gp.rhs].
  intros H. apply Qle_bool_iff. unfold gp.eval; cbn.
  setoid_replace (bigM * 1 * x (formulation.setup t) + bigM * 0)
    with (bigM * x (formulation.setup t)) by ring.
  lra.
Qed.

Lemma leftover_cases (demand : list Q) (init : Q) (t : nat) :
  (0 <= init - cumulative demand t
   /\ leftover demand init t == init - cumulative demand t)
  \/ (init - cumulative demand t < 0 /\ leftover demand init t == 0).
Proof.
  unfold leftover. cbv zeta.
  destruct (Qle_bool 0 (init - cumulative demand t)) eqn:H.
  - left. apply Qle_bool_iff in H. split; [assumption|reflexivity].
  - right. split; [|reflexivity].
    apply Qnot_le_lt. intros Hle. apply Qle_bool_iff in Hle. congruence.
Qed.

Lemma nth_le_sum (xs : list Q) (t : nat) :
  nonnegative xs -> (t < Py.len xs)%nat -> nth t xs 0 <= Py.sum xs.
Proof.
  intros Hnn. revert t. unfold Py.len.
  induction Hnn as [|x xs Hx Hxs IH]; intros t Ht; [cbn in Ht; lia|].
  pose proof (sum_app [x] xs) as Happ. cbn [app] in Happ.
  assert (Hone : Py.sum [x] == x) by (unfold Py.sum; cbn; ring).
  pose proof (sum_nonneg xs Hxs).
  destruct t as [|t]; cbn [nth].
  - lra.
  - cbn in Ht. pose proof (IH t ltac:(lia)). lra.
Qed.

Lemma nth_nonneg (xs : list Q) (t : nat) :
  nonnegative xs -> 0 <= nth t xs 0.
Proof.
  intros Hnn. revert t. induction Hnn as [|x xs Hx _ IH]; intros [|t]; cbn;
    auto; lra.
Qed.

(** What the point produces in a period, and why that is allowed. *)
Lemma produce_shortfall_period (demand : list Q) (init : Q) (t : nat) :
  nonnegative demand -> 0 <= init -> (t < Py.len demand)%nat ->
  let x := produce_shortfall demand init in
  x (formulation.inv t)
  == (if Nat.eqb t 0 then init else x (formulation.inv (t - 1)))
     + x (formulation.prod t) - nth t demand 0
  /\ 0 <= x (formulation.inv t)
  /\ 0 <= x (formulation.prod t)
  /\ x (formulation.prod t) <= nth t demand 0.
Proof.
  intros Hnn Hinit Ht x.
  pose proof (nth_nonneg demand t Hnn) as Hd.
  destruct t as [|t]; unfold x, produce_shortfall; cbn.
  - pose proof (cumulative_0 demand Ht).
    destruct (leftover_cases demand init 0) as [[? ?]|[? ?]];
      repeat split; lra.
  - replace (t - 0)%nat with t by lia.
    pose proof (cumulative_S demand t Ht).
    destruct (leftover_cases demand init t) as [[? ?]|[? ?]];
      destruct (leftover_cases demand init (S t)) as [[? ?]|[? ?]];
      repeat split; lra.
Qed.

Lemma produce_shortfall_feasible (demand : list Q) (sc uc hc init : Q) :
  nonnegative demand -> 0 <= init ->
  gp.feasibleb (formulation.lot_sizing demand sc uc hc init)
    (produce_shortfall demand init) = true.
Proof.
  intros Hnn Hinit.
  set (x := produce_shortfall demand init).
  unfold gp.feasibleb, formulation.lot_sizing. cbn [gp.vars gp.constrs].
  apply andb_true_intro. split; apply forallb_forall.
  - intros vi Hvi. unfold formulation.variables in Hvi.
    apply in_app_or in Hvi as [Hvi|Hvi];
      [apply in_app_or in Hvi as [Hvi|Hvi]|];
      apply in_map_iff in Hvi as [t [<- Ht]]; apply in_seq in Ht;
      destruct (produce_shortfall_period demand init t Hnn Hinit
                  ltac:(lia)) as [_ [Hi [Hp _]]];
      unfold gp.var_okb; cbn [gp.lb gp.ub gp.var gp.vtype].
    + rewrite !andb_true_r. now apply Qle_bool_iff.
    + rewrite !andb_true_r. now apply Qle_bool_iff.
    + reflexivity.
  - intros c Hc. apply in_flat_map in Hc as [t [Ht Hc]]. apply in_seq in Ht.
    destruct (produce_shortfall_period demand init t Hnn Hinit
                ltac:(lia)) as [Hb [_ [_ Hle]]].
    destruct Hc as [<-|[<-|[]]].
    + now apply balance_holds.
    + apply linking_holds.
      pose proof (nth_le_sum demand t Hnn ltac:(lia)).
      change (x (formulation.setup t)) with 1. fold x in Hle. lra.
Qed.

(** X7. For a Demand Series without negative entries and a non-negative
    initial inventory, the model that [_solve_core] submits always has a
    feasible point: the one that produces in every period exactly what the
    stock does not cover.  So a failure of the uncapacitated operations on
    such input is never due to an infeasible model. *)
Theorem uncapacitated_model_is_feasible :
  forall (W : Type) (E : env W) (w : W) (demand : list Q)
         (setup_cost unit_cost holding_cost initial_inventory : Q),
    nonnegative demand ->
    0 <= initial_inventory ->
    (forall m,
       In m (submitted (calls_of E (lot_sizing_tool._solve_core demand
                          setup_cost unit_cost holding_cost initial_inventory)
                          w)) ->
       gp.feasibleb m (produce_shortfall demand initial_inventory) = true)
    /\ (forall (input : string) (n : nat),
          exists v,
            returns (candidate_env
                       (produce_shortfall demand initial_inventory) input)
                    (lot_sizing_tool._solve_core demand setup_cost unit_cost
                       holding_cost initial_inventory) n v).
Proof.
  intros W E w demand sc uc hc init Hnn Hinit.
  pose proof (produce_shortfall_feasible demand sc uc hc init Hnn Hinit)
    as Hfeas.
  split.
  - intros m Hm. unfold calls_of in Hm. rewrite run_solve_core in Hm.
    cbn in Hm. destruct Hm as [<-|[]]. exact Hfeas.
  - intros input n. eexists. unfold returns, outcome_of.
    rewrite run_solve_core. cbn [fst solver candidate_env].
    unfold candidate_solver. rewrite Hfeas. cbn. reflexivity.
Qed.

Lemma uncapacitated_model_is_feasible_example :
  gp.feasibleb (formulation.lot_sizing example_demand 1000 50 2 120)
    (produce_shortfall example_demand 120) = true.
Proof.
  apply (proj1 (uncapacitated_model_is_feasible nat
                  (candidate_env (lot_for_lot example_demand) "") 0%nat
                  example_demand 1000 50 2 120
                  ltac:(repeat constructor; discriminate)
                  ltac:(discriminate))).
  unfold calls_of. vm_compute. left. reflexivity.
Defined.

(** ** Input that the command line rejects *)

(** X8. Run directly, a module stops after reading standard input, with
    nothing written, no model created and no solver call, when the input
    does not parse (the error of the parser propagates), when it parses to
    something that is not a JSON object, when the object lacks a parameter
    without a default, or when it has a key that is no keyword of the tool (a
    [TypeError] in the last three cases), whatever the values are.  The key
    [sanitize_inputs_outputs] is a keyword of both tools. *)
Theorem command_line_rejects_bad_input :
  forall (json_loads : string -> result pyval) (float_repr : Q -> string)
         (encode_basestring : string -> string)
         (untyped_call : list (string * pyval)
                         -> prog (list (string * pyval)))
         (W : Type) (E : env W) (w : W),
    let main := lot_sizing_tool.main json_loads float_repr
                  encode_basestring untyped_call in
    let cap_main := capacitated_lot_sizing_tool.main json_loads float_repr
                      encode_basestring untyped_call in
    (forall e,
       json_loads (stdin E) = Err e ->
       run E main w = (Err e, w, [CallReadStdin])
       /\ run E cap_main w = (Err e, w, [CallReadStdin]))
    /\
    (forall v,
       json_loads (stdin E) = Ok v ->
       (forall d, v <> PyDict d) ->
       exists msg,
         run E main w = (Err (TypeError msg), w, [CallReadStdin])
         /\ run E cap_main w = (Err (TypeError msg), w, [CallReadStdin]))
    /\
    (forall d,
       json_loads (stdin E) = Ok (PyDict d) ->
       (exists k, In k ["demand"; "setup_cost"; "unit_cost"; "holding_cost"]
                  /\ kwargs.get d k = None)
       \/ (exists k v, In (k, v) d
                       /\ ~ In k ["demand"; "setup_cost"; "unit_cost";
                                  "holding_cost"; "initial_inventory";
                                  "sanitize_inputs_outputs"]) ->
       exists msg, run E main w = (Err (TypeError msg), w, [CallReadStdin]))
    /\
    (forall d,
       json_loads (stdin E) = Ok (PyDict d) ->
       (exists k, In k ["demand"; "capacity"; "setup_cost"; "unit_cost";
                        "holding_cost"]
                  /\ kwargs.get d k = None)
       \/ (exists k v, In (k, v) d
                       /\ ~ In k ["demand"; "capacity"; "setup_cost";
                                  "unit_cost"; "holding_cost";
                                  "initial_inventory";
                                  "sanitize_inputs_outputs"]) ->
       exists msg,
         run E cap_main w = (Err (TypeError msg), w, [CallReadStdin])).
Proof.
  intros json_loads float_repr enc untyped W E w main cap_main.
  unfold main, cap_main, lot_sizing_tool.main,
         capacitated_lot_sizing_tool.main.
  split; [|split; [|split]].
  - intros e Hload. cbn [run]. rewrite Hload. now split.
  - intros v Hload Hv. cbn [run]. rewrite Hload. cbn [lift bind].
    destruct v; try (eexists; split; reflexivity).
    exfalso. now apply (Hv kvs).
  - intros d Hload Hbad. cbn [run]. rewrite Hload. cbn [lift bind].
    unfold lot_sizing_tool.call_solve_lot_sizing.
    destruct (check_rejects lot_sizing_tool.keywords
                lot_sizing_tool.required d Hbad) as [msg ->].
    now exists msg.
  - intros d Hload Hbad. cbn [run]. rewrite Hload. cbn [lift bind].
    unfold capacitated_lot_sizing_tool.call_solve_cap_lot_sizing.
    destruct (check_rejects capacitated_lot_sizing_tool.keywords
                capacitated_lot_sizing_tool.required d Hbad) as [msg ->].
    now exists msg.
Qed.

Lemma command_line_rejects_bad_input_example :
  exists msg,
    run (candidate_env (lot_for_lot example_demand) "")
        (lot_sizing_tool.main incomplete_loads whole_repr quoted
           untyped_fails) 0%nat
    = (Err (TypeError msg), 0%nat, [CallReadStdin]).
Proof.
  destruct (command_line_rejects_bad_input incomplete_loads whole_repr quoted
              untyped_fails nat
              (candidate_env (lot_for_lot example_demand) "") 0%nat)
    as [_ [_ [Hmissing _]]].
  apply (Hmissing incomplete_data eq_refl).
  left. exists "demand". split; [cbn; auto | reflexivity].
Defined.

(** ** A feasible point of the capacitated model *)

Lemma capacity_bound_holds (x : gp.Var -> Q) (capacity : list Q) (t : nat) :
  x (formulation.prod t) <= nth t capacity 0 ->
  gp.constr_okb x (formulation.capacity_bound capacity t) = true.
Proof.
  unfold gp.constr_okb, formulation.capacity_bound.
  cbn [gp.sense gp.lhs gp.rhs].
  intros H. apply Qle_bool_iff. unfold gp.eval; cbn. lra.
Qed.

Lemma produce_shortfall_cap_feasible (demand capacity : list Q)
    (sc uc hc init bigM : Q) :
  nonnegative demand -> 0 <= init ->
  Py.len demand = Py.len capacity ->
  Py.max capacity = Ok bigM ->
  (forall t, (t < Py.len demand)%nat -> nth t demand 0 <= nth t capacity 0) ->
  gp.feasibleb (formulation.cap_lot_sizing demand capacity sc uc hc init bigM)
    (produce_shortfall demand init) = true.
Proof.
  intros Hnn Hinit Hlen Hmax Hcover.
  set (x := produce_shortfall demand init).
  unfold gp.feasibleb, formulation.cap_lot_sizing. cbn [gp.vars gp.constrs].
  apply andb_true_intro. split; apply forallb_forall.
  - intros vi Hvi. unfold formulation.variables in Hvi.
    apply in_app_or in Hvi as [Hvi|Hvi];
      [apply in_app_or in Hvi as [Hvi|Hvi]|];
      apply in_map_iff in Hvi as [t [<- Ht]]; apply in_seq in Ht;
      destruct (produce_shortfall_period demand init t Hnn Hinit
                  ltac:(lia)) as [_ [Hi [Hp _]]];
      unfold gp.var_okb; cbn [gp.lb gp.ub gp.var gp.vtype].
    + rewrite !andb_true_r. now apply Qle_bool_iff.
    + rewrite !andb_true_r. now apply Qle_bool_iff.
    + reflexivity.
  - intros c Hc. apply in_flat_map in Hc as [t [Ht Hc]]. apply in_seq in Ht.
    destruct (produce_shortfall_period demand init t Hnn Hinit
                ltac:(lia)) as [Hb [_ [_ Hle]]].
    fold x in Hle.
    pose proof (Hcover t ltac:(lia)) as Hct.
    destruct Hc as [<-|[<-|[<-|[]]]].
    + now apply balance_holds.
    + apply capacity_bound_holds. lra.
    + apply linking_holds.
      pose proof (nth_Forall_le capacity bigM t (proj2 (max_spec _ _ Hmax))
                    ltac:(rewrite <- Hlen; lia)).
      change (x (formulation.setup t)) with 1. lra.
Qed.

(** X9. For a Demand Series without negative entries, a non-negative initial
    inventory and a Capacity Series of the same length that covers the demand
    of every period, the model that [_solve_cap_core] submits has a feasible
    point (produce in every period what the stock does not cover), and the
    call returns when the solver proposes that point. *)
Theorem capacitated_model_is_feasible :
  forall (W : Type) (E : env W) (w : W) (demand capacity : list Q)
         (setup_cost unit_cost holding_cost initial_inventory : Q),
    nonnegative demand ->
    0 <= initial_inventory ->
    (0 < Py.len demand)%nat ->
    Py.len demand = Py.len capacity ->
    (forall t, (t < Py.len demand)%nat ->
       nth t demand 0 <= nth t capacity 0) ->
    (forall m,
       In m (submitted (calls_of E
                          (capacitated_lot_sizing_tool._solve_cap_core demand
                             capacity setup_cost unit_cost holding_cost
                             initial_inventory) w)) ->
       gp.feasibleb m (produce_shortfall demand initial_inventory) = true)
    /\ (forall (input : string) (n : nat),
          exists v,
            returns (candidate_env
                       (produce_shortfall demand initial_inventory) input)
                    (capacitated_lot_sizing_tool._solve_cap_core demand
                       capacity setup_cost unit_cost holding_cost
                       initial_inventory) n v).
Proof.
  intros W E w demand capacity sc uc hc init Hnn Hinit HT Hlen Hcover.
  destruct (Py.max capacity) as [bigM|e] eqn:Hmax;
    [|destruct capacity; [rewrite Hlen in HT; cbn in HT; lia
                         | discriminate]].
  pose proof (produce_shortfall_cap_feasible demand capacity sc uc hc init
                bigM Hnn Hinit Hlen Hmax Hcover) as Hfeas.
  apply Nat.eqb_eq in Hlen.
  split.
  - intros m Hm. unfold calls_of in Hm. rewrite run_solve_cap_core in Hm.
    rewrite Hlen, Hmax in Hm. cbn in Hm. destruct Hm as [<-|[]]. exact Hfeas.
  - intros input n. eexists. unfold returns, outcome_of.
    rewrite run_solve_cap_core, Hlen, Hmax.
    cbn [negb fst solver candidate_env].
    unfold candidate_solver. rewrite Hfeas. cbn. reflexivity.
Qed.

Lemma capacitated_model_is_feasible_example :
  exists v,
    returns (candidate_env (produce_shortfall example_demand 120) "")
      (capacitated_lot_sizing_tool._solve_cap_core example_demand
         example_capacity 1000 50 2 120) 0%nat v.
Proof.
  apply (proj2 (capacitated_model_is_feasible nat
                  (candidate_env (lot_for_lot example_demand) "") 0%nat
                  example_demand example_capacity 1000 50 2 120
                  ltac:(repeat constructor; discriminate)
                  ltac:(discriminate)
                  ltac:(cbn; lia)
                  eq_refl
                  ltac:(intros [|[|[|[|t]]]] Ht;
                        [discriminate | discriminate | discriminate
                        | discriminate | cbn in Ht; lia]))).
Defined.

(** ** The default of [initial_inventory] *)

Lemma get_app (d d' : list (string * pyval)) (k : string) :
  kwargs.get (d ++ d') k
  = match kwargs.get d k with
    | Some v => Some v
    | None => kwargs.get d' k
    end.
Proof.
  induction d as [|[k' v] d IH]; cbn; [reflexivity|].
  now destruct (String.eqb k' k).
Qed.

Lemma required_app {A : Type} (conv : pyval -> result A)
    (d d' : list (string * pyval)) (k : string) (a : A) :
  kwargs.required conv d k = Ok a -> kwargs.required conv (d ++ d') k = Ok a.
Proof.
  unfold kwargs.required. rewrite get_app.
  destruct (kwargs.get d k); [trivial | discriminate].
Qed.

Lemma only_app (names : list string) (d d' : list (string * pyval)) :
  kwargs.only names d = Ok tt -> kwargs.only names d' = Ok tt ->
  kwargs.only names (d ++ d') = Ok tt.
Proof.
  unfold kwargs.only. rewrite forallb_app.
  destruct (forallb _ d); [|discriminate].
  destruct (forallb _ d'); [reflexivity | discriminate].
Qed.

(** X10. A JSON object without the key [initial_inventory] binds with an
    initial inventory of 0, and binds to the same parameters as the object
    extended with [initial_inventory] equal to [0.0]; so both command lines
    treat a missing initial inventory as zero. *)
Theorem initial_inventory_defaults_to_zero :
  forall (d : list (string * pyval)) (demand capacity : list Q)
         (sc uc hc init : Q),
    kwargs.get d "initial_inventory" = None ->
    (lot_sizing_tool.bind_parameters d = Ok (demand, sc, uc, hc, init) ->
     init = 0
     /\ lot_sizing_tool.bind_parameters
          (d ++ [("initial_inventory", PyFloat 0)])
        = Ok (demand, sc, uc, hc, 0))
    /\
    (capacitated_lot_sizing_tool.bind_parameters d
     = Ok (demand, capacity, sc, uc, hc, init) ->
     init = 0
     /\ capacitated_lot_sizing_tool.bind_parameters
          (d ++ [("initial_inventory", PyFloat 0)])
        = Ok (demand, capacity, sc, uc, hc, 0)).
Proof.
  intros d demand capacity sc uc hc init Hnone.
  assert (Hopt : kwargs.optional kwargs.as_float 0
                   (d ++ [("initial_inventory", PyFloat 0)])
                   "initial_inventory" = Ok 0).
  { unfold kwargs.optional. now rewrite get_app, Hnone. }
  split; intros Hbind.
  - apply bind_parameters_ok in Hbind as [Honly [Hd [Hs [Hu [Hh Hi]]]]].
    unfold kwargs.optional in Hi. rewrite Hnone in Hi. injection Hi as <-.
    split; [reflexivity|].
    unfold lot_sizing_tool.bind_parameters, lot_sizing_tool.keywords.
    rewrite (only_app _ d [("initial_inventory", PyFloat 0)] Honly eq_refl).
    rewrite (required_app _ d _ _ _ Hd), (required_app _ d _ _ _ Hs),
            (required_app _ d _ _ _ Hu), (required_app _ d _ _ _ Hh), Hopt.
    reflexivity.
  - apply cap_bind_parameters_ok in Hbind
      as [Honly [Hd [Hc [Hs [Hu [Hh Hi]]]]]].
    unfold kwargs.optional in Hi. rewrite Hnone in Hi. injection Hi as <-.
    split; [reflexivity|].
    unfold capacitated_lot_sizing_tool.bind_parameters,
           capacitated_lot_sizing_tool.keywords.
    rewrite (only_app _ d [("initial_inventory", PyFloat 0)] Honly eq_refl).
    rewrite (required_app _ d _ _ _ Hd), (required_app _ d _ _ _ Hc),
            (required_app _ d _ _ _ Hs), (required_app _ d _ _ _ Hu),
            (required_app _ d _ _ _ Hh), Hopt.
    reflexivity.
Qed.

Lemma initial_inventory_defaults_to_zero_example :
  lot_sizing_tool.bind_parameters
    (example_data ++ [("initial_inventory", PyFloat 0)])
  = Ok (example_demand, 1000, 50, 2, 0).
Proof.
  apply (proj1 (initial_inventory_defaults_to_zero example_data
                  example_demand [] 1000 50 2 0 eq_refl)).
  vm_compute. reflexivity.
Defined.

(** ** The names of the constraints *)

Lemma str_nat_inj (n n' : nat) : Py.str_nat n = Py.str_nat n' -> n = n'.
Proof.
  unfold Py.str_nat. intros H.
  apply (f_equal NilEmpty.uint_of_string) in H.
  rewrite !NilEmpty.usu in H. injection H as H.
  now apply DecimalNat.Unsigned.to_uint_inj.
Qed.

Lemma append_inj (p s s' : string) : p ++ s = p ++ s' -> s = s'.
Proof.
  induction p as [|c p IH]; cbn; [trivial|].
  intros H. injection H as H. now apply IH.
Qed.

(** The constraint names of the periods [a .. a+n-1], for the families of
    constraints [fs]. *)
Lemma names_of_periods (fs : list (nat -> gp.Constr)) (a n : nat)
    (name : string) :
  In name (map gp.ConstrName
             (flat_map (fun t => map (fun f => f t) fs) (seq a n))) ->
  exists t f, (a <= t < a + n)%nat /\ In f fs /\ name = gp.ConstrName (f t).
Proof.
  intros H. apply in_map_iff in H as [c [<- Hc]].
  apply in_flat_map in Hc as [t [Ht Hc]]. apply in_seq in Ht.
  apply in_map_iff in Hc as [f [<- Hf]]. eauto.
Qed.

Lemma NoDup_names (fs : list (nat -> gp.Constr)) (a n : nat) :
  (forall t, NoDup (map (fun f => gp.ConstrName (f t)) fs)) ->
  (forall f f' t t', In f fs -> In f' fs ->
     gp.ConstrName (f t) = gp.ConstrName (f' t') -> t = t') ->
  NoDup (map gp.ConstrName
           (flat_map (fun t => map (fun f => f t) fs) (seq a n))).
Proof.
  intros Hrow Hinj. revert a. induction n as [|n IH]; intros a; cbn.
  - constructor.
  - rewrite map_app, map_map.
    assert (Hsep : forall name,
              In name (map (fun f => gp.ConstrName (f a)) fs) ->
              ~ In name (map gp.ConstrName
                           (flat_map (fun t => map (fun f => f t) fs)
                              (seq (S a) n)))).
    { intros name Hin Hrest.
      apply in_map_iff in Hin as [f [<- Hf]].
      apply names_of_periods in Hrest as [t [f' [Ht [Hf' Heq]]]].
      pose proof (Hinj f f' a t Hf Hf' Heq). lia. }
    specialize (Hrow a). specialize (IH (S a)).
    revert Hrow Hsep.
    generalize (map (fun f => gp.ConstrName (f a)) fs) as row.
    induction row as [|x row IHrow]; intros Hrow Hsep; cbn; [exact IH|].
    inversion Hrow as [|? ? Hx Hrow']; subst.
    constructor.
    + intros Hin. apply in_app_or in Hin as [Hin|Hin]; [contradiction|].
      apply (Hsep x); [now left | assumption].
    + apply IHrow; [assumption|]. intros name Hn. apply Hsep. now right.
Qed.

Lemma length_periods {A : Type} (fs : list (nat -> A)) (a n : nat) :
  Py.len (flat_map (fun t => map (fun f => f t) fs) (seq a n))
  = (n * Py.len fs)%nat.
Proof.
  unfold Py.len.
  revert a. induction n as [|n IH]; intros a; cbn; [reflexivity|].
  now rewrite length_app, length_map, IH.
Qed.

Lemma lot_sizing_names (demand : list Q) (init bigM : Q) (a n : nat) :
  NoDup (map gp.ConstrName
           (flat_map (fun t => [formulation.balance demand init t;
                                formulation.linking bigM t]) (seq a n))).
Proof.
  change (NoDup (map gp.ConstrName
                   (flat_map (fun t => map (fun f => f t)
                                         [formulation.balance demand init;
                                          formulation.linking bigM])
                      (seq a n)))).
  apply NoDup_names.
  - intros t. cbn. repeat constructor; cbn; [|tauto].
    intros [H|[]]. discriminate.
  - intros f f' t t' [<-|[<-|[]]] [<-|[<-|[]]] H;
      cbn [gp.ConstrName formulation.balance formulation.linking] in H;
      first [ now apply append_inj, str_nat_inj in H | discriminate ].
Qed.

Lemma cap_lot_sizing_names (demand capacity : list Q) (init bigM : Q)
    (a n : nat) :
  NoDup (map gp.ConstrName
           (flat_map (fun t => [formulation.balance demand init t;
                                formulation.capacity_bound capacity t;
                                formulation.linking bigM t]) (seq a n))).
Proof.
  change (NoDup (map gp.ConstrName
                   (flat_map (fun t => map (fun f => f t)
                                         [formulation.balance demand init;
                                          formulation.capacity_bound capacity;
                                          formulation.linking bigM])
                      (seq a n)))).
  apply NoDup_names.
  - intros t. cbn. repeat constructor; cbn; try tauto.
    + intros [H|[H|[]]]; discriminate.
    + intros [H|[]]. discriminate.
  - intros f f' t t' [<-|[<-|[<-|[]]]] [<-|[<-|[<-|[]]]] H;
      cbn [gp.ConstrName formulation.balance formulation.capacity_bound
           formulation.linking] in H;
      first [ now apply append_inj, str_nat_inj in H | discriminate ].
Qed.

(** X11. The model that a core submits over [T] periods has [3 * T]
    variables and [2 * T] constraints ([3 * T] for the capacitated core), and
    the names given to its constraints ([bal_t], [cap_t], [link_t]) are
    pairwise distinct. *)
Theorem submitted_model_shape :
  forall (W : Type) (E : env W) (w : W) (demand capacity : list Q)
         (setup_cost unit_cost holding_cost initial_inventory : Q)
         (m : gp.Model),
    (In m (submitted (calls_of E (lot_sizing_tool._solve_core demand
                        setup_cost unit_cost holding_cost initial_inventory)
                        w)) ->
     Py.len (gp.vars m) = (3 * Py.len demand)%nat
     /\ Py.len (gp.constrs m) = (2 * Py.len demand)%nat
     /\ NoDup (map gp.ConstrName (gp.constrs m)))
    /\
    (In m (submitted (calls_of E
                        (capacitated_lot_sizing_tool._solve_cap_core demand
                           capacity setup_cost unit_cost holding_cost
                           initial_inventory) w)) ->
     Py.len (gp.vars m) = (3 * Py.len demand)%nat
     /\ Py.len (gp.constrs m) = (3 * Py.len demand)%nat
     /\ NoDup (map gp.ConstrName (gp.constrs m))).
Proof.
  intros W E w demand capacity sc uc hc init m.
  assert (Hvars : Py.len (formulation.variables (Py.len demand))
                  = (3 * Py.len demand)%nat).
  { unfold formulation.variables, Py.len, Py.range.
    rewrite !length_app, !length_map, !length_seq. lia. }
  split; intros Hm; unfold calls_of in Hm.
  - rewrite run_solve_core in Hm. cbn in Hm. destruct Hm as [<-|[]].
    unfold formulation.lot_sizing. cbn [gp.vars gp.constrs].
    split; [exact Hvars|]. split; [|apply lot_sizing_names].
    change (fun t => [formulation.balance demand init t;
                      formulation.linking (Py.sum demand + init) t])
      with (fun t => map (fun f => f t)
                       [formulation.balance demand init;
                        formulation.linking (Py.sum demand + init)]).
    unfold Py.range. rewrite length_periods. cbn. lia.
  - rewrite run_solve_cap_core in Hm.
    destruct (negb _); [destruct Hm|].
    destruct (Py.max capacity) as [bigM|e]; cbn in Hm; [|destruct Hm].
    destruct Hm as [<-|[]].
    unfold formulation.cap_lot_sizing. cbn [gp.vars gp.constrs].
    split; [exact Hvars|]. split; [|apply cap_lot_sizing_names].
    change (fun t => [formulation.balance demand init t;
                      formulation.capacity_bound capacity t;
                      formulation.linking bigM t])
      with (fun t => map (fun f => f t)
                       [formulation.balance demand init;
                        formulation.capacity_bound capacity;
                        formulation.linking bigM]).
    unfold Py.range. rewrite length_periods. cbn. lia.
Qed.

Lemma submitted_model_shape_example :
  Py.len (gp.vars (formulation.lot_sizing example_demand 1000 50 2 0))
  = 12%nat
  /\ Py.len (gp.constrs (formulation.lot_sizing example_demand 1000 50 2 0))
     = 8%nat
  /\ NoDup (map gp.ConstrName
              (gp.constrs (formulation.lot_sizing example_demand 1000 50 2
                             0))).
Proof.
  apply (proj1 (submitted_model_shape nat
                  (candidate_env (lot_for_lot example_demand) "") 0%nat
                  example_demand example_capacity 1000 50 2 0
                  (formulation.lot_sizing example_demand 1000 50 2 0))).
  unfold calls_of. vm_compute. left. reflexivity.
Defined.
